(** * ModelServe operator: admission webhook and reconciler

    A shallow embedding of the Go operator of the inference service:

    - [api/v1alpha1/modelserve_types.go]   the [ModelServe] resource,
    - [api/v1alpha1/modelserve_webhook.go] [Default], [ValidateCreate],
      [ValidateUpdate], [ValidateDelete] and [validateJWT],
    - [internal/controller/modelserve_controller.go] [Reconcile] and the
      child builders, in the version that maintains the status phase and
      builds the workload with the MinIO init container; the version
      before it, which the same file holds, is [Module legacy].

    Go's [int32] is modelled as [Z] (the code only compares these values and
    halves them), Go strings as [string] (sequences of bytes), a
    [map[string]string] as a [gmap string string], a nil pointer as [None]. *)

From Stdlib Require Import ZArith NArith Ascii String List Bool Lia.
From stdpp Require Import base option list strings gmap.

Local Open Scope Z_scope.
Local Open Scope string_scope.

(* ===================================================================== *)
(** ** The resource: modelserve_types.go *)
(* ===================================================================== *)

(** [ModelServeSpec].  [Replicas] is a [*int32]: [None] is the nil pointer. *)
Record ModelServeSpec := mkSpec {
  ModelName     : string;
  ModelUUID     : string;
  MinIOPath     : string;
  MinIOEndpoint : string;
  MinIOBucket   : string;
  Image         : string;
  Replicas      : option Z;
  RuntimeParams : string;
  MemoryLimit   : Z;
  CPULimit      : Z
}.

(** [ModelServeStatus].  [StartedAt] is a [*metav1.Time], kept as Unix
    seconds. *)
Record ModelServeStatus := mkStatus {
  AvailableReplicas : Z;
  Phase             : string;
  GatewayURL        : string;
  ServiceName       : string;
  PodName           : string;
  StartedAt         : option Z;
  Message           : string
}.

(** The part of [metav1.ObjectMeta] the operator reads. *)
Record ObjectMeta := mkMeta {
  Name        : string;
  Namespace   : string;
  Annotations : gmap string string
}.

Record ModelServe := mkModelServe {
  Meta   : ObjectMeta;
  Spec   : ModelServeSpec;
  Status : ModelServeStatus
}.

(** Field updates, one per assignment form used by the Go code. *)
Definition with_spec (m : ModelServe) (s : ModelServeSpec) : ModelServe :=
  mkModelServe (Meta m) s (Status m).

Definition with_status (m : ModelServe) (s : ModelServeStatus) : ModelServe :=
  mkModelServe (Meta m) (Spec m) s.

Definition set_AvailableReplicas (n : Z) (s : ModelServeStatus) :=
  mkStatus n (Phase s) (GatewayURL s) (ServiceName s) (PodName s)
           (StartedAt s) (Message s).
Definition set_Phase (p : string) (s : ModelServeStatus) :=
  mkStatus (AvailableReplicas s) p (GatewayURL s) (ServiceName s) (PodName s)
           (StartedAt s) (Message s).
Definition set_GatewayURL (u : string) (s : ModelServeStatus) :=
  mkStatus (AvailableReplicas s) (Phase s) u (ServiceName s) (PodName s)
           (StartedAt s) (Message s).
Definition set_ServiceName (n : string) (s : ModelServeStatus) :=
  mkStatus (AvailableReplicas s) (Phase s) (GatewayURL s) n (PodName s)
           (StartedAt s) (Message s).
Definition set_PodName (n : string) (s : ModelServeStatus) :=
  mkStatus (AvailableReplicas s) (Phase s) (GatewayURL s) (ServiceName s) n
           (StartedAt s) (Message s).
Definition set_StartedAt (t : option Z) (s : ModelServeStatus) :=
  mkStatus (AvailableReplicas s) (Phase s) (GatewayURL s) (ServiceName s)
           (PodName s) t (Message s).
Definition set_Message (t : string) (s : ModelServeStatus) :=
  mkStatus (AvailableReplicas s) (Phase s) (GatewayURL s) (ServiceName s)
           (PodName s) (StartedAt s) t.

(** Go's [s == ""] and [s != t] on strings. *)
Definition is_empty (s : string) : bool := bool_decide (s = "").
Definition str_eqb (s t : string) : bool := bool_decide (s = t).

(* ===================================================================== *)
(** ** Process environment and library functions *)
(* ===================================================================== *)

(** [JWTClaims], the payload of the token. *)
Record JWTClaims := mkClaims {
  Sub   : string;
  Type_ : string;
  Exp   : Z;
  Iat   : Z
}.

(** What the operator takes from its process and from Go's standard library
    without defining it: [os.Getenv], [time.Now().Unix()], HMAC-SHA256
    ([crypto/hmac] over [crypto/sha256], key first), [json.Unmarshal] into a
    [JWTClaims] ([None] when it returns an error) and [strings.Fields]. *)
Record Runtime := mkRuntime {
  Getenv        : string -> string;
  NowUnix       : Z;
  hmac_sha256   : string -> string -> string;
  json_Unmarshal : string -> option JWTClaims;
  strings_Fields : string -> list string
}.

(* ===================================================================== *)
(** ** Go library functions with a fixed meaning *)
(* ===================================================================== *)

(** [strings.Split(s, ".")]: the segments between the dots, one more than
    there are dots. *)
Fixpoint Split_dot (s : string) : list string :=
  match s with
  | EmptyString => [""]
  | String c r =>
      if bool_decide (c = "."%char) then "" :: Split_dot r
      else match Split_dot r with
           | h :: t => String c h :: t
           | [] => [String c ""]
           end
  end.

(** [encoding/base64], [RawURLEncoding]: the URL alphabet, no padding, and
    the decoder's default (non-strict) mode, which skips CR and LF and does
    not look at the unused low bits of the last character. *)
Module base64.

Definition encodeURL : string :=
  "ABCDEFGHIJKLMNOPQRSTUVWXYZabcdefghijklmnopqrstuvwxyz0123456789-_".

(** The character of a six-bit value. *)
Definition enc_char (n : N) : ascii :=
  match String.get (N.to_nat n) encodeURL with
  | Some c => c
  | None => "A"%char
  end.

Fixpoint index_from (i : N) (c : ascii) (s : string) : option N :=
  match s with
  | EmptyString => None
  | String d r => if bool_decide (c = d) then Some i
                  else index_from (N.succ i) c r
  end.

(** The decode map: the position of a character in the alphabet. *)
Definition dec_char (c : ascii) : option N := index_from 0 c encodeURL.

Definition byte (n : N) : ascii := ascii_of_N (n mod 256).

(** [EncodeToString]: three bytes give four characters; a rest of one
    byte gives two characters and a rest of two gives three. *)
Fixpoint EncodeToString (s : string) : string :=
  match s with
  | EmptyString => ""
  | String a EmptyString =>
      let a := N_of_ascii a in
      String (enc_char (a / 4)) (String (enc_char ((a mod 4) * 16)) "")
  | String a (String b EmptyString) =>
      let a := N_of_ascii a in
      let b := N_of_ascii b in
      String (enc_char (a / 4))
        (String (enc_char ((a mod 4) * 16 + b / 16))
           (String (enc_char ((b mod 16) * 4)) ""))
  | String a (String b (String c r)) =>
      let a := N_of_ascii a in
      let b := N_of_ascii b in
      let c := N_of_ascii c in
      String (enc_char (a / 4))
        (String (enc_char ((a mod 4) * 16 + b / 16))
           (String (enc_char ((b mod 16) * 4 + c / 64))
              (String (enc_char (c mod 64)) (EncodeToString r))))
  end%N.

Definition is_newline (c : ascii) : bool :=
  bool_decide (c = "010"%char) || bool_decide (c = "013"%char).

(** The six-bit values of the characters, CR and LF skipped; [None] at
    the first character outside the alphabet. *)
Fixpoint sextets (s : string) : option (list N) :=
  match s with
  | EmptyString => Some []
  | String c r =>
      if is_newline c then sextets r
      else match dec_char c with
           | None => None
           | Some n => match sextets r with
                       | None => None
                       | Some l => Some (n :: l)
                       end
           end
  end.

(** Four values give three bytes; at the end two values give one byte and
    three give two; a single value left over is an error. *)
Fixpoint bytes_of (l : list N) : option string :=
  match l with
  | [] => Some ""
  | [_] => None
  | [e1; e2] => Some (String (byte (e1 * 4 + e2 / 16)) "")
  | [e1; e2; e3] =>
      Some (String (byte (e1 * 4 + e2 / 16))
              (String (byte ((e2 mod 16) * 16 + e3 / 4)) ""))
  | e1 :: e2 :: e3 :: e4 :: r =>
      match bytes_of r with
      | None => None
      | Some t =>
          Some (String (byte (e1 * 4 + e2 / 16))
                  (String (byte ((e2 mod 16) * 16 + e3 / 4))
                     (String (byte ((e3 mod 4) * 64 + e4)) t)))
      end
  end%N.

(** [DecodeString]; [None] stands for a [CorruptInputError]. *)
Definition DecodeString (s : string) : option string :=
  match sextets s with
  | None => None
  | Some l => bytes_of l
  end.

(** The six-bit values [EncodeToString] writes, as numbers. *)
Fixpoint values (s : string) : list N :=
  match s with
  | EmptyString => []
  | String a EmptyString =>
      let a := N_of_ascii a in [a / 4; (a mod 4) * 16]
  | String a (String b EmptyString) =>
      let a := N_of_ascii a in
      let b := N_of_ascii b in
      [a / 4; (a mod 4) * 16 + b / 16; (b mod 16) * 4]
  | String a (String b (String c r)) =>
      let a := N_of_ascii a in
      let b := N_of_ascii b in
      let c := N_of_ascii c in
      a / 4 :: (a mod 4) * 16 + b / 16 :: (b mod 16) * 4 + c / 64
        :: c mod 64 :: values r
  end%N.

(** The character of [n] is read back as [n] and is not skipped. *)
Definition char_ok (n : N) : bool :=
  match dec_char (enc_char n) with
  | Some k => N.eqb k n
  | None => false
  end && negb (is_newline (enc_char n)).

End base64.

(* ===================================================================== *)
(** ** The admission webhook: modelserve_webhook.go *)
(* ===================================================================== *)

(** A Go [error] built by [fmt.Errorf]: its text.  Where the Go text ends in
    the rendering of a library error ([%v] of a base64 or JSON error), that
    rendering is left out and the text stops after the colon. *)
Definition error := string.

(** [Default]: fills the unset fields; it does not read the environment. *)
Definition Default (r : ModelServe) : ModelServe :=
  let s := Spec r in
  with_spec r
    (mkSpec (ModelName s) (ModelUUID s) (MinIOPath s)
       (if is_empty (MinIOEndpoint s) then "minio:9000" else MinIOEndpoint s)
       (if is_empty (MinIOBucket s) then "inference-models" else MinIOBucket s)
       (if is_empty (Image s) then "ghcr.io/ggerganov/llama.cpp:server"
        else Image s)
       (match Replicas s with None => Some 1 | Some n => Some n end)
       (RuntimeParams s)
       (if Z.eqb (MemoryLimit s) 0 then 4096 else MemoryLimit s)
       (if Z.eqb (CPULimit s) 0 then 2000 else CPULimit s)).

Definition auth_token_key : string := "model.example.com/auth-token".

(** The shared secret: [JWT_SECRET], or the built-in one when that is
    empty. *)
Definition jwtSecret (rt : Runtime) : string :=
  if is_empty (Getenv rt "JWT_SECRET")
  then "your-secret-key-change-in-production"
  else Getenv rt "JWT_SECRET".

(** [validateJWT]: [None] is the nil error. *)
Definition validateJWT (rt : Runtime) (r : ModelServe) : option error :=
  let jwtSecret := jwtSecret rt in
  match Annotations (Meta r) !! auth_token_key with
  | None => None
  | Some token =>
      match Split_dot token with
      | [p0; p1; p2] =>
          match base64.DecodeString p0 with
          | None => Some "invalid JWT header: "
          | Some _ =>
              match base64.DecodeString p1 with
              | None => Some "invalid JWT payload: "
              | Some payloadBytes =>
                  match json_Unmarshal rt payloadBytes with
                  | None => Some "invalid JWT claims: "
                  | Some claims =>
                      let signatureInput := p0 ++ "." ++ p1 in
                      let expectedSignature :=
                        base64.EncodeToString
                          (hmac_sha256 rt jwtSecret signatureInput) in
                      if negb (str_eqb p2 expectedSignature)
                      then Some "invalid JWT signature"
                      else if Z.ltb (Exp claims) (NowUnix rt)
                      then Some "JWT token has expired"
                      else if negb (str_eqb (Type_ claims) "internal")
                              && negb (str_eqb (Type_ claims) "user")
                      then Some ("invalid token type: " ++ Type_ claims)
                      else None
                  end
              end
          end
      | _ => Some "invalid JWT format"
      end
  end.

(** The token check in the words of its specification: [token] has three
    segments, each of them decodes as unpadded base64url, the payload
    unmarshals to claims, the signature segment is the HMAC-SHA256 of
    "header.payload" under the shared secret, the expiry is not in the past
    and the type is internal or user. *)
Definition token_valid (rt : Runtime) (token : string) : Prop :=
  exists (h p s payload : string) (claims : JWTClaims),
    Split_dot token = [h; p; s]
    /\ is_Some (base64.DecodeString h)
    /\ base64.DecodeString p = Some payload
    /\ is_Some (base64.DecodeString s)
    /\ json_Unmarshal rt payload = Some claims
    /\ s = base64.EncodeToString
             (hmac_sha256 rt (jwtSecret rt) (h ++ "." ++ p))
    /\ ~ (Exp claims < NowUnix rt)
    /\ (Type_ claims = "internal" \/ Type_ claims = "user").

(** [ValidateCreate]. *)
Definition ValidateCreate (rt : Runtime) (r : ModelServe) : option error :=
  match validateJWT rt r with
  | Some err => Some err
  | None =>
      if is_empty (ModelName (Spec r)) then Some "modelName is required"
      else if is_empty (ModelUUID (Spec r)) then Some "modelUuid is required"
      else if is_empty (MinIOPath (Spec r)) then Some "minioPath is required"
      else if match Replicas (Spec r) with
              | Some n => Z.ltb 5 n
              | None => false
              end
      then Some "replicas cannot exceed 5"
      else if Z.ltb 32768 (MemoryLimit (Spec r))
      then Some "memoryLimit cannot exceed 32768 MB (32GB)"
      else if Z.ltb 16000 (CPULimit (Spec r))
      then Some "cpuLimit cannot exceed 16000m (16 cores)"
      else None
  end.

(** [ValidateUpdate]; the old object is not looked at. *)
Definition ValidateUpdate (rt : Runtime) (r old : ModelServe) : option error :=
  match validateJWT rt r with
  | Some err => Some err
  | None =>
      if match Replicas (Spec r) with
         | Some n => Z.ltb 5 n
         | None => false
         end
      then Some "replicas cannot exceed 5"
      else None
  end.

(** [ValidateDelete]. *)
Definition ValidateDelete (rt : Runtime) (r : ModelServe) : option error :=
  match validateJWT rt r with
  | Some err => Some err
  | None => None
  end.

(* ===================================================================== *)
(** ** Kubernetes objects the controller builds and observes *)
(* ===================================================================== *)

(** [types.NamespacedName]. *)
Record NamespacedName := mkKey { key_Namespace : string; key_Name : string }.

(** A [resource.Quantity] as [resource.MustParse(fmt.Sprintf("%d<unit>", n))]
    makes it: the number and the unit suffix. *)
Record Quantity := mkQuantity { q_amount : Z; q_unit : string }.

Record ResourceRequirements := mkResources {
  Requests_memory : Quantity;
  Requests_cpu    : Quantity;
  Limits_memory   : Quantity;
  Limits_cpu      : Quantity
}.

(** An HTTP GET probe. *)
Record Probe := mkProbe {
  probe_Path          : string;
  probe_Port          : Z;
  InitialDelaySeconds : Z;
  PeriodSeconds       : Z
}.

Inductive EnvVar :=
| EnvValue (name value : string)
| EnvSecretKeyRef (name secret key : string)
| EnvConfigMapKeyRef (name configmap key : string).

Record Container := mkContainer {
  c_Name           : string;
  c_Image          : string;
  c_Command        : list string;
  c_Args           : list string;
  c_Env            : list EnvVar;
  c_Ports          : list (string * Z);
  c_VolumeMounts   : list (string * string);
  c_Resources      : option ResourceRequirements;
  c_ReadinessProbe : option Probe;
  c_LivenessProbe  : option Probe
}.

Inductive Volume :=
| EmptyDirVolume (name : string) (sizeLimit : Z)
| ConfigMapVolume (name configmap : string).

(** [appsv1.Deployment]: metadata, spec and the one status field read back. *)
Record Deployment := mkDeployment {
  dep_Name                  : string;
  dep_Namespace             : string;
  dep_Labels                : gmap string string;
  dep_Replicas              : option Z;
  dep_MatchLabels           : gmap string string;
  dep_TemplateLabels        : gmap string string;
  dep_TemplateAnnotations   : gmap string string;
  dep_ShareProcessNamespace : bool;
  dep_InitContainers        : list Container;
  dep_Containers            : list Container;
  dep_Volumes               : list Volume;
  dep_AvailableReplicas     : Z
}.

Record Service := mkService {
  svc_Name       : string;
  svc_Namespace  : string;
  svc_Labels     : gmap string string;
  svc_Selector   : gmap string string;
  svc_Port       : Z;
  svc_TargetPort : Z;
  svc_Type       : string
}.

Record Ingress := mkIngress {
  ing_Name             : string;
  ing_Namespace        : string;
  ing_Annotations      : gmap string string;
  ing_Labels           : gmap string string;
  ing_IngressClassName : string;
  ing_Path             : string;
  ing_PathType         : string;
  ing_BackendService   : string;
  ing_BackendPort      : Z
}.

Record ConfigMap := mkConfigMap {
  cm_Name      : string;
  cm_Namespace : string;
  cm_Labels    : gmap string string;
  cm_Data      : gmap string string
}.

Record Pod := mkPod {
  pod_Name      : string;
  pod_Namespace : string;
  pod_Labels    : gmap string string;
  pod_Phase     : string
}.

(** An API error: what [errors.IsNotFound] and [errors.IsAlreadyExists] look
    at, and its text.  The controller calls the first only. *)
Inductive StatusReason :=
| StatusReasonNotFound
| StatusReasonAlreadyExists
| StatusReasonOther.

Record APIError := mkAPIError { err_Reason : StatusReason; err_Text : string }.

Definition IsNotFound (e : APIError) : bool :=
  match err_Reason e with StatusReasonNotFound => true | _ => false end.

Definition IsAlreadyExists (e : APIError) : bool :=
  match err_Reason e with StatusReasonAlreadyExists => true | _ => false end.

(** [ctrl.Result]. *)
Record Result := mkResult { Requeue : bool }.

(* ===================================================================== *)
(** ** The client the reconciler talks to *)
(* ===================================================================== *)

(** The calls of [client.Client] on the kinds the operator has RBAC rules
    for, each with the type of its answer.  A [Get] answers the object or an
    error; a write answers [None] for a nil error and leaves the object in
    the caller's memory as it was sent (the resource version the server
    hands back is not modelled).  [UpdateModelServe] is [r.Update] and
    [StatusUpdate] is [r.Status().Update], both on the parent.  [TimeNow]
    is [time.Now()]. *)
Inductive clientE : Type -> Type :=
| GetModelServe (key : NamespacedName) : clientE (APIError + ModelServe)
| GetConfigMap (key : NamespacedName) : clientE (APIError + ConfigMap)
| GetDeployment (key : NamespacedName) : clientE (APIError + Deployment)
| GetService (key : NamespacedName) : clientE (APIError + Service)
| GetIngress (key : NamespacedName) : clientE (APIError + Ingress)
| CreateConfigMap (o : ConfigMap) : clientE (option APIError)
| CreateDeployment (o : Deployment) : clientE (option APIError)
| CreateService (o : Service) : clientE (option APIError)
| CreateIngress (o : Ingress) : clientE (option APIError)
| UpdateModelServe (o : ModelServe) : clientE (option APIError)
| StatusUpdate (o : ModelServe) : clientE (option APIError)
| ListPods (ns : string) (labels : gmap string string)
    : clientE (APIError + list Pod)
| TimeNow : clientE Z.

(** Programs over the client: a result, or a call and what follows its
    answer. *)
Inductive Prog (A : Type) : Type :=
| Ret (a : A)
| Vis {X : Type} (e : clientE X) (k : X -> Prog A).

Arguments Ret {A} a.
Arguments Vis {A X} e k.

Fixpoint bind {A B : Type} (p : Prog A) (f : A -> Prog B) : Prog B :=
  match p with
  | Ret a => f a
  | Vis e k => Vis e (fun x => bind (k x) f)
  end.

Definition trigger {X : Type} (e : clientE X) : Prog X := Vis e Ret.

#[global] Instance Prog_ret : MRet Prog := @Ret.
#[global] Instance Prog_bind : MBind Prog := fun A B f p => bind p f.

(* ===================================================================== *)
(** ** The controller: modelserve_controller.go *)
(* ===================================================================== *)

Definition nl : string := String "010"%char "".
Definition dq : string := String "034"%char "".

(** [getEnvOrDefault]. *)
Definition getEnvOrDefault (rt : Runtime) (key defaultValue : string) : string :=
  if negb (is_empty (Getenv rt key)) then Getenv rt key else defaultValue.

(** [labelsForModelServe]. *)
Definition labelsForModelServe (name : string) : gmap string string :=
  <["app" := "model-serve"]> (<["model_serve_cr" := name]> ∅).

Definition key_of (m : ModelServe) : NamespacedName :=
  mkKey (Namespace (Meta m)) (Name (Meta m)).

(** The shell script of the init container,
    [fmt.Sprintf(..., minioEndpoint, minioBucket, minioPath, ModelName)]. *)
Definition download_script (minioEndpoint minioBucket minioPath modelName : string)
  : string :=
  nl ++ "set -e" ++ nl
  ++ "echo " ++ dq ++ "Configuring MinIO client..." ++ dq ++ nl
  ++ "mc alias set minio http://" ++ minioEndpoint
  ++ " $MINIO_ACCESS_KEY $MINIO_SECRET_KEY" ++ nl
  ++ nl
  ++ "echo " ++ dq ++ "Downloading model from MinIO..." ++ dq ++ nl
  ++ "mc cp minio/" ++ minioBucket ++ "/" ++ minioPath
  ++ " /models/" ++ modelName ++ nl
  ++ nl
  ++ "echo " ++ dq ++ "Model downloaded successfully" ++ dq ++ nl
  ++ "ls -la /models/" ++ nl.

(** [deploymentForModelServe]: the Deployment with the MinIO init
    container.  Go's [/] on [int32] truncates toward zero: [Z.quot]. *)
Definition deploymentForModelServe (rt : Runtime) (m : ModelServe) : Deployment :=
  let ls := labelsForModelServe (Name (Meta m)) in
  let replicas :=
    match Replicas (Spec m) with None => Some 1 | Some n => Some n end in
  let image :=
    if is_empty (Image (Spec m)) then "ghcr.io/ggerganov/llama.cpp:server"
    else Image (Spec m) in
  let minioEndpoint :=
    if is_empty (MinIOEndpoint (Spec m))
    then getEnvOrDefault rt "MINIO_ENDPOINT" "minio:9000"
    else MinIOEndpoint (Spec m) in
  let minioBucket :=
    if is_empty (MinIOBucket (Spec m))
    then getEnvOrDefault rt "MINIO_BUCKET" "inference-models"
    else MinIOBucket (Spec m) in
  let minioPath :=
    if is_empty (MinIOPath (Spec m)) then "models/" ++ ModelName (Spec m)
    else MinIOPath (Spec m) in
  let memoryLimit :=
    if Z.eqb (MemoryLimit (Spec m)) 0 then 4096 else MemoryLimit (Spec m) in
  let cpuLimit :=
    if Z.eqb (CPULimit (Spec m)) 0 then 2000 else CPULimit (Spec m) in
  let llamaArgs :=
    ["-m"; "/models/" ++ ModelName (Spec m);
     "--host"; "0.0.0.0"; "--port"; "8080"] in
  let llamaArgs :=
    if negb (is_empty (RuntimeParams (Spec m)))
    then (llamaArgs ++ strings_Fields rt (RuntimeParams (Spec m)))%list
    else llamaArgs in
  let health delay period := mkProbe "/health" 8080 delay period in
  mkDeployment (Name (Meta m)) (Namespace (Meta m)) ls
    replicas ls ls
    (<["model-uuid" := ModelUUID (Spec m)]> ∅)
    true
    [ mkContainer "download-model" "minio/mc:latest" ["/bin/sh"; "-c"]
        [download_script minioEndpoint minioBucket minioPath
           (ModelName (Spec m))]
        [ EnvSecretKeyRef "MINIO_ACCESS_KEY" "inference-secrets"
            "MINIO_ACCESS_KEY";
          EnvSecretKeyRef "MINIO_SECRET_KEY" "inference-secrets"
            "MINIO_SECRET_KEY" ]
        [] [("model-volume", "/models")] None None None ]
    [ mkContainer "llama-server" image [] llamaArgs []
        [("http", 8080)] [("model-volume", "/models")]
        (Some (mkResources
                 (mkQuantity (Z.quot memoryLimit 2) "Mi")
                 (mkQuantity (Z.quot cpuLimit 2) "m")
                 (mkQuantity memoryLimit "Mi")
                 (mkQuantity cpuLimit "m")))
        (Some (health 30 10)) (Some (health 60 30));
      mkContainer "monitor-sidecar" "python:3.9-slim" ["/bin/sh"; "-c"]
        ["pip install psycopg2-binary psutil requests && python /scripts/monitor.py"]
        [ EnvValue "SERVER_UUID" (Name (Meta m));
          EnvValue "MODEL_UUID" (ModelUUID (Spec m));
          EnvValue "MODEL_NAME" (ModelName (Spec m));
          EnvConfigMapKeyRef "DATABASE_URL" "inference-config" "DATABASE_URL" ]
        [] [("monitor-script", "/scripts")]
        (Some (mkResources (mkQuantity 64 "Mi") (mkQuantity 50 "m")
                 (mkQuantity 128 "Mi") (mkQuantity 100 "m")))
        None None ]
    [ EmptyDirVolume "model-volume" (10 * 1024 * 1024 * 1024);
      ConfigMapVolume "monitor-script" "monitor-script" ]
    0.

(** [serviceForModelServe]. *)
Definition serviceForModelServe (m : ModelServe) : Service :=
  let ls := labelsForModelServe (Name (Meta m)) in
  mkService (Name (Meta m)) (Namespace (Meta m)) ls ls 80 8080 "ClusterIP".

(** [ingressForModelServe]: the route with the JWT and strip-prefix
    middlewares chained in its annotation. *)
Definition ingressForModelServe (m : ModelServe) : Ingress :=
  let ls := labelsForModelServe (Name (Meta m)) in
  let middlewares :=
    Namespace (Meta m) ++ "-jwt-auth@kubernetescrd,"
    ++ Namespace (Meta m) ++ "-" ++ Name (Meta m)
    ++ "-stripprefix@kubernetescrd" in
  mkIngress (Name (Meta m)) (Namespace (Meta m))
    (<["traefik.ingress.kubernetes.io/router.middlewares" := middlewares]> ∅)
    ls "traefik" ("/" ++ Name (Meta m)) "Prefix" (Name (Meta m)) 80.

(** The ConfigMap of [createStripPrefixMiddleware]. *)
Definition stripPrefixConfigMap (m : ModelServe) : ConfigMap :=
  mkConfigMap (Name (Meta m) ++ "-stripprefix") (Namespace (Meta m))
    (labelsForModelServe (Name (Meta m)))
    (<["middleware.yaml" :=
         nl ++ "apiVersion: traefik.containo.us/v1alpha1" ++ nl
         ++ "kind: Middleware" ++ nl
         ++ "metadata:" ++ nl
         ++ "  name: " ++ Name (Meta m) ++ "-stripprefix" ++ nl
         ++ "  namespace: " ++ Namespace (Meta m) ++ nl
         ++ "spec:" ++ nl
         ++ "  stripPrefix:" ++ nl
         ++ "    prefixes:" ++ nl
         ++ "      - /" ++ Name (Meta m) ++ nl]> ∅).

(** [createStripPrefixMiddleware]: create the ConfigMap when the lookup
    says not found; any other lookup error, and the error of the create, is
    returned. *)
Definition createStripPrefixMiddleware (m : ModelServe) : Prog (option APIError) :=
  let middleware := stripPrefixConfigMap m in
  r ← trigger (GetConfigMap
                 (mkKey (cm_Namespace middleware) (cm_Name middleware)));
  match r with
  | inl err =>
      if IsNotFound err then trigger (CreateConfigMap middleware)
      else mret (Some err)
  | inr _ => mret None
  end.

(** The loop over [podList.Items]: the first pod in phase Running supplies
    [PodName] (written only when it differs), and the loop stops there. *)
Fixpoint podNameLoop (items : list Pod) (st : ModelServeStatus * bool)
  : ModelServeStatus * bool :=
  match items with
  | [] => st
  | pod :: rest =>
      if str_eqb (pod_Phase pod) "Running" then
        if negb (str_eqb (PodName (fst st)) (pod_Name pod))
        then (set_PodName (pod_Name pod) (fst st), true)
        else st
      else podNameLoop rest st
  end.

(** "Update Status based on deployment state", up to the phase: the three
    compare-and-set steps on [AvailableReplicas], [ServiceName] and
    [GatewayURL].  The second component is [needsStatusUpdate]. *)
Definition mirrorStatus (found : Deployment) (svc : Service) (m : ModelServe)
  : ModelServeStatus * bool :=
  let st := Status m in
  let needsStatusUpdate := false in
  let '(st, needsStatusUpdate) :=
    if negb (Z.eqb (dep_AvailableReplicas found) (AvailableReplicas st))
    then (set_AvailableReplicas (dep_AvailableReplicas found) st, true)
    else (st, needsStatusUpdate) in
  let '(st, needsStatusUpdate) :=
    if negb (str_eqb (ServiceName st) (svc_Name svc))
    then (set_ServiceName (svc_Name svc) st, true)
    else (st, needsStatusUpdate) in
  let gatewayURL := "http://localhost/" ++ Name (Meta m) in
  if negb (str_eqb (GatewayURL st) gatewayURL)
  then (set_GatewayURL gatewayURL st, true)
  else (st, needsStatusUpdate).

(** "Update phase based on replicas", then the final write when
    [needsStatusUpdate] is set. *)
Definition reconcileStatus (found : Deployment) (svc : Service)
    (modelServe : ModelServe) : Prog (Result * option APIError) :=
  let '(st, needsStatusUpdate) := mirrorStatus found svc modelServe in
  '(st, needsStatusUpdate) ←
      (if Z.ltb 0 (dep_AvailableReplicas found) then
         r1 ← (if negb (str_eqb (Phase st) "Running") then
                 now ← trigger TimeNow;
                 mret (set_StartedAt (Some now)
                         (set_Message "Model server is running"
                            (set_Phase "Running" st)), true)
               else mret (st, needsStatusUpdate)
               : Prog (ModelServeStatus * bool));
         podList ← trigger (ListPods (Namespace (Meta modelServe))
                              (labelsForModelServe (Name (Meta modelServe))));
         match podList with
         | inr items => mret (podNameLoop items r1)
         | inl _ => mret r1
         end
       else if negb (str_eqb (Phase st) "Downloading")
               && negb (str_eqb (Phase st) "Failed") then
         mret (set_Message "Waiting for pod to be ready"
                 (set_Phase "Pending" st), true)
       else mret (st, needsStatusUpdate) : Prog (ModelServeStatus * bool));
  if (needsStatusUpdate : bool) then
    err ← trigger (StatusUpdate (with_status modelServe st));
    match err with
    | Some e => mret (mkResult false, Some e)
    | None => mret (mkResult false, None)
    end
  else mret (mkResult false, None).

(** "Define Ingress" and "Check if Ingress exists". *)
Definition reconcileIngress (found : Deployment) (svc : Service)
    (modelServe : ModelServe) : Prog (Result * option APIError) :=
  let ing := ingressForModelServe modelServe in
  g ← trigger (GetIngress (mkKey (ing_Namespace ing) (ing_Name ing)));
  match g with
  | inl err =>
      if IsNotFound err then
        c ← trigger (CreateIngress ing);
        match c with
        | Some e => mret (mkResult false, Some e)
        | None => mret (mkResult true, None)
        end
      else mret (mkResult false, Some err)
  | inr _ => reconcileStatus found svc modelServe
  end.

(** "Define Service" and "Check if Service exists". *)
Definition reconcileService (found : Deployment) (modelServe : ModelServe)
  : Prog (Result * option APIError) :=
  let svc := serviceForModelServe modelServe in
  g ← trigger (GetService (mkKey (svc_Namespace svc) (svc_Name svc)));
  match g with
  | inl err =>
      if IsNotFound err then
        c ← trigger (CreateService svc);
        match c with
        | Some e => mret (mkResult false, Some e)
        | None => mret (mkResult true, None)
        end
      else mret (mkResult false, Some err)
  | inr _ => reconcileIngress found svc modelServe
  end.

(** "Define Deployment" and "Check if Deployment exists".  The error of the
    status write to Downloading is only logged, and so is that of the write
    to Failed. *)
Definition reconcileDeployment (rt : Runtime) (modelServe : ModelServe)
  : Prog (Result * option APIError) :=
  let dep := deploymentForModelServe rt modelServe in
  g ← trigger (GetDeployment (mkKey (dep_Namespace dep) (dep_Name dep)));
  match g with
  | inl err =>
      if IsNotFound err then
        let modelServe :=
          with_status modelServe
            (set_Message "Downloading model from MinIO"
               (set_Phase "Downloading" (Status modelServe))) in
        _ ← trigger (StatusUpdate modelServe);
        c ← trigger (CreateDeployment dep);
        match c with
        | Some e =>
            let modelServe :=
              with_status modelServe
                (set_Message ("Failed to create deployment: " ++ err_Text e)
                   (set_Phase "Failed" (Status modelServe))) in
            _ ← trigger (StatusUpdate modelServe);
            mret (mkResult false, Some e)
        | None => mret (mkResult true, None)
        end
      else mret (mkResult false, Some err)
  | inr found => reconcileService found modelServe
  end.

(** [Reconcile]. *)
Definition Reconcile (rt : Runtime) (req : NamespacedName)
  : Prog (Result * option APIError) :=
  r ← trigger (GetModelServe req);
  match r with
  | inl err =>
      if IsNotFound err then mret (mkResult false, None)
      else mret (mkResult false, Some err)
  | inr modelServe =>
      (* Update status to Pending if not set *)
      '(modelServe, initErr) ←
             (if is_empty (Phase (Status modelServe)) then
                let modelServe :=
                  with_status modelServe
                    (set_Message "Initializing model server"
                       (set_Phase "Pending" (Status modelServe))) in
                err ← trigger (StatusUpdate modelServe);
                mret (modelServe, err)
              else mret (modelServe, None)
              : Prog (ModelServe * option APIError));
      match initErr with
      | Some e => mret (mkResult false, Some e)
      | None =>
          (* Create StripPrefix middleware for Traefik *)
          err ← createStripPrefixMiddleware modelServe;
          match err with
          | Some e => mret (mkResult false, Some e)
          | None => reconcileDeployment rt modelServe
          end
      end
  end.

(* ===================================================================== *)
(** ** Executions *)
(* ===================================================================== *)

(** One call together with the answer it got. *)
Inductive event : Type :=
| Ev {X : Type} (e : clientE X) (x : X).

(** [runs p tr a]: some execution of [p] makes the calls of [tr], gets the
    answers recorded there, and returns [a].  The answers are arbitrary:
    this is the reconciler against any store, racing writers and failing
    calls included. *)
Inductive runs {A : Type} : Prog A -> list event -> A -> Prop :=
| runs_Ret (a : A) : runs (Ret a) [] a
| runs_Vis {X : Type} (e : clientE X) (k : X -> Prog A) (x : X)
    (tr : list event) (a : A) :
    runs (k x) tr a -> runs (Vis e k) (Ev e x :: tr) a.

(** Classification of calls. *)
Definition is_create (ev : event) : bool :=
  match ev with
  | Ev (CreateConfigMap _) _ | Ev (CreateDeployment _) _
  | Ev (CreateService _) _ | Ev (CreateIngress _) _ => true
  | _ => false
  end.

(** The error a create call was answered with. *)
Definition create_error (ev : event) : option APIError :=
  match ev with
  | Ev (CreateConfigMap _) x | Ev (CreateDeployment _) x
  | Ev (CreateService _) x | Ev (CreateIngress _) x => x
  | _ => None
  end.

(** The object of a write through the status subresource. *)
Definition status_write (ev : event) : option ModelServe :=
  match ev with
  | Ev (StatusUpdate o) _ => Some o
  | _ => None
  end.

(** The object of a write of the resource itself. *)
Definition main_write (ev : event) : option ModelServe :=
  match ev with
  | Ev (UpdateModelServe o) _ => Some o
  | _ => None
  end.

(** The object a lookup of the parent returned. *)
Definition fetched (ev : event) : option ModelServe :=
  match ev with
  | Ev (GetModelServe _) (inr o) => Some o
  | _ => None
  end.

(** The Deployment a lookup returned. *)
Definition observed_deployment (ev : event) : option Deployment :=
  match ev with
  | Ev (GetDeployment _) (inr d) => Some d
  | _ => None
  end.

(** The answer of [time.Now()]. *)
Definition observed_time (ev : event) : option Z :=
  match ev with
  | Ev TimeNow t => Some t
  | _ => None
  end.

Definition status_writes (tr : list event) : list ModelServe :=
  omap status_write tr.

Definition phases_written (tr : list event) : list string :=
  (fun o => Phase (Status o)) <$> status_writes tr.

(** A create call for the workload. *)
Definition is_deployment_create (ev : event) : bool :=
  match ev with
  | Ev (CreateDeployment _) _ => true
  | _ => false
  end.

(** A call that neither writes the resource itself, nor is a failed create,
    nor looks up the parent or the Deployment. *)
Definition quiet (ev : event) : Prop :=
  main_write ev = None /\ create_error ev = None /\ fetched ev = None
  /\ observed_deployment ev = None.

(** What holds of an object [o] written through the status subresource by
    an invocation that fetched [m], observed the Deployments [ds] and read
    the clock values [times]:
    - metadata and spec are those fetched;
    - [startedAt] is the fetched one, unless the write moves the phase into
      Running from another phase, and then it is a clock value just read;
    - a write that moves the phase from Running to Pending saw a
      Deployment without available replicas. *)
Definition written_ok (m : ModelServe) (ds : list Deployment)
    (times : list Z) (o : ModelServe) : Prop :=
  Meta o = Meta m /\ Spec o = Spec m
  /\ (Phase (Status m) = "Running" \/ Phase (Status o) <> "Running" ->
      StartedAt (Status o) = StartedAt (Status m))
  /\ (Phase (Status m) <> "Running" -> Phase (Status o) = "Running" ->
      exists t, t ∈ times /\ StartedAt (Status o) = Some t)
  /\ (Phase (Status m) = "Running" -> Phase (Status o) = "Pending" ->
      exists d, d ∈ ds /\ dep_AvailableReplicas d <= 0).

(** How a failed create shows in the outcome [res] of an invocation with
    calls [tr]: the error is returned without a requeue, and for the
    workload the last status written has phase Failed and names the
    error. *)
Definition create_failure_handled (res : Result * option APIError)
    (tr : list event) (ev : event) : Prop :=
  forall e, create_error ev = Some e ->
    res = (mkResult false, Some e)
    /\ (is_deployment_create ev = true ->
        exists o, last (status_writes tr) = Some o
                  /\ Phase (Status o) = "Failed"
                  /\ Message (Status o)
                     = "Failed to create deployment: " ++ err_Text e).

(* ===================================================================== *)
(** ** A store *)
(* ===================================================================== *)

(** The object store as one process sees it when nobody else writes: a map
    per kind, keyed by namespace and name, the pods, and the clock. *)
Record Cluster := mkCluster {
  modelserves : gmap (string * string) ModelServe;
  configmaps  : gmap (string * string) ConfigMap;
  deployments : gmap (string * string) Deployment;
  services    : gmap (string * string) Service;
  ingresses   : gmap (string * string) Ingress;
  pods        : list Pod;
  clock       : Z
}.

Definition kk (key : NamespacedName) : string * string :=
  (key_Namespace key, key_Name key).

Definition errNotFound : APIError :=
  mkAPIError StatusReasonNotFound "not found".
Definition errAlreadyExists : APIError :=
  mkAPIError StatusReasonAlreadyExists "already exists".

Definition get_answer {O : Type} (o : option O) : APIError + O :=
  match o with
  | Some x => inr x
  | None => inl errNotFound
  end.

(** A label selector matches when each of its pairs is among the labels. *)
Definition labels_match (sel labels : gmap string string) : bool :=
  bool_decide (map_Forall (fun k v => labels !! k = Some v) sel).

(** Replacing one of the maps. *)
Definition set_modelserves (ms : gmap (string * string) ModelServe)
    (c : Cluster) : Cluster :=
  mkCluster ms (configmaps c) (deployments c) (services c) (ingresses c)
    (pods c) (clock c).
Definition set_configmaps (cms : gmap (string * string) ConfigMap)
    (c : Cluster) : Cluster :=
  mkCluster (modelserves c) cms (deployments c) (services c) (ingresses c)
    (pods c) (clock c).
Definition set_deployments (ds : gmap (string * string) Deployment)
    (c : Cluster) : Cluster :=
  mkCluster (modelserves c) (configmaps c) ds (services c) (ingresses c)
    (pods c) (clock c).
Definition set_services (ss : gmap (string * string) Service)
    (c : Cluster) : Cluster :=
  mkCluster (modelserves c) (configmaps c) (deployments c) ss (ingresses c)
    (pods c) (clock c).
Definition set_ingresses (ings : gmap (string * string) Ingress)
    (c : Cluster) : Cluster :=
  mkCluster (modelserves c) (configmaps c) (deployments c) (services c) ings
    (pods c) (clock c).

(** The pods a [List] call with a namespace and a label selector returns. *)
Definition list_pods (ns : string) (labels : gmap string string)
    (c : Cluster) : list Pod :=
  filter (fun p => str_eqb (pod_Namespace p) ns
                   && labels_match labels (pod_Labels p) = true)
    (pods c).

(** The store's answer to a call, and the store after it.  A create of a
    name that is taken is refused and changes nothing; a status write
    replaces the status of the stored object and nothing else; a write of
    the resource itself replaces everything but the status. *)
Definition handle {X : Type} (e : clientE X) (c : Cluster) : X * Cluster :=
  match e in clientE X return X * Cluster with
  | GetModelServe key => (get_answer (modelserves c !! kk key), c)
  | GetConfigMap key => (get_answer (configmaps c !! kk key), c)
  | GetDeployment key => (get_answer (deployments c !! kk key), c)
  | GetService key => (get_answer (services c !! kk key), c)
  | GetIngress key => (get_answer (ingresses c !! kk key), c)
  | CreateConfigMap o =>
      let k := (cm_Namespace o, cm_Name o) in
      match configmaps c !! k with
      | Some _ => (Some errAlreadyExists, c)
      | None => (None, set_configmaps (<[k := o]> (configmaps c)) c)
      end
  | CreateDeployment o =>
      let k := (dep_Namespace o, dep_Name o) in
      match deployments c !! k with
      | Some _ => (Some errAlreadyExists, c)
      | None => (None, set_deployments (<[k := o]> (deployments c)) c)
      end
  | CreateService o =>
      let k := (svc_Namespace o, svc_Name o) in
      match services c !! k with
      | Some _ => (Some errAlreadyExists, c)
      | None => (None, set_services (<[k := o]> (services c)) c)
      end
  | CreateIngress o =>
      let k := (ing_Namespace o, ing_Name o) in
      match ingresses c !! k with
      | Some _ => (Some errAlreadyExists, c)
      | None => (None, set_ingresses (<[k := o]> (ingresses c)) c)
      end
  | UpdateModelServe o =>
      let k := kk (key_of o) in
      match modelserves c !! k with
      | None => (Some errNotFound, c)
      | Some old =>
          (None,
           set_modelserves
             (<[k := mkModelServe (Meta o) (Spec o) (Status old)]>
                (modelserves c)) c)
      end
  | StatusUpdate o =>
      let k := kk (key_of o) in
      match modelserves c !! k with
      | None => (Some errNotFound, c)
      | Some old =>
          (None,
           set_modelserves
             (<[k := with_status old (Status o)]> (modelserves c)) c)
      end
  | ListPods ns labels => (inr (list_pods ns labels c), c)
  | TimeNow => (clock c, c)
  end.

(** Running a program on the store: its result, the store afterwards and
    the calls it made. *)
Record Outcome (A : Type) := mkOutcome {
  result : A;
  after  : Cluster;
  calls  : list event
}.

Arguments mkOutcome {A} _ _ _.
Arguments result {A} _.
Arguments after {A} _.
Arguments calls {A} _.

Definition log {A : Type} (ev : event) (o : Outcome A) : Outcome A :=
  mkOutcome (result o) (after o) (ev :: calls o).

Fixpoint run {A : Type} (p : Prog A) (c : Cluster) : Outcome A :=
  match p with
  | Ret a => mkOutcome a c []
  | Vis e k =>
      let h := handle e c in
      log (Ev e (fst h)) (run (k (fst h)) (snd h))
  end.

(** What the rest of the platform does between two reconciles. *)

Definition with_available (n : Z) (d : Deployment) : Deployment :=
  mkDeployment (dep_Name d) (dep_Namespace d) (dep_Labels d)
    (dep_Replicas d) (dep_MatchLabels d) (dep_TemplateLabels d)
    (dep_TemplateAnnotations d) (dep_ShareProcessNamespace d)
    (dep_InitContainers d) (dep_Containers d) (dep_Volumes d) n.

(** The Deployment controller reports the available replicas. *)
Definition report_available (key : NamespacedName) (n : Z) (c : Cluster)
  : Cluster :=
  match deployments c !! kk key with
  | None => c
  | Some d =>
      set_deployments (<[kk key := with_available n d]> (deployments c)) c
  end.

(** Time passes. *)
Definition at_time (t : Z) (c : Cluster) : Cluster :=
  mkCluster (modelserves c) (configmaps c) (deployments c) (services c)
    (ingresses c) (pods c) t.

(** A store holding one ModelServe and nothing else. *)
Definition cluster_of (m : ModelServe) : Cluster :=
  mkCluster {[ kk (key_of m) := m ]} ∅ ∅ ∅ ∅ [] 0.

(** The status the store holds for [key]. *)
Definition stored_status (key : NamespacedName) (c : Cluster)
  : option ModelServeStatus :=
  Status <$> modelserves c !! kk key.

(** Reconciling [key] once per entry of [steps].  Before each run the clock
    is set to the first component and the Deployment controller reports the
    second as the available replicas; nothing else touches the store. *)
Fixpoint reconcile_runs (rt : Runtime) (key : NamespacedName)
    (steps : list (Z * Z)) (c : Cluster)
  : list (Outcome (Result * option APIError)) :=
  match steps with
  | [] => []
  | (t, av) :: rest =>
      let o := run (Reconcile rt key) (at_time t (report_available key av c)) in
      o :: reconcile_runs rt key rest (after o)
  end.

(** Every phase written to the store over these runs, in order. *)
Definition phase_history (rt : Runtime) (key : NamespacedName)
    (steps : list (Z * Z)) (c : Cluster) : list string :=
  flat_map (fun o => phases_written (calls o)) (reconcile_runs rt key steps c).

(** Once the workload has reported an available replica it keeps doing
    so. *)
Fixpoint stays_ready (steps : list (Z * Z)) : Prop :=
  match steps with
  | [] => True
  | (_, av) :: rest =>
      (0 < av -> Forall (fun s => 0 < snd s) rest) /\ stays_ready rest
  end.

(* ===================================================================== *)
(** ** A reconcile on the store, in closed form *)
(* ===================================================================== *)

(** What the properties below look at in a run: its result, the store it
    leaves, the objects written through the status subresource and the
    number of creates. *)
Definition creations (tr : list event) : nat :=
  length (List.filter is_create tr).

Definition effects {A : Type} (o : Outcome A)
  : A * Cluster * list ModelServe * nat :=
  (result o, after o, status_writes (calls o), creations (calls o)).

(** [gatewayURL], the value of the local variable of that name. *)
Definition gatewayURL_of (m : ModelServe) : string :=
  "http://localhost/" ++ Name (Meta m).

(** The status block as a function of what it reads: the Deployment found,
    the clock and the pods listed.  The second component is
    [needsStatusUpdate]. *)
Definition nextStatus (found : Deployment) (svc : Service) (m : ModelServe)
    (now : Z) (items : list Pod) : ModelServeStatus * bool :=
  let '(st, needsStatusUpdate) := mirrorStatus found svc m in
  if Z.ltb 0 (dep_AvailableReplicas found) then
    podNameLoop items
      (if negb (str_eqb (Phase st) "Running")
       then (set_StartedAt (Some now)
               (set_Message "Model server is running"
                  (set_Phase "Running" st)), true)
       else (st, needsStatusUpdate))
  else if negb (str_eqb (Phase st) "Downloading")
          && negb (str_eqb (Phase st) "Failed")
  then (set_Message "Waiting for pod to be ready" (set_Phase "Pending" st),
        true)
  else (st, needsStatusUpdate).

(** The pods the status block lists for [m]. *)
Definition pods_of (m : ModelServe) (c : Cluster) : list Pod :=
  list_pods (Namespace (Meta m)) (labelsForModelServe (Name (Meta m))) c.

Definition prepend_effects {A : Type} (ws : list ModelServe) (n : nat)
    (e : A * Cluster * list ModelServe * nat)
  : A * Cluster * list ModelServe * nat :=
  (fst (fst (fst e)), snd (fst (fst e)), (ws ++ snd (fst e))%list,
   (n + snd e)%nat).

(** [reconcileDeployment] and what follows it, when the parent is in the
    store: one missing child is created per run, and with none missing the
    status block runs. *)
Definition closed_from_deployment (rt : Runtime) (m : ModelServe)
    (c : Cluster)
  : (Result * option APIError) * Cluster * list ModelServe * nat :=
  match deployments c !! kk (key_of m) with
  | None =>
      let m1 :=
        with_status m
          (set_Message "Downloading model from MinIO"
             (set_Phase "Downloading" (Status m))) in
      ((mkResult true, None),
       snd (handle (CreateDeployment (deploymentForModelServe rt m))
              (snd (handle (StatusUpdate m1) c))),
       [m1], 1%nat)
  | Some found =>
      match services c !! kk (key_of m) with
      | None =>
          ((mkResult true, None),
           snd (handle (CreateService (serviceForModelServe m)) c),
           [], 1%nat)
      | Some _ =>
          match ingresses c !! kk (key_of m) with
          | None =>
              ((mkResult true, None),
               snd (handle (CreateIngress (ingressForModelServe m)) c),
               [], 1%nat)
          | Some _ =>
              let ns :=
                nextStatus found (serviceForModelServe m) m (clock c)
                  (pods_of m c) in
              ((mkResult false, None),
               (if snd ns
                then snd (handle (StatusUpdate (with_status m (fst ns))) c)
                else c),
               (if snd ns then [with_status m (fst ns)] else []),
               0%nat)
          end
      end
  end.

(** The parent after "Update status to Pending if not set". *)
Definition initialised (m : ModelServe) : ModelServe :=
  if is_empty (Phase (Status m))
  then with_status m
         (set_Message "Initializing model server"
            (set_Phase "Pending" (Status m)))
  else m.

(** [Reconcile] on the store. *)
Definition reconcile_closed (rt : Runtime) (req : NamespacedName)
    (c : Cluster)
  : (Result * option APIError) * Cluster * list ModelServe * nat :=
  match modelserves c !! kk req with
  | None => ((mkResult false, None), c, [], 0%nat)
  | Some m =>
      let init := is_empty (Phase (Status m)) in
      let m0 := initialised m in
      let c0 := if init then snd (handle (StatusUpdate m0) c) else c in
      let cm := stripPrefixConfigMap m0 in
      let missing :=
        match configmaps c0 !! (cm_Namespace cm, cm_Name cm) with
        | None => true
        | Some _ => false
        end in
      let c1 := if missing then snd (handle (CreateConfigMap cm) c0) else c0 in
      prepend_effects (if init then [m0] else [])
        (if missing then 1%nat else 0%nat)
        (closed_from_deployment rt m0 c1)
  end.

(** The store after the initial status write and after the ConfigMap is
    ensured, as [Reconcile] leaves it before it turns to the workload. *)
Definition after_init (m : ModelServe) (c : Cluster) : Cluster :=
  if is_empty (Phase (Status m))
  then snd (handle (StatusUpdate (initialised m)) c)
  else c.

Definition after_configmap (m0 : ModelServe) (c : Cluster) : Cluster :=
  match configmaps c !! (cm_Namespace (stripPrefixConfigMap m0),
                         cm_Name (stripPrefixConfigMap m0)) with
  | None => snd (handle (CreateConfigMap (stripPrefixConfigMap m0)) c)
  | Some _ => c
  end.

Definition prepared (m : ModelServe) (c : Cluster) : Cluster :=
  after_configmap (initialised m) (after_init m c).

(** The states a fresh object passes through: the workload exists and the
    phase is Downloading; the three children exist and the phase is
    Running. *)
Definition downloading_state (req : NamespacedName) (c : Cluster) : Prop :=
  exists m found,
    modelserves c !! kk req = Some m /\ key_of m = req
    /\ Phase (Status m) = "Downloading"
    /\ deployments c !! kk req = Some found.

Definition running_state (req : NamespacedName) (c : Cluster) : Prop :=
  exists m found svc ing,
    modelserves c !! kk req = Some m /\ key_of m = req
    /\ Phase (Status m) = "Running"
    /\ deployments c !! kk req = Some found
    /\ services c !! kk req = Some svc
    /\ ingresses c !! kk req = Some ing.

(** How many of the network endpoint and the route are still to be
    created. *)
Definition children_missing (req : NamespacedName) (c : Cluster) : nat :=
  ((match services c !! kk req with None => 1 | Some _ => 0 end)
   + (match ingresses c !! kk req with None => 1 | Some _ => 0 end))%nat.

(** The gateway URL in the form the interface description gives it:
    [http(s)://<gateway-host>/<parent-name>/]. *)
Definition gateway_url_form (host name url : string) : Prop :=
  url = "http://" ++ host ++ "/" ++ name ++ "/"
  \/ url = "https://" ++ host ++ "/" ++ name ++ "/".

(** Whether a string ends in a slash. *)
Fixpoint ends_with_slash (s : string) : bool :=
  match s with
  | EmptyString => false
  | String c EmptyString => bool_decide (c = "/"%char)
  | String _ r => ends_with_slash r
  end.

(* ===================================================================== *)

(** ** Further observations on objects, calls and stores *)

(* ===================================================================== *)

(** What [validateJWT] reads of the claims. *)
Definition claims_read (c : JWTClaims) : string * Z := (Type_ c, Exp c).

(** No dot among the characters. *)
Fixpoint dot_free (s : string) : bool :=
  match s with
  | EmptyString => true
  | String c r => negb (bool_decide (c = "."%char)) && dot_free r
  end.

(** The characters of a string. *)
Fixpoint chars (s : string) : list ascii :=
  match s with
  | EmptyString => []
  | String c r => c :: chars r
  end.

(** The container of a Deployment's pod template with a given name. *)
Definition container_named (name : string) (d : Deployment) : option Container :=
  List.find (fun c => str_eqb (c_Name c) name) (dep_Containers d).

(** A create call for the workload, the network endpoint or the route. *)
Definition is_child_create (ev : event) : bool :=
  match ev with
  | Ev (CreateDeployment _) _ | Ev (CreateService _) _
  | Ev (CreateIngress _) _ => true
  | _ => false
  end.

(** Such a call answered without error. *)
Definition child_created (ev : event) : bool :=
  match ev with
  | Ev (CreateDeployment _) None | Ev (CreateService _) None
  | Ev (CreateIngress _) None => true
  | _ => false
  end.

(** The Service and the Ingress a lookup returned. *)
Definition observed_service (ev : event) : option Service :=
  match ev with
  | Ev (GetService _) (inr s) => Some s
  | _ => None
  end.

Definition observed_ingress (ev : event) : option Ingress :=
  match ev with
  | Ev (GetIngress _) (inr i) => Some i
  | _ => None
  end.

(** The error a call was answered with, whatever the call. *)
Definition call_error (ev : event) : option APIError :=
  match ev with
  | Ev (GetModelServe _) (inl e) | Ev (GetConfigMap _) (inl e)
  | Ev (GetDeployment _) (inl e) | Ev (GetService _) (inl e)
  | Ev (GetIngress _) (inl e) | Ev (ListPods _ _) (inl e) => Some e
  | Ev (CreateConfigMap _) (Some e) | Ev (CreateDeployment _) (Some e)
  | Ev (CreateService _) (Some e) | Ev (CreateIngress _) (Some e)
  | Ev (UpdateModelServe _) (Some e) | Ev (StatusUpdate _) (Some e) => Some e
  | _ => None
  end.

(** A lookup by name. *)
Definition is_lookup (ev : event) : bool :=
  match ev with
  | Ev (GetModelServe _) _ | Ev (GetConfigMap _) _ | Ev (GetDeployment _) _
  | Ev (GetService _) _ | Ev (GetIngress _) _ => true
  | _ => false
  end.

(** The calls whose error the controller only logs or ignores: the status
    writes to Downloading and to Failed around the create of the workload,
    and the pod listing. *)
Definition best_effort (ev : event) : Prop :=
  match ev with
  | Ev (StatusUpdate o) _ =>
      Phase (Status o) = "Downloading" \/ Phase (Status o) = "Failed"
  | Ev (ListPods _ _) _ => True
  | _ => False
  end.

(** The lookup of the object a create call sends, answered with [e]. *)
Definition lookup_of (ev : event) (e : APIError) : option event :=
  match ev with
  | Ev (CreateConfigMap o) _ =>
      Some (Ev (GetConfigMap (mkKey (cm_Namespace o) (cm_Name o))) (inl e))
  | Ev (CreateDeployment o) _ =>
      Some (Ev (GetDeployment (mkKey (dep_Namespace o) (dep_Name o))) (inl e))
  | Ev (CreateService o) _ =>
      Some (Ev (GetService (mkKey (svc_Namespace o) (svc_Name o))) (inl e))
  | Ev (CreateIngress o) _ =>
      Some (Ev (GetIngress (mkKey (ing_Namespace o) (ing_Name o))) (inl e))
  | _ => None
  end.

(** What a create call of an execution with calls [tr] comes after: the
    lookup of the same object answered not found, and, for the network
    endpoint, a Deployment that was found, for the route a Deployment and a
    Service. *)
Definition create_in_order (tr : list event) (ev : event) : Prop :=
  (is_create ev = true ->
   exists e g, IsNotFound e = true /\ lookup_of ev e = Some g /\ g ∈ tr)
  /\ match ev with
     | Ev (CreateService _) _ => omap observed_deployment tr <> []
     | Ev (CreateIngress _) _ =>
         omap observed_deployment tr <> [] /\ omap observed_service tr <> []
     | _ => True
     end.

(** An object sent by a create call is the one the builders make for
    [m]. *)
Definition built_for (rt : Runtime) (m : ModelServe) (ev : event) : Prop :=
  match ev with
  | Ev (CreateConfigMap o) _ => o = stripPrefixConfigMap m
  | Ev (CreateDeployment o) _ => o = deploymentForModelServe rt m
  | Ev (CreateService o) _ => o = serviceForModelServe m
  | Ev (CreateIngress o) _ => o = ingressForModelServe m
  | _ => True
  end.

(** The calls of the status block. *)
Definition status_call (ev : event) : bool :=
  match ev with
  | Ev TimeNow _ | Ev (ListPods _ _) _ | Ev (StatusUpdate _) _ => true
  | _ => false
  end.

(** How an error answer [e] to the call [ev] shows in the outcome. *)
Definition error_accounted (res : Result * option APIError) (ev : event)
  : Prop :=
  forall e, call_error ev = Some e ->
    snd res = Some e
    \/ (is_lookup ev = true /\ IsNotFound e = true)
    \/ best_effort ev.

(** What a status write [o] with phase Running carries, in an invocation
    that fetched [m] and observed the Deployments [ds]: the replica count
    of a Deployment that has one available, the gateway URL and the name of
    the Service. *)
Definition running_write_ok (m : ModelServe) (ds : list Deployment)
    (o : ModelServe) : Prop :=
  (exists d, d ∈ ds /\ 0 < dep_AvailableReplicas d
             /\ AvailableReplicas (Status o) = dep_AvailableReplicas d)
  /\ GatewayURL (Status o) = gatewayURL_of m
  /\ ServiceName (Status o) = Name (Meta m).

(** The phase the status block leaves, from the available replicas it saw
    and the phase it started from. *)
Definition next_phase (available : Z) (phase : string) : string :=
  if Z.ltb 0 available then "Running"
  else if str_eqb phase "Downloading" || str_eqb phase "Failed" then phase
  else "Pending".

(** The first pod in phase Running. *)
Definition first_running (items : list Pod) : option Pod :=
  List.find (fun p => str_eqb (pod_Phase p) "Running") items.

(** The key of the ConfigMap of [createStripPrefixMiddleware]. *)
Definition stripPrefix_key (m : ModelServe) : string * string :=
  (Namespace (Meta m), Name (Meta m) ++ "-stripprefix").

(** The store once the first reconcile of an object is through: the object
    is stored under its name with a phase, and its ConfigMap and its
    Deployment exist. *)
Definition workload_present (req : NamespacedName) (c : Cluster) : Prop :=
  exists m,
    modelserves c !! kk req = Some m /\ key_of m = req
    /\ Phase (Status m) <> ""
    /\ is_Some (configmaps c !! stripPrefix_key m)
    /\ is_Some (deployments c !! kk req).

(** The namespace and name a call writes under; [None] for a call that
    only reads. *)
Definition written_key {X : Type} (e : clientE X) : option (string * string) :=
  match e with
  | CreateConfigMap o => Some (cm_Namespace o, cm_Name o)
  | CreateDeployment o => Some (dep_Namespace o, dep_Name o)
  | CreateService o => Some (svc_Namespace o, svc_Name o)
  | CreateIngress o => Some (ing_Namespace o, ing_Name o)
  | UpdateModelServe o | StatusUpdate o => Some (kk (key_of o))
  | _ => None
  end.

(** Two stores hold the same under the key [k], and have the same pods and
    clock. *)
Definition same_at (k : string * string) (c c' : Cluster) : Prop :=
  modelserves c' !! k = modelserves c !! k
  /\ configmaps c' !! k = configmaps c !! k
  /\ deployments c' !! k = deployments c !! k
  /\ services c' !! k = services c !! k
  /\ ingresses c' !! k = ingresses c !! k
  /\ pods c' = pods c /\ clock c' = clock c.

(* ===================================================================== *)
(** ** Sample inputs *)
(* ===================================================================== *)

(** A process with no environment variable set.  The clock reads 1000.  The
    three library functions are stand-ins: none of them is reached for an
    object without token annotation and without [runtimeParams]. *)
Definition rt_unset : Runtime :=
  mkRuntime (fun _ => "") 1000 (fun _ _ => "") (fun _ => None) (fun _ => []).

(** The same process started with [MINIO_ENDPOINT=minio.prod:9000]. *)
Definition rt_prod : Runtime :=
  mkRuntime
    (fun key => if str_eqb key "MINIO_ENDPOINT" then "minio.prod:9000" else "")
    1000 (fun _ _ => "") (fun _ => None) (fun _ => []).

Definition empty_status : ModelServeStatus := mkStatus 0 "" "" "" "" None "".

(** The request of the end-to-end scenario:
    [{modelName: "demo", modelUUID: "u-1", sourcePath: "models/demo.bin"}]. *)
Definition demo : ModelServe :=
  mkModelServe (mkMeta "demo" "default" ∅)
    (mkSpec "demo" "u-1" "models/demo.bin" "" "" "" None "" 0 0)
    empty_status.

Definition demo_key : NamespacedName := mkKey "default" "demo".

(** The demo request with chosen replicas, memory and CPU limits. *)
Definition demo_sized (replicas : option Z) (memoryLimit cpuLimit : Z)
  : ModelServe :=
  mkModelServe (mkMeta "demo" "default" ∅)
    (mkSpec "demo" "u-1" "models/demo.bin" "" "" "" replicas ""
       memoryLimit cpuLimit)
    empty_status.

(** [demo] as a first reconcile leaves it in memory: after the initial
    write, after the write before the workload is created, and after a
    failed create. *)
Definition demo_pending : ModelServe :=
  with_status demo
    (set_Message "Initializing model server"
       (set_Phase "Pending" empty_status)).
Definition demo_downloading : ModelServe :=
  with_status demo
    (set_Message "Downloading model from MinIO"
       (set_Phase "Downloading" (Status demo_pending))).
Definition demo_failed (e : APIError) : ModelServe :=
  with_status demo
    (set_Message ("Failed to create deployment: " ++ err_Text e)
       (set_Phase "Failed" (Status demo_downloading))).

(** Two reconciles of [demo] race: this one looks the Deployment up, is told
    there is none, and by the time it sends its create the other one has
    created it. *)
Definition race_trace : list event :=
  [ Ev (GetModelServe demo_key) (inr demo);
    Ev (StatusUpdate demo_pending) None;
    Ev (GetConfigMap (mkKey "default" "demo-stripprefix")) (inl errNotFound);
    Ev (CreateConfigMap (stripPrefixConfigMap demo_pending)) None;
    Ev (GetDeployment demo_key) (inl errNotFound);
    Ev (StatusUpdate demo_downloading) None;
    Ev (CreateDeployment (deploymentForModelServe rt_unset demo_pending))
       (Some errAlreadyExists);
    Ev (StatusUpdate (demo_failed errAlreadyExists)) None ].

(** [demo] once its workload has come up at time [t]. *)
Definition demo_running (t : Z) : ModelServe :=
  with_status demo
    (mkStatus 1 "Running" "http://localhost/demo" "demo" "" (Some t)
       "Model server is running").

(** The store once the three children and the ConfigMap of [demo] exist and
    the parent's status is [st]; the Deployment reports [n] available
    replicas. *)
Definition demo_cluster (st : ModelServeStatus) (n : Z) : Cluster :=
  let m := with_status demo st in
  report_available demo_key n
    (mkCluster {[ kk demo_key := m ]}
       {[ ("default", "demo-stripprefix") := stripPrefixConfigMap m ]}
       {[ kk demo_key := deploymentForModelServe rt_unset m ]}
       {[ kk demo_key := serviceForModelServe m ]}
       {[ kk demo_key := ingressForModelServe m ]}
       [] 0).

(** More sample inputs. *)

(** A store with nothing in it. *)
Definition empty_cluster : Cluster := mkCluster ∅ ∅ ∅ ∅ ∅ [] 0.

(** A runtime whose stand-in for [json.Unmarshal] reads every payload as
    the claims [c]. *)
Definition rt_claims (c : JWTClaims) : Runtime :=
  mkRuntime (fun _ => "") 1000 (fun key msg => key ++ "/" ++ msg)
    (fun _ => Some c) (fun _ => []).

Definition demo_claims : JWTClaims := mkClaims "operator" "internal" 2000 900.

(** The three segments of a token for [rt_claims]: header and payload
    encoded, and the encoded stand-in MAC of the two under the built-in
    secret. *)
Definition demo_header : string := base64.EncodeToString "{}".
Definition demo_payload : string := base64.EncodeToString "{}".
Definition demo_signature : string :=
  base64.EncodeToString
    (hmac_sha256 (rt_claims demo_claims)
       "your-secret-key-change-in-production"
       (demo_header ++ "." ++ demo_payload)).

Definition demo_token : string :=
  demo_header ++ "." ++ demo_payload ++ "." ++ demo_signature.

(** [demo] carrying [token] in its annotation. *)
Definition demo_with_token (token : string) : ModelServe :=
  mkModelServe (mkMeta "demo" "default" (<[auth_token_key := token]> ∅))
    (Spec demo) empty_status.

Definition errConflict : APIError := mkAPIError StatusReasonOther "conflict".

(** The first reconcile of [demo], with the status write to Downloading
    refused by the store. *)
Definition lossy_trace : list event :=
  [ Ev (GetModelServe demo_key) (inr demo);
    Ev (StatusUpdate demo_pending) None;
    Ev (GetConfigMap (mkKey "default" "demo-stripprefix")) (inl errNotFound);
    Ev (CreateConfigMap (stripPrefixConfigMap demo_pending)) None;
    Ev (GetDeployment demo_key) (inl errNotFound);
    Ev (StatusUpdate demo_downloading) (Some errConflict);
    Ev (CreateDeployment (deploymentForModelServe rt_unset demo_pending))
       None ].

(** Pods in the namespace of [demo]: two of its own, the second one
    running, and one of another object. *)
Definition demo_pods : list Pod :=
  [ mkPod "demo-5c9d-x2x7p" "default" (labelsForModelServe "demo") "Pending";
    mkPod "demo-5c9d-k8s4q" "default" (labelsForModelServe "demo") "Running";
    mkPod "other-77f-abcde" "default" (labelsForModelServe "other") "Running" ].

Definition with_pods (ps : list Pod) (c : Cluster) : Cluster :=
  mkCluster (modelserves c) (configmaps c) (deployments c) (services c)
    (ingresses c) ps (clock c).

(* ===================================================================== *)

(** ** The controller in its first version

    The same file also holds the controller as it was before the status
    phase and the MinIO init container: the model is mounted from the
    node, there is no ConfigMap, and the status carries the available
    replicas only. *)
Module legacy.

Inductive Volume :=
| HostPathVolume (name path : string)
| ConfigMapVolume (name configmap : string).

(** [appsv1.Deployment] as this version fills it: no labels on the object,
    no annotations on the template, no init container. *)
Record Deployment := mkDeployment {
  dep_Name                  : string;
  dep_Namespace             : string;
  dep_Replicas              : option Z;
  dep_MatchLabels           : gmap string string;
  dep_TemplateLabels        : gmap string string;
  dep_ShareProcessNamespace : bool;
  dep_Containers            : list Container;
  dep_Volumes               : list Volume;
  dep_AvailableReplicas     : Z
}.

(** The calls this version makes. *)
Inductive clientE : Type -> Type :=
| GetModelServe (key : NamespacedName) : clientE (APIError + ModelServe)
| GetDeployment (key : NamespacedName) : clientE (APIError + Deployment)
| GetService (key : NamespacedName) : clientE (APIError + Service)
| GetIngress (key : NamespacedName) : clientE (APIError + Ingress)
| CreateDeployment (o : Deployment) : clientE (option APIError)
| CreateService (o : Service) : clientE (option APIError)
| CreateIngress (o : Ingress) : clientE (option APIError)
| StatusUpdate (o : ModelServe) : clientE (option APIError).

Inductive Prog (A : Type) : Type :=
| Ret (a : A)
| Vis {X : Type} (e : clientE X) (k : X -> Prog A).

Arguments Ret {A} a.
Arguments Vis {A X} e k.

Fixpoint bind {A B : Type} (p : Prog A) (f : A -> Prog B) : Prog B :=
  match p with
  | Ret a => f a
  | Vis e k => Vis e (fun x => bind (k x) f)
  end.

Definition trigger {X : Type} (e : clientE X) : Prog X := Vis e Ret.

#[global] Instance Prog_ret : MRet Prog := @Ret.
#[global] Instance Prog_bind : MBind Prog := fun A B f p => bind p f.

(** [deploymentForModelServe]: llama-server on the model directory of the
    node, and the monitor sidecar. *)
Definition deploymentForModelServe (m : ModelServe) : Deployment :=
  let ls := labelsForModelServe (Name (Meta m)) in
  let replicas :=
    match Replicas (Spec m) with None => Some 1 | Some n => Some n end in
  let image :=
    if is_empty (Image (Spec m)) then "ghcr.io/ggerganov/llama.cpp:server"
    else Image (Spec m) in
  mkDeployment (Name (Meta m)) (Namespace (Meta m))
    replicas ls ls
    true
    [ mkContainer "llama-server" image []
        ["-m"; "/models/" ++ ModelName (Spec m);
         "--host"; "0.0.0.0"; "--port"; "8080"]
        [] [("http", 8080)] [("model-volume", "/models")] None None None;
      mkContainer "monitor-sidecar" "python:3.9-slim" ["/bin/sh"; "-c"]
        ["pip install psycopg2-binary psutil && python /scripts/monitor.py"]
        [ EnvValue "SERVER_UUID" (Name (Meta m));
          EnvValue "MODEL_NAME" (ModelName (Spec m)) ]
        [] [("monitor-script", "/scripts")] None None None ]
    [ HostPathVolume "model-volume" "/home/Inference_service/Model_Catalog";
      ConfigMapVolume "monitor-script" "monitor-script" ]
    0.

(** [serviceForModelServe]: no labels on the object. *)
Definition serviceForModelServe (m : ModelServe) : Service :=
  let ls := labelsForModelServe (Name (Meta m)) in
  mkService (Name (Meta m)) (Namespace (Meta m)) ∅ ls 80 8080 "ClusterIP".

(** [ingressForModelServe]: the strip-prefix middleware is named in the
    namespace default, whatever the namespace of the object. *)
Definition ingressForModelServe (m : ModelServe) : Ingress :=
  let ls := labelsForModelServe (Name (Meta m)) in
  mkIngress (Name (Meta m)) (Namespace (Meta m))
    (<["traefik.ingress.kubernetes.io/router.middlewares" :=
         "default-" ++ Name (Meta m) ++ "-stripprefix@kubernetescrd"]> ∅)
    ls "traefik" ("/" ++ Name (Meta m)) "Prefix" (Name (Meta m)) 80.

(** "Update Status": the available replicas, when they differ. *)
Definition reconcileStatus (found : Deployment) (modelServe : ModelServe)
  : Prog (Result * option APIError) :=
  if negb (Z.eqb (dep_AvailableReplicas found)
             (AvailableReplicas (Status modelServe)))
  then
    err ← trigger (StatusUpdate
                     (with_status modelServe
                        (set_AvailableReplicas (dep_AvailableReplicas found)
                           (Status modelServe))));
    match err with
    | Some e => mret (mkResult false, Some e)
    | None => mret (mkResult false, None)
    end
  else mret (mkResult false, None).

(** "Define Ingress" and "Check if Ingress exists". *)
Definition reconcileIngress (found : Deployment) (modelServe : ModelServe)
  : Prog (Result * option APIError) :=
  let ing := ingressForModelServe modelServe in
  g ← trigger (GetIngress (mkKey (ing_Namespace ing) (ing_Name ing)));
  match g with
  | inl err =>
      if IsNotFound err then
        c ← trigger (CreateIngress ing);
        match c with
        | Some e => mret (mkResult false, Some e)
        | None => mret (mkResult true, None)
        end
      else mret (mkResult false, Some err)
  | inr _ => reconcileStatus found modelServe
  end.

(** "Define Service" and "Check if Service exists". *)
Definition reconcileService (found : Deployment) (modelServe : ModelServe)
  : Prog (Result * option APIError) :=
  let svc := serviceForModelServe modelServe in
  g ← trigger (GetService (mkKey (svc_Namespace svc) (svc_Name svc)));
  match g with
  | inl err =>
      if IsNotFound err then
        c ← trigger (CreateService svc);
        match c with
        | Some e => mret (mkResult false, Some e)
        | None => mret (mkResult true, None)
        end
      else mret (mkResult false, Some err)
  | inr _ => reconcileIngress found modelServe
  end.

(** [Reconcile]. *)
Definition Reconcile (req : NamespacedName) : Prog (Result * option APIError) :=
  r ← trigger (GetModelServe req);
  match r with
  | inl err =>
      if IsNotFound err then mret (mkResult false, None)
      else mret (mkResult false, Some err)
  | inr modelServe =>
      let dep := deploymentForModelServe modelServe in
      g ← trigger (GetDeployment (mkKey (dep_Namespace dep) (dep_Name dep)));
      match g with
      | inl err =>
          if IsNotFound err then
            c ← trigger (CreateDeployment dep);
            match c with
            | Some e => mret (mkResult false, Some e)
            | None => mret (mkResult true, None)
            end
          else mret (mkResult false, Some err)
      | inr found => reconcileService found modelServe
      end
  end.

(** One call together with its answer, and the executions. *)
Inductive event : Type :=
| Ev {X : Type} (e : clientE X) (x : X).

Inductive runs {A : Type} : Prog A -> list event -> A -> Prop :=
| runs_Ret (a : A) : runs (Ret a) [] a
| runs_Vis {X : Type} (e : clientE X) (k : X -> Prog A) (x : X)
    (tr : list event) (a : A) :
    runs (k x) tr a -> runs (Vis e k) (Ev e x :: tr) a.

Definition is_create (ev : event) : bool :=
  match ev with
  | Ev (CreateDeployment _) _ | Ev (CreateService _) _
  | Ev (CreateIngress _) _ => true
  | _ => false
  end.

Definition created (ev : event) : bool :=
  match ev with
  | Ev (CreateDeployment _) None | Ev (CreateService _) None
  | Ev (CreateIngress _) None => true
  | _ => false
  end.

Definition status_write (ev : event) : option ModelServe :=
  match ev with
  | Ev (StatusUpdate o) _ => Some o
  | _ => None
  end.

Definition fetched (ev : event) : option ModelServe :=
  match ev with
  | Ev (GetModelServe _) (inr o) => Some o
  | _ => None
  end.

Definition observed_deployment (ev : event) : option Deployment :=
  match ev with
  | Ev (GetDeployment _) (inr d) => Some d
  | _ => None
  end.


(** One in which the Deployment is missing and gets created. *)
Definition create_trace : list event :=
  [ Ev (GetModelServe demo_key) (inr demo);
    Ev (GetDeployment demo_key) (inl errNotFound);
    Ev (CreateDeployment (deploymentForModelServe demo)) None ].

End legacy.

(* ===================================================================== *)
(** * Properties of the admission webhook *)
(* ===================================================================== *)

Lemma is_empty_true (s : string) : is_empty s = true <-> s = "".
Proof. unfold is_empty. apply bool_decide_eq_true. Qed.

Lemma is_empty_false (s : string) : is_empty s = false <-> s <> "".
Proof. unfold is_empty. apply bool_decide_eq_false. Qed.

Lemma str_eqb_true (s t : string) : str_eqb s t = true <-> s = t.
Proof. unfold str_eqb. apply bool_decide_eq_true. Qed.

Lemma str_eqb_false (s t : string) : str_eqb s t = false <-> s <> t.
Proof. unfold str_eqb. apply bool_decide_eq_false. Qed.

Lemma str_eqb_refl (s : string) : str_eqb s s = true.
Proof. by apply str_eqb_true. Qed.

Section Bounds.

Variable rt : Runtime.

(** What [ValidateCreate] requires of an object it lets through. *)
Lemma ValidateCreate_accepts (r : ModelServe) :
  ValidateCreate rt r = None ->
  validateJWT rt r = None
  /\ ModelName (Spec r) <> "" /\ ModelUUID (Spec r) <> ""
  /\ MinIOPath (Spec r) <> ""
  /\ (forall n, Replicas (Spec r) = Some n -> n <= 5)
  /\ MemoryLimit (Spec r) <= 32768 /\ CPULimit (Spec r) <= 16000.
Proof.
  unfold ValidateCreate.
  destruct (validateJWT rt r); [discriminate |].
  destruct (is_empty (ModelName (Spec r))) eqn:E1; [discriminate |].
  destruct (is_empty (ModelUUID (Spec r))) eqn:E2; [discriminate |].
  destruct (is_empty (MinIOPath (Spec r))) eqn:E3; [discriminate |].
  apply is_empty_false in E1, E2, E3.
  destruct (Replicas (Spec r)) as [n |] eqn:ER.
  - destruct (Z.ltb_spec 5 n); [discriminate |].
    destruct (Z.ltb_spec 32768 (MemoryLimit (Spec r))); [discriminate |].
    destruct (Z.ltb_spec 16000 (CPULimit (Spec r))); [discriminate |].
    intros _. repeat split; try assumption.
    intros k [= <-]. assumption.
  - destruct (Z.ltb_spec 32768 (MemoryLimit (Spec r))); [discriminate |].
    destruct (Z.ltb_spec 16000 (CPULimit (Spec r))); [discriminate |].
    intros _. repeat split; try assumption. discriminate.
Qed.

(** On create, each of the three upper bounds is enforced. *)
Lemma ValidateCreate_rejects_bounds (r : ModelServe) :
  (exists n, Replicas (Spec r) = Some n /\ 5 < n)
  \/ 32768 < MemoryLimit (Spec r) \/ 16000 < CPULimit (Spec r) ->
  ValidateCreate rt r <> None.
Proof.
  intros Hb Hacc. apply ValidateCreate_accepts in Hacc.
  destruct Hacc as (_ & _ & _ & _ & Hr & Hm & Hc).
  destruct Hb as [(n & Hn & Hlt) | [Hlt | Hlt]]; [| lia | lia].
  specialize (Hr n Hn). lia.
Qed.

(** On update, the replica bound is enforced. *)
Lemma ValidateUpdate_rejects_replicas (r old : ModelServe) (n : Z) :
  Replicas (Spec r) = Some n -> 5 < n -> ValidateUpdate rt r old <> None.
Proof.
  intros Hn Hlt. unfold ValidateUpdate.
  destruct (validateJWT rt r); [discriminate |].
  rewrite Hn. destruct (Z.ltb_spec 5 n); [discriminate | lia].
Qed.

(** Without a token annotation the token check passes. *)
Lemma validateJWT_no_annotation (r : ModelServe) :
  Annotations (Meta r) !! auth_token_key = None -> validateJWT rt r = None.
Proof. intros H. unfold validateJWT. by rewrite H. Qed.

(** C1, at the input where the code departs from it: [ValidateUpdate]
    lets an update through that raises [memoryLimit] to 40000 and
    [cpuLimit] to 20000, both above their bounds; it compares only
    [replicas]. *)
Theorem ValidateUpdate_ignores_memory_and_cpu_bounds (old : ModelServe) :
  ValidateUpdate rt (demo_sized (Some 1) 40000 20000) old = None
  /\ 32768 < MemoryLimit (Spec (demo_sized (Some 1) 40000 20000))
  /\ 16000 < CPULimit (Spec (demo_sized (Some 1) 40000 20000)).
Proof.
  split; [| split; reflexivity].
  unfold ValidateUpdate.
  rewrite validateJWT_no_annotation by reflexivity.
  reflexivity.
Qed.

(** C4, as the code has it: an object that [Default] filled and
    [ValidateCreate] accepted has [replicas] set and at most 5; it is 1
    when the request left [replicas] out.  There is no lower bound for a
    value the request did set. *)
Theorem accepted_replicas_at_most_5 (m : ModelServe) :
  ValidateCreate rt (Default m) = None ->
  exists n, Replicas (Spec (Default m)) = Some n /\ n <= 5
            /\ (Replicas (Spec m) = None -> n = 1).
Proof.
  intros Hacc. apply ValidateCreate_accepts in Hacc.
  destruct Hacc as (_ & _ & _ & _ & Hr & _).
  destruct (Replicas (Spec m)) as [n |] eqn:E.
  - exists n. cbn in *. rewrite E in *. split; [reflexivity |].
    split; [by apply Hr | discriminate].
  - exists 1. cbn in *. rewrite E in *. split; [reflexivity |].
    split; [lia | reflexivity].
Qed.

End Bounds.

Lemma accepted_replicas_at_most_5_witness :
  ValidateCreate rt_unset (Default demo) = None
  /\ exists n, Replicas (Spec (Default demo)) = Some n /\ n <= 5
               /\ (Replicas (Spec demo) = None -> n = 1).
Proof.
  split; [reflexivity |].
  apply (accepted_replicas_at_most_5 rt_unset demo). reflexivity.
Defined.

(** C4 fails for a request that asks for zero replicas: defaulting leaves
    the zero in place (the pointer is not nil), create-time validation
    accepts it, and 1 <= replicas does not hold. *)
Lemma zero_replicas_accepted :
  ValidateCreate rt_unset (Default (demo_sized (Some 0) 0 0)) = None
  /\ Replicas (Spec (Default (demo_sized (Some 0) 0 0))) = Some 0
  /\ ~ (exists n, Replicas (Spec (Default (demo_sized (Some 0) 0 0))) = Some n
                  /\ 1 <= n <= 5).
Proof.
  split; [reflexivity |]. split; [reflexivity |].
  intros (n & Hn & Hle). cbn in Hn. injection Hn as <-. lia.
Qed.

(* ===================================================================== *)
(** * The workload builder and admission defaulting *)
(* ===================================================================== *)

Section BuilderDefaults.

Variable rt : Runtime.

Lemma default_or_value_idem (s d : string) :
  d <> "" ->
  (if is_empty (if is_empty s then d else s) then d
   else if is_empty s then d else s)
  = if is_empty s then d else s.
Proof.
  intros Hd. destruct (is_empty s) eqn:E.
  - by destruct (is_empty d).
  - by rewrite E.
Qed.

Lemma limit_default_idem (n d : Z) :
  d <> 0 ->
  (if Z.eqb (if Z.eqb n 0 then d else n) 0 then d
   else if Z.eqb n 0 then d else n)
  = if Z.eqb n 0 then d else n.
Proof.
  intros Hd. destruct (Z.eqb_spec n 0) as [-> | Hn].
  - by destruct (Z.eqb d 0).
  - destruct (Z.eqb_spec n 0); [contradiction | reflexivity].
Qed.

(** The builder's fallback for an unset endpoint or bucket is the constant
    of [Default] exactly when the environment variable is unset, empty or
    holds that constant. *)
Lemma env_default_agrees (key d s : string) :
  d <> "" ->
  Getenv rt key = "" \/ Getenv rt key = d ->
  (if is_empty (if is_empty s then d else s) then getEnvOrDefault rt key d
   else if is_empty s then d else s)
  = if is_empty s then getEnvOrDefault rt key d else s.
Proof.
  intros Hd Henv.
  assert (Hg : getEnvOrDefault rt key d = d).
  { unfold getEnvOrDefault. destruct Henv as [-> | ->].
    - reflexivity.
    - by destruct (is_empty d). }
  rewrite Hg. by apply default_or_value_idem.
Qed.

(** C9, as the code has it: the builder gives the same Deployment with
    and without admission defaulting when [MINIO_ENDPOINT] and
    [MINIO_BUCKET] are unset (or hold the constants of [Default]).  The
    builder reads both variables, [Default] does not. *)
Theorem deployment_unchanged_by_Default (m : ModelServe) :
  Getenv rt "MINIO_ENDPOINT" = ""
  \/ Getenv rt "MINIO_ENDPOINT" = "minio:9000" ->
  Getenv rt "MINIO_BUCKET" = ""
  \/ Getenv rt "MINIO_BUCKET" = "inference-models" ->
  deploymentForModelServe rt (Default m) = deploymentForModelServe rt m.
Proof.
  intros He Hb.
  destruct m as [meta [mn mu mp me mb im rp par mem cpu] st].
  unfold deploymentForModelServe, Default, with_spec.
  cbn [Meta Spec Status ModelName ModelUUID MinIOPath MinIOEndpoint
       MinIOBucket Image Replicas RuntimeParams MemoryLimit CPULimit].
  rewrite (env_default_agrees "MINIO_ENDPOINT" "minio:9000" me)
    by (done || discriminate).
  rewrite (env_default_agrees "MINIO_BUCKET" "inference-models" mb)
    by (done || discriminate).
  rewrite (default_or_value_idem im) by discriminate.
  rewrite (limit_default_idem mem 4096) by lia.
  rewrite (limit_default_idem cpu 2000) by lia.
  by destruct rp.
Qed.

End BuilderDefaults.

Lemma deployment_unchanged_by_Default_witness :
  deploymentForModelServe rt_unset (Default demo)
  = deploymentForModelServe rt_unset demo.
Proof.
  apply (deployment_unchanged_by_Default rt_unset demo);
    left; reflexivity.
Defined.

(** C9 fails when the operator runs with [MINIO_ENDPOINT] set: for a
    request without endpoint the builder takes the variable, while after
    [Default] it finds "minio:9000" in the spec; the init containers
    differ. *)
Lemma deployment_differs_after_Default :
  deploymentForModelServe rt_prod demo
  <> deploymentForModelServe rt_prod (Default demo).
Proof.
  intros H. apply (f_equal dep_InitContainers) in H.
  vm_compute in H. discriminate H.
Qed.

(* ===================================================================== *)
(** * The signed-token check *)
(* ===================================================================== *)

Module base64_facts.
Import base64.

Lemma char_ok_below_64 : forallb char_ok (map N.of_nat (seq 0 64)) = true.
Proof. vm_compute. reflexivity. Qed.

Lemma enc_char_ok (n : N) :
  (n < 64)%N ->
  dec_char (enc_char n) = Some n /\ is_newline (enc_char n) = false.
Proof.
  intros Hn.
  assert (Hin : In n (map N.of_nat (seq 0 64))).
  { apply in_map_iff. exists (N.to_nat n). split; [apply N2Nat.id |].
    apply in_seq. lia. }
  pose proof (proj1 (forallb_forall _ _) char_ok_below_64 n Hin) as Hc.
  unfold char_ok in Hc. apply andb_true_iff in Hc as [H1 H2].
  destruct (dec_char (enc_char n)) as [k |]; [| discriminate].
  apply N.eqb_eq in H1 as ->. split; [reflexivity |].
  by apply negb_true_iff.
Qed.

Lemma sextets_cons (n : N) (s : string) (l : list N) :
  (n < 64)%N -> sextets s = Some l ->
  sextets (String (enc_char n) s) = Some (n :: l).
Proof.
  intros Hn Hs. destruct (enc_char_ok n Hn) as [Hd Hnl].
  cbn [sextets]. by rewrite Hnl, Hd, Hs.
Qed.

Lemma byte_of_ascii (a : ascii) (n : N) : n = N_of_ascii a -> byte n = a.
Proof.
  intros ->. unfold byte.
  rewrite N.mod_small by apply N_ascii_bounded.
  apply ascii_N_embedding.
Qed.

Ltac arith := zify; Z.to_euclidean_division_equations; lia.

(** Induction on strings three characters at a time. *)
Lemma string_ind3 (P : string -> Prop) :
  P "" -> (forall a, P (String a "")) ->
  (forall a b, P (String a (String b ""))) ->
  (forall a b c r, P r -> P (String a (String b (String c r)))) ->
  forall s, P s.
Proof.
  intros H0 H1 H2 H3 s.
  enough (P s /\ (forall a, P (String a s))
          /\ (forall a b, P (String a (String b s)))) by tauto.
  induction s as [| c r (IH0 & IH1 & IH2)].
  - auto.
  - repeat split; auto.
Qed.

Lemma sextets_EncodeToString (s : string) :
  sextets (EncodeToString s) = Some (values s).
Proof.
  induction s as [| a | a b | a b c r IH] using string_ind3.
  - reflexivity.
  - pose proof (N_ascii_bounded a).
    cbn [EncodeToString values].
    repeat (apply sextets_cons; [arith |]). reflexivity.
  - pose proof (N_ascii_bounded a). pose proof (N_ascii_bounded b).
    cbn [EncodeToString values].
    repeat (apply sextets_cons; [arith |]). reflexivity.
  - pose proof (N_ascii_bounded a). pose proof (N_ascii_bounded b).
    pose proof (N_ascii_bounded c).
    cbn [EncodeToString values].
    repeat (apply sextets_cons; [arith |]). exact IH.
Qed.

Lemma bytes_of_values (s : string) : bytes_of (values s) = Some s.
Proof.
  induction s as [| a | a b | a b c r IH] using string_ind3.
  - reflexivity.
  - pose proof (N_ascii_bounded a).
    cbn [bytes_of values]. do 2 f_equal. apply byte_of_ascii. arith.
  - pose proof (N_ascii_bounded a). pose proof (N_ascii_bounded b).
    cbn [bytes_of values].
    f_equal. f_equal; [apply byte_of_ascii; arith |].
    f_equal. apply byte_of_ascii; arith.
  - pose proof (N_ascii_bounded a). pose proof (N_ascii_bounded b).
    pose proof (N_ascii_bounded c).
    cbn [values]. cbn [bytes_of]. rewrite IH.
    f_equal. f_equal; [apply byte_of_ascii; arith |].
    f_equal; [apply byte_of_ascii; arith |].
    f_equal. apply byte_of_ascii; arith.
Qed.

(** What [EncodeToString] writes, [DecodeString] reads back. *)
Lemma DecodeString_EncodeToString (s : string) :
  DecodeString (EncodeToString s) = Some s.
Proof.
  unfold DecodeString. rewrite sextets_EncodeToString.
  apply bytes_of_values.
Qed.

End base64_facts.

Section Token.

Variable rt : Runtime.

(** The check on a token that is present, case by case as the code runs
    through it. *)
Lemma token_valid_checks (token : string) :
  token_valid rt token <->
  match Split_dot token with
  | [p0; p1; p2] =>
      match base64.DecodeString p0, base64.DecodeString p1 with
      | Some _, Some payloadBytes =>
          match json_Unmarshal rt payloadBytes with
          | Some claims =>
              p2 = base64.EncodeToString
                     (hmac_sha256 rt (jwtSecret rt) (p0 ++ "." ++ p1))
              /\ ~ (Exp claims < NowUnix rt)
              /\ (Type_ claims = "internal" \/ Type_ claims = "user")
          | None => False
          end
      | _, _ => False
      end
  | _ => False
  end.
Proof.
  unfold token_valid. split.
  - intros (h & p & s & payload & claims & -> & [x ->] & -> & _ & -> & H).
    destruct H as (-> & H). split; [reflexivity | exact H].
  - destruct (Split_dot token) as [| p0 [| p1 [| p2 [| ? ?]]]];
      try contradiction.
    destruct (base64.DecodeString p0) as [hd |] eqn:E0; [| contradiction].
    destruct (base64.DecodeString p1) as [payload |] eqn:E1;
      [| contradiction].
    destruct (json_Unmarshal rt payload) as [claims |] eqn:E2;
      [| contradiction].
    intros (Hs & He & Ht).
    exists p0, p1, p2, payload, claims.
    repeat split; try assumption; try reflexivity.
    + by exists hd.
    + rewrite Hs. eexists.
      apply base64_facts.DecodeString_EncodeToString.
Qed.

(** With the annotation present, [validateJWT] accepts exactly the valid
    tokens. *)
Lemma validateJWT_present (r : ModelServe) (token : string) :
  Annotations (Meta r) !! auth_token_key = Some token ->
  validateJWT rt r = None <-> token_valid rt token.
Proof.
  intros Ht. rewrite token_valid_checks.
  unfold validateJWT. rewrite Ht.
  destruct (Split_dot token) as [| p0 [| p1 [| p2 [| ? ?]]]];
    try (split; [discriminate | contradiction]).
  destruct (base64.DecodeString p0) as [hd |];
    [| split; [discriminate | contradiction]].
  destruct (base64.DecodeString p1) as [payload |];
    [| split; [discriminate | contradiction]].
  destruct (json_Unmarshal rt payload) as [claims |];
    [| split; [discriminate | contradiction]].
  destruct (str_eqb p2 _) eqn:Es; cbn [negb].
  2:{ apply str_eqb_false in Es.
      split; [discriminate | intros (? & _); contradiction]. }
  apply str_eqb_true in Es.
  destruct (Z.ltb_spec (Exp claims) (NowUnix rt)) as [Hlt | Hge].
  { split; [discriminate | intros (_ & ? & _); contradiction]. }
  destruct (str_eqb (Type_ claims) "internal") eqn:Ei; cbn [negb andb].
  { apply str_eqb_true in Ei. split; [| reflexivity].
    intros _. repeat split; [assumption | lia | by left]. }
  apply str_eqb_false in Ei.
  destruct (str_eqb (Type_ claims) "user") eqn:Eu; cbn [negb].
  { apply str_eqb_true in Eu. split; [| reflexivity].
    intros _. repeat split; [assumption | lia | by right]. }
  apply str_eqb_false in Eu.
  split; [discriminate |]. intros (_ & _ & [? | ?]); contradiction.
Qed.

(** C7: [validateJWT] accepts exactly when the annotation is absent or
    the token is valid: three base64url segments, the signature segment
    equal to the recomputed HMAC-SHA256 of "header.payload" under the
    shared secret, an expiry that is not in the past and a type among
    internal and user.  Every other token is rejected. *)
Theorem validateJWT_accepts_iff (r : ModelServe) :
  validateJWT rt r = None <->
  Annotations (Meta r) !! auth_token_key = None
  \/ exists token, Annotations (Meta r) !! auth_token_key = Some token
                   /\ token_valid rt token.
Proof.
  destruct (Annotations (Meta r) !! auth_token_key) as [token |] eqn:Ha.
  - rewrite (validateJWT_present r token Ha). split.
    + intros Hv. right. by exists token.
    + intros [? | (t & [= <-] & Hv)]; [discriminate | exact Hv].
  - split; [by left |]. intros _. unfold validateJWT. by rewrite Ha.
Qed.

(** The rejections the specification lists as tests. *)

(** A token that does not have three segments is rejected. *)
Lemma validateJWT_rejects_malformed (r : ModelServe) (token : string) :
  Annotations (Meta r) !! auth_token_key = Some token ->
  length (Split_dot token) <> 3%nat ->
  validateJWT rt r = Some "invalid JWT format".
Proof.
  intros Ht Hlen. unfold validateJWT. rewrite Ht.
  destruct (Split_dot token) as [| p0 [| p1 [| p2 [| ? ?]]]];
    try reflexivity.
  cbn in Hlen. contradiction.
Qed.

(** A token whose signature segment is not the recomputed HMAC is
    rejected. *)
Lemma validateJWT_rejects_bad_signature (r : ModelServe) (h p s : string) :
  Annotations (Meta r) !! auth_token_key = Some (h ++ "." ++ p ++ "." ++ s) ->
  Split_dot (h ++ "." ++ p ++ "." ++ s) = [h; p; s] ->
  s <> base64.EncodeToString (hmac_sha256 rt (jwtSecret rt) (h ++ "." ++ p)) ->
  validateJWT rt r <> None.
Proof.
  intros Ht Hsplit Hsig Hacc.
  apply (validateJWT_present r _ Ht) in Hacc.
  destruct Hacc as (h' & p' & s' & payload & claims & Hs & _ & _ & _ & _
                    & Heq & _).
  rewrite Hsplit in Hs. injection Hs as <- <- <-. contradiction.
Qed.

(** A token whose expiry is in the past is rejected, and so is one whose
    type is neither internal nor user ("guest", say). *)
Lemma validateJWT_rejects_claims (r : ModelServe) (token h p s payload : string)
    (claims : JWTClaims) :
  Annotations (Meta r) !! auth_token_key = Some token ->
  Split_dot token = [h; p; s] ->
  base64.DecodeString p = Some payload ->
  json_Unmarshal rt payload = Some claims ->
  Exp claims < NowUnix rt
  \/ (Type_ claims <> "internal" /\ Type_ claims <> "user") ->
  validateJWT rt r <> None.
Proof.
  intros Ht Hsplit Hp Hj Hbad Hacc.
  apply (validateJWT_present r _ Ht) in Hacc.
  destruct Hacc as (h' & p' & s' & payload' & claims' & Hs & _ & Hp' & _
                    & Hj' & _ & Hexp & Hty).
  rewrite Hsplit in Hs. injection Hs as <- <- <-.
  rewrite Hp in Hp'. injection Hp' as <-.
  rewrite Hj in Hj'. injection Hj' as <-.
  destruct Hbad as [Hlt | [Hi Hu]]; [contradiction |].
  destruct Hty; contradiction.
Qed.

End Token.

(* ===================================================================== *)
(** * The reconciler against an arbitrary store *)
(* ===================================================================== *)

Lemma runs_inv {A : Type} (p : Prog A) (tr : list event) (a : A) :
  runs p tr a ->
  match p with
  | Ret b => tr = [] /\ a = b
  | Vis e k => exists x tr', tr = Ev e x :: tr' /\ runs (k x) tr' a
  end.
Proof. intros H. destruct H; eauto. Qed.

Ltac prog_simpl H :=
  unfold mret, mbind, Prog_ret, Prog_bind in H; cbn [bind trigger] in H.

(** One step along an execution: through a return, through a call, or into
    the branches of the test the program is stuck on. *)
Ltac runs_step :=
  match goal with
  | H : runs (Ret _) _ _ |- _ =>
      apply runs_inv in H; destruct H as [-> ->]
  | H : runs (Vis _ _) _ _ |- _ =>
      let x := fresh "ans" in
      apply runs_inv in H; destruct H as (x & ? & -> & H)
  | H : runs ?p _ _ |- _ =>
      match p with
      | context [match ?x with _ => _ end] =>
          let E := fresh "E" in destruct x eqn:E
      | context [if ?b then _ else _] =>
          let E := fresh "E" in destruct b eqn:E
      end; prog_simpl H
  end.

Ltac status_simpl :=
  cbn [fst snd with_status Meta Spec Status Phase StartedAt
       set_AvailableReplicas set_Phase set_GatewayURL set_ServiceName
       set_PodName set_StartedAt set_Message] in *.

Lemma podNameLoop_keeps (items : list Pod) (st : ModelServeStatus * bool) :
  Phase (fst (podNameLoop items st)) = Phase (fst st)
  /\ StartedAt (fst (podNameLoop items st)) = StartedAt (fst st).
Proof.
  induction items as [| pod rest IH]; [done |]. cbn [podNameLoop].
  destruct (str_eqb (pod_Phase pod) "Running"); [| exact IH].
  by destruct (negb _).
Qed.

Lemma mirrorStatus_keeps (found : Deployment) (svc : Service) (m : ModelServe) :
  Phase (fst (mirrorStatus found svc m)) = Phase (Status m)
  /\ StartedAt (fst (mirrorStatus found svc m)) = StartedAt (Status m).
Proof.
  unfold mirrorStatus.
  repeat match goal with |- context [if ?b then _ else _] => destruct b end;
    done.
Qed.

Ltac use_podNameLoop :=
  repeat match goal with
  | E : podNameLoop ?i ?s = (_, _) |- _ =>
      let Hp := fresh "Hp" in let Hs := fresh "Hs" in
      destruct (podNameLoop_keeps i s) as [Hp Hs];
      rewrite E in Hp, Hs; status_simpl; clear E
  end.

Ltac written_ok_leaf :=
  status_simpl; intros;
  first
    [ congruence
    | match goal with H : _ \/ _ |- _ => destruct H; congruence end
    | match goal with
      | |- exists t : Z, t ∈ [?a] /\ _ =>
          exists a; split; [apply list_elem_of_here | congruence]
      | |- exists d : Deployment, d ∈ (?a :: _) /\ _ =>
          exists a; split; [apply list_elem_of_here | lia]
      end ].

(** The status block: it only reads the clock, lists pods and writes
    status. *)
Lemma reconcileStatus_runs (found : Deployment) (svc : Service)
    (m : ModelServe) (tr : list event) (res : Result * option APIError) :
  runs (reconcileStatus found svc m) tr res ->
  Forall quiet tr
  /\ Forall (written_ok m [found] (omap observed_time tr)) (status_writes tr).
Proof.
  intros H. unfold reconcileStatus in H.
  destruct (mirrorStatus_keeps found svc m) as [Hp Hs].
  destruct (mirrorStatus found svc m) as [st needs]. cbn [fst] in Hp, Hs.
  prog_simpl H.
  destruct (Z.ltb_spec 0 (dep_AvailableReplicas found)) as [Hav | Hav];
    [destruct (str_eqb (Phase st) "Running") eqn:Er;
     [apply str_eqb_true in Er | apply str_eqb_false in Er]
    | destruct (str_eqb (Phase st) "Downloading") eqn:Ed;
      [| destruct (str_eqb (Phase st) "Failed") eqn:Ef] ];
    cbn [negb andb] in H; prog_simpl H.
  all: repeat runs_step.
  all: use_podNameLoop.
  all: cbn [status_writes omap list_omap status_write observed_time].
  all: split; [repeat constructor |].
  all: repeat constructor; try written_ok_leaf.
Qed.

Lemma quiet_tail (tr : list event) :
  Forall quiet tr ->
  Forall (fun ev => main_write ev = None) tr
  /\ (forall res tr', Forall (create_failure_handled res tr') tr)
  /\ omap fetched tr = [] /\ omap observed_deployment tr = [].
Proof.
  induction 1 as [| ev tr (Hm & Hc & Hf & Hd) _ (IH1 & IH2 & IH3 & IH4)].
  - repeat split; constructor.
  - repeat split.
    + by constructor.
    + intros res tr'. constructor; [| apply IH2].
      intros e He. congruence.
    + cbn. by rewrite Hf.
    + cbn. by rewrite Hd.
Qed.

Lemma written_ok_mono (m m' : ModelServe) (ds ds' : list Deployment)
    (times : list Z) (o : ModelServe) :
  Meta m' = Meta m -> Spec m' = Spec m ->
  StartedAt (Status m') = StartedAt (Status m) ->
  (Phase (Status m') = "Running" <-> Phase (Status m) = "Running") ->
  ds ⊆ ds' ->
  written_ok m' ds times o -> written_ok m ds' times o.
Proof.
  intros Hmeta Hspec Hst Hph Hds (H1 & H2 & H3 & H4 & H5).
  repeat split.
  - congruence.
  - congruence.
  - intros Hc. rewrite <- Hst. apply H3. tauto.
  - intros Hn Ho. apply H4; tauto.
  - intros Hr Ho. destruct H5 as (d & Hd & Hle); [tauto | assumption |].
    exists d. split; [by apply Hds | assumption].
Qed.

Section AnyStore.

Variable rt : Runtime.

(** Every execution of [Reconcile], whatever the store answers: no write
    of the resource itself, every failed create handled as
    [create_failure_handled] says, at most one fetch of the parent, and
    every status write as [written_ok] says. *)
Lemma Reconcile_shape (req : NamespacedName) (tr : list event)
    (res : Result * option APIError) :
  runs (Reconcile rt req) tr res ->
  Forall (fun ev => main_write ev = None) tr
  /\ Forall (create_failure_handled res tr) tr
  /\ (omap fetched tr = [] /\ status_writes tr = []
      \/ exists m, omap fetched tr = [m]
           /\ Forall (written_ok m (omap observed_deployment tr)
                        (omap observed_time tr))
                (status_writes tr)).
Proof.
  intros H.
  unfold Reconcile, createStripPrefixMiddleware in H. prog_simpl H.
  unfold reconcileDeployment, reconcileService, reconcileIngress in H.
  prog_simpl H.
  repeat runs_step.
  all: try match goal with
       | H : runs (reconcileStatus _ _ _) _ _ |- _ =>
           apply reconcileStatus_runs in H;
           destruct H as (Hq & Hw);
           apply quiet_tail in Hq; destruct Hq as (Hq1 & Hq2 & Hq3 & Hq4)
       end.
  all: try match goal with
       | E : is_empty _ = true |- _ => apply is_empty_true in E
       end.
  all: split; [repeat (constructor; [reflexivity |]);
               first [constructor | assumption] |].
  all: split;
    [ repeat (constructor;
              [intros e; cbn; intros [=]; subst;
               (split; [reflexivity |]);
               intros Hd;
               first [ discriminate Hd
                     | eexists; split; [reflexivity |];
                       split; reflexivity ] |]);
      first [by constructor | apply Hq2] |].
  all: try (left; split; reflexivity).
  all: right; eexists; (split; [cbn; rewrite ?Hq3; reflexivity |]).
  all: cbn [status_writes omap list_omap status_write observed_time
            observed_deployment].
  all: repeat (constructor;
               [unfold written_ok; status_simpl;
                repeat split; intros; congruence |]).
  all: try by constructor.
  all: eapply Forall_impl; [exact Hw |].
  all: intros o Ho; rewrite Hq4.
  all: eapply written_ok_mono; [.. | exact Ho]; try reflexivity.
  all: status_simpl; rewrite E0; split; discriminate.
Qed.

Lemma Reconcile_written (req : NamespacedName) (tr : list event)
    (res : Result * option APIError) (m o : ModelServe) :
  runs (Reconcile rt req) tr res ->
  m ∈ omap fetched tr -> o ∈ status_writes tr ->
  written_ok m (omap observed_deployment tr) (omap observed_time tr) o.
Proof.
  intros H Hm Ho.
  destruct (Reconcile_shape req tr res H) as (_ & _ & [[Hf _] | Hf]).
  - rewrite Hf in Hm. by apply elem_of_nil in Hm.
  - destruct Hf as (m' & Hf & Hw). rewrite Hf in Hm.
    apply list_elem_of_singleton in Hm as ->.
    by apply (proj1 (Forall_forall _ _) Hw).
Qed.

End AnyStore.

(** A run on the store is one of the executions. *)
Lemma runs_run {A : Type} (p : Prog A) (c : Cluster) :
  runs p (calls (run p c)) (result (run p c)).
Proof.
  revert c. induction p as [a | X e k IH]; intros c; cbn.
  - constructor.
  - constructor. apply IH.
Qed.

(** On the store, a program that never writes the resource itself leaves
    metadata and spec of every stored ModelServe as they were. *)
Lemma run_keeps_spec {A : Type} (p : Prog A) (c : Cluster)
    (k : string * string) :
  Forall (fun ev => main_write ev = None) (calls (run p c)) ->
  (fun m => (Meta m, Spec m)) <$> modelserves (after (run p c)) !! k
  = (fun m => (Meta m, Spec m)) <$> modelserves c !! k.
Proof.
  revert c. induction p as [a | X e f IH]; intros c Hq; [reflexivity |].
  cbn [run log calls after] in *. apply Forall_cons in Hq as [He Hq].
  rewrite (IH _ _ Hq). clear IH Hq.
  destruct e; cbn [handle fst snd]; try reflexivity;
    try (match goal with
         | |- context [match ?x !! ?j with _ => _ end] => destruct (x !! j)
         end; reflexivity).
  - discriminate He.
  - destruct (modelserves c !! kk (key_of o)) as [old |] eqn:Ho;
      [| reflexivity].
    cbn [snd modelserves set_modelserves].
    destruct (decide (kk (key_of o) = k)) as [<- | Hne].
    + by rewrite lookup_insert_eq, Ho.
    + by rewrite lookup_insert_ne.
Qed.

(** The racing execution of the sample inputs is an execution. *)
Lemma race_runs :
  runs (Reconcile rt_unset demo_key) race_trace
    (mkResult false, Some errAlreadyExists).
Proof.
  unfold race_trace.
  unfold Reconcile, createStripPrefixMiddleware, reconcileDeployment.
  unfold mret, mbind, Prog_ret, Prog_bind, trigger.
  repeat (cbn [bind]; apply runs_Vis; cbv beta iota;
          try change (is_empty (Phase (Status demo))) with true;
          try change (IsNotFound errNotFound) with true; cbv beta iota).
  apply runs_Ret.
Qed.

Section AnyStoreClaims.

Variable rt : Runtime.

(** C10: in every execution of [Reconcile] no call writes the ModelServe
    itself, and every object sent through the status subresource has the
    metadata and the spec that were fetched: only status fields are
    written back. *)
Theorem Reconcile_writes_only_status (req : NamespacedName)
    (tr : list event) (res : Result * option APIError) :
  runs (Reconcile rt req) tr res ->
  Forall (fun ev => main_write ev = None) tr
  /\ forall m o, m ∈ omap fetched tr -> o ∈ status_writes tr ->
                 Meta o = Meta m /\ Spec o = Spec m.
Proof.
  intros H. split.
  - by destruct (Reconcile_shape rt req tr res H) as (Hm & _).
  - intros m o Hm Ho.
    destruct (Reconcile_written rt req tr res m o H Hm Ho) as (? & ? & _).
    by split.
Qed.

(** C2, as the code has it: a create that the store refuses, for whatever
    reason and "already exists" included, ends the invocation with that
    error and without requeue; when it is the create of the workload, the
    last status written has phase Failed and a message naming the
    error.  An existing child is tolerated only by the lookup that comes
    before the create. *)
Theorem create_error_is_returned (req : NamespacedName) (tr : list event)
    (res : Result * option APIError) (ev : event) (e : APIError) :
  runs (Reconcile rt req) tr res ->
  ev ∈ tr -> create_error ev = Some e ->
  res = (mkResult false, Some e)
  /\ (is_deployment_create ev = true ->
      exists o, last (status_writes tr) = Some o
                /\ Phase (Status o) = "Failed"
                /\ Message (Status o)
                   = "Failed to create deployment: " ++ err_Text e).
Proof.
  intros H Hev He.
  destruct (Reconcile_shape rt req tr res H) as (_ & Hc & _).
  exact (proj1 (Forall_forall _ _) Hc ev Hev e He).
Qed.

(** C5, as the code has it: a status write leaves [startedAt] as it was
    fetched, unless it moves the phase into Running from another phase;
    then [startedAt] is the clock value just read.  This happens on every
    entry into Running, not only on the first. *)
Theorem startedAt_set_on_entering_Running (req : NamespacedName)
    (tr : list event) (res : Result * option APIError) (m o : ModelServe) :
  runs (Reconcile rt req) tr res ->
  m ∈ omap fetched tr -> o ∈ status_writes tr ->
  (Phase (Status m) = "Running" \/ Phase (Status o) <> "Running" ->
   StartedAt (Status o) = StartedAt (Status m))
  /\ (Phase (Status m) <> "Running" -> Phase (Status o) = "Running" ->
      exists t, t ∈ omap observed_time tr /\ StartedAt (Status o) = Some t).
Proof.
  intros H Hm Ho.
  destruct (Reconcile_written rt req tr res m o H Hm Ho)
    as (_ & _ & H1 & H2 & _).
  by split.
Qed.

(** On the store, then, a reconcile leaves metadata and spec of every
    ModelServe untouched. *)
Lemma Reconcile_keeps_spec (req : NamespacedName) (c : Cluster)
    (k : string * string) :
  (fun m => (Meta m, Spec m))
    <$> modelserves (after (run (Reconcile rt req) c)) !! k
  = (fun m => (Meta m, Spec m)) <$> modelserves c !! k.
Proof.
  apply run_keeps_spec.
  by destruct (Reconcile_shape rt req _ _ (runs_run (Reconcile rt req) c))
    as (Hm & _).
Qed.

End AnyStoreClaims.

Lemma Reconcile_writes_only_status_witness :
  Forall (fun ev => main_write ev = None)
    (calls (run (Reconcile rt_unset demo_key) (cluster_of demo)))
  /\ forall m o,
       m ∈ omap fetched
             (calls (run (Reconcile rt_unset demo_key) (cluster_of demo))) ->
       o ∈ status_writes
             (calls (run (Reconcile rt_unset demo_key) (cluster_of demo))) ->
       Meta o = Meta m /\ Spec o = Spec m.
Proof.
  apply (Reconcile_writes_only_status rt_unset demo_key _ _
           (runs_run (Reconcile rt_unset demo_key) (cluster_of demo))).
Defined.

(** C2 fails on a create race: the Deployment is reported missing, the
    create is answered "already exists", and the invocation returns that
    error after writing phase Failed. *)
Lemma already_exists_is_not_success :
  runs (Reconcile rt_unset demo_key) race_trace
    (mkResult false, Some errAlreadyExists)
  /\ omap create_error race_trace = [errAlreadyExists]
  /\ IsAlreadyExists errAlreadyExists = true
  /\ phases_written race_trace = ["Pending"; "Downloading"; "Failed"].
Proof.
  split; [exact race_runs |]. repeat split; reflexivity.
Qed.

Lemma create_error_is_returned_witness :
  (mkResult false, Some errAlreadyExists)
  = (mkResult false, Some errAlreadyExists)
  /\ (true = true ->
      exists o, last (status_writes race_trace) = Some o
                /\ Phase (Status o) = "Failed"
                /\ Message (Status o)
                   = "Failed to create deployment: "
                     ++ err_Text errAlreadyExists).
Proof.
  apply (create_error_is_returned rt_unset demo_key race_trace _
           (Ev (CreateDeployment
                  (deploymentForModelServe rt_unset demo_pending))
               (Some errAlreadyExists))
           errAlreadyExists race_runs).
  - unfold race_trace. do 6 apply list_elem_of_further.
    apply list_elem_of_here.
  - reflexivity.
Defined.

(* ===================================================================== *)
(** * The reconciler on the store *)
(* ===================================================================== *)

Lemma key_of_with_status (m : ModelServe) (st : ModelServeStatus) :
  key_of (with_status m st) = key_of m.
Proof. reflexivity. Qed.

Lemma IsNotFound_errNotFound : IsNotFound errNotFound = true.
Proof. reflexivity. Qed.

Ltac run_simpl :=
  repeat (progress
    (cbn [run log result after calls handle fst snd bind get_answer
          status_writes omap list_omap status_write creations List.filter
          is_create length app];
     rewrite ?key_of_with_status, ?IsNotFound_errNotFound)).

Lemma effects_reconcileStatus (found : Deployment) (svc : Service)
    (m old : ModelServe) (c : Cluster) :
  modelserves c !! kk (key_of m) = Some old ->
  effects (run (reconcileStatus found svc m) c)
  = let ns := nextStatus found svc m (clock c) (pods_of m c) in
    ((mkResult false, None),
     (if snd ns then snd (handle (StatusUpdate (with_status m (fst ns))) c)
      else c),
     (if snd ns then [with_status m (fst ns)] else []),
     0%nat).
Proof.
  intros Hm. unfold reconcileStatus, nextStatus, effects.
  destruct (mirrorStatus found svc m) as [st needs].
  unfold mret, mbind, Prog_ret, Prog_bind, trigger.
  destruct (Z.ltb 0 (dep_AvailableReplicas found)).
  - destruct (negb (str_eqb (Phase st) "Running")).
    + run_simpl. fold (pods_of m c).
      destruct (podNameLoop _ _) as [st' needs'].
      destruct needs'; run_simpl; rewrite ?Hm; reflexivity.
    + run_simpl. fold (pods_of m c).
      destruct (podNameLoop _ _) as [st' needs'].
      destruct needs'; run_simpl; rewrite ?Hm; reflexivity.
  - destruct (negb (str_eqb (Phase st) "Downloading")
              && negb (str_eqb (Phase st) "Failed")).
    + run_simpl. rewrite ?Hm. reflexivity.
    + destruct needs; run_simpl; rewrite ?Hm; reflexivity.
Qed.

Lemma dep_key (rt : Runtime) (m : ModelServe) :
  mkKey (dep_Namespace (deploymentForModelServe rt m))
        (dep_Name (deploymentForModelServe rt m)) = key_of m.
Proof. reflexivity. Qed.

Lemma svc_key (m : ModelServe) :
  mkKey (svc_Namespace (serviceForModelServe m))
        (svc_Name (serviceForModelServe m)) = key_of m.
Proof. reflexivity. Qed.

Lemma ing_key (m : ModelServe) :
  mkKey (ing_Namespace (ingressForModelServe m))
        (ing_Name (ingressForModelServe m)) = key_of m.
Proof. reflexivity. Qed.

Lemma effects_reconcileIngress (found : Deployment) (svc : Service)
    (m old : ModelServe) (c : Cluster) :
  modelserves c !! kk (key_of m) = Some old ->
  effects (run (reconcileIngress found svc m) c)
  = match ingresses c !! kk (key_of m) with
    | None =>
        ((mkResult true, None),
         snd (handle (CreateIngress (ingressForModelServe m)) c), [], 1%nat)
    | Some _ => effects (run (reconcileStatus found svc m) c)
    end.
Proof.
  intros Hm. unfold reconcileIngress.
  unfold mret, mbind, Prog_ret, Prog_bind, trigger.
  rewrite ing_key. unfold effects. run_simpl.
  destruct (ingresses c !! kk (key_of m)) as [i |] eqn:Hi; run_simpl.
  - reflexivity.
  - change (ing_Namespace (ingressForModelServe m),
            ing_Name (ingressForModelServe m)) with (kk (key_of m)).
    rewrite Hi. reflexivity.
Qed.

Lemma effects_reconcileService (found : Deployment)
    (m old : ModelServe) (c : Cluster) :
  modelserves c !! kk (key_of m) = Some old ->
  effects (run (reconcileService found m) c)
  = match services c !! kk (key_of m) with
    | None =>
        ((mkResult true, None),
         snd (handle (CreateService (serviceForModelServe m)) c), [], 1%nat)
    | Some _ =>
        effects (run (reconcileIngress found (serviceForModelServe m) m) c)
    end.
Proof.
  intros Hm. unfold reconcileService.
  unfold mret, mbind, Prog_ret, Prog_bind, trigger.
  rewrite svc_key. unfold effects. run_simpl.
  destruct (services c !! kk (key_of m)) as [i |] eqn:Hi; run_simpl.
  - reflexivity.
  - change (svc_Namespace (serviceForModelServe m),
            svc_Name (serviceForModelServe m)) with (kk (key_of m)).
    rewrite Hi. reflexivity.
Qed.

Lemma effects_reconcileDeployment (rt : Runtime)
    (m old : ModelServe) (c : Cluster) :
  modelserves c !! kk (key_of m) = Some old ->
  effects (run (reconcileDeployment rt m) c)
  = match deployments c !! kk (key_of m) with
    | None =>
        let m1 :=
          with_status m
            (set_Message "Downloading model from MinIO"
               (set_Phase "Downloading" (Status m))) in
        ((mkResult true, None),
         snd (handle (CreateDeployment (deploymentForModelServe rt m))
                (snd (handle (StatusUpdate m1) c))),
         [m1], 1%nat)
    | Some found => effects (run (reconcileService found m) c)
    end.
Proof.
  intros Hm. unfold reconcileDeployment.
  unfold mret, mbind, Prog_ret, Prog_bind, trigger.
  rewrite dep_key. unfold effects. run_simpl.
  destruct (deployments c !! kk (key_of m)) as [i |] eqn:Hi; run_simpl.
  - reflexivity.
  - rewrite Hm. cbn [fst snd deployments set_modelserves].
    change (dep_Namespace (deploymentForModelServe rt m),
            dep_Name (deploymentForModelServe rt m)) with (kk (key_of m)).
    rewrite Hi. reflexivity.
Qed.

Lemma effects_createStripPrefix_then (m old : ModelServe) (c : Cluster)
    (k : option APIError -> Prog (Result * option APIError)) :
  effects (run (bind (createStripPrefixMiddleware m) k) c)
  = let cm := stripPrefixConfigMap m in
    match configmaps c !! (cm_Namespace cm, cm_Name cm) with
    | None =>
        prepend_effects [] 1
          (effects (run (k None) (snd (handle (CreateConfigMap cm) c))))
    | Some _ => prepend_effects [] 0 (effects (run (k None) c))
    end.
Proof.
  unfold createStripPrefixMiddleware.
  unfold mret, mbind, Prog_ret, Prog_bind, trigger.
  cbn zeta. unfold effects, prepend_effects. run_simpl.
  change (kk {| key_Namespace := cm_Namespace (stripPrefixConfigMap m);
                key_Name := cm_Name (stripPrefixConfigMap m) |})
    with (cm_Namespace (stripPrefixConfigMap m),
          cm_Name (stripPrefixConfigMap m)).
  destruct (configmaps c !! _) as [i |] eqn:Hi; run_simpl.
  - reflexivity.
  - rewrite Hi. run_simpl. reflexivity.
Qed.

Lemma parent_after_configmap (m : ModelServe) (c : Cluster) (k : string * string) :
  modelserves (snd (handle (CreateConfigMap (stripPrefixConfigMap m)) c)) !! k
  = modelserves c !! k.
Proof.
  cbn [handle]. by destruct (configmaps c !! _).
Qed.

(** From the deployment step on, given that the parent is in the store. *)
Lemma effects_from_deployment (rt : Runtime) (m old : ModelServe) (c : Cluster) :
  modelserves c !! kk (key_of m) = Some old ->
  effects (run (reconcileDeployment rt m) c) = closed_from_deployment rt m c.
Proof.
  intros Hm. rewrite (effects_reconcileDeployment rt m old c Hm).
  unfold closed_from_deployment.
  destruct (deployments c !! kk (key_of m)) as [found |]; [| reflexivity].
  rewrite (effects_reconcileService found m old c Hm).
  destruct (services c !! kk (key_of m)); [| reflexivity].
  rewrite (effects_reconcileIngress found _ m old c Hm).
  destruct (ingresses c !! kk (key_of m)); [| reflexivity].
  apply (effects_reconcileStatus found _ m old c Hm).
Qed.

Lemma effects_Reconcile (rt : Runtime) (req : NamespacedName) (c : Cluster) :
  (forall m, modelserves c !! kk req = Some m -> key_of m = req) ->
  effects (run (Reconcile rt req) c) = reconcile_closed rt req c.
Proof.
  intros Hwf. unfold Reconcile, reconcile_closed, initialised.
  unfold mret, mbind, Prog_ret, Prog_bind, trigger.
  destruct (modelserves c !! kk req) as [m |] eqn:Hm.
  2:{ unfold effects. run_simpl. rewrite Hm. run_simpl. reflexivity. }
  specialize (Hwf m eq_refl). subst req. cbn zeta. cbn [bind].
  change (effects (run (Vis (GetModelServe (key_of m)) ?k) c))
    with (effects (run (k (get_answer (modelserves c !! kk (key_of m)))) c)).
  rewrite Hm. cbn [get_answer].
  destruct (is_empty (Phase (Status m))) eqn:Einit; cbv beta iota; cbn [bind].
  - set (m0 := with_status m _).
    change (effects (run (Vis (StatusUpdate m0) ?k) c))
      with (prepend_effects [m0] 0
              (effects (run (k (fst (handle (StatusUpdate m0) c)))
                          (snd (handle (StatusUpdate m0) c))))).
    assert (H0 : handle (StatusUpdate m0) c
                 = (None, set_modelserves
                            (<[kk (key_of m) := with_status m (Status m0)]>
                               (modelserves c)) c)).
    { cbn [handle]. subst m0. rewrite key_of_with_status, Hm. reflexivity. }
    rewrite !H0. cbn [fst snd bind].
    set (c0 := set_modelserves _ c).
    assert (Hm0 : modelserves c0 !! kk (key_of m0)
                  = Some (with_status m (Status m0))).
    { subst c0 m0. rewrite key_of_with_status.
      cbn [modelserves set_modelserves]. apply lookup_insert_eq. }
    rewrite (effects_createStripPrefix_then m0 m0 c0).
    cbn zeta.
    destruct (configmaps c0 !! _) as [cm |] eqn:Hcm.
    + rewrite (effects_from_deployment rt m0 _ c0 Hm0).
      by destruct (closed_from_deployment rt m0 c0) as [[[? ?] ?] ?].
    + erewrite (effects_from_deployment rt m0 _ _).
      2:{ rewrite parent_after_configmap. exact Hm0. }
      by destruct (closed_from_deployment rt m0 _) as [[[? ?] ?] ?].
  - rewrite (effects_createStripPrefix_then m m c).
    cbn zeta.
    destruct (configmaps c !! _) as [cm |] eqn:Hcm.
    + rewrite (effects_from_deployment rt m _ c Hm).
      by destruct (closed_from_deployment rt m c) as [[[? ?] ?] ?].
    + erewrite (effects_from_deployment rt m _ _).
      2:{ rewrite parent_after_configmap. exact Hm. }
      by destruct (closed_from_deployment rt m _) as [[[? ?] ?] ?].
Qed.

Ltac status_fields :=
  cbn [fst snd with_status Meta Spec Status Phase StartedAt
       AvailableReplicas GatewayURL ServiceName PodName Message
       set_AvailableReplicas set_Phase set_GatewayURL set_ServiceName
       set_PodName set_StartedAt set_Message] in *.

Lemma podNameLoop_fields (items : list Pod) (st : ModelServeStatus) (b : bool) :
  let r := podNameLoop items (st, b) in
  AvailableReplicas (fst r) = AvailableReplicas st
  /\ Phase (fst r) = Phase st
  /\ GatewayURL (fst r) = GatewayURL st
  /\ ServiceName (fst r) = ServiceName st
  /\ StartedAt (fst r) = StartedAt st
  /\ Message (fst r) = Message st
  /\ (snd r = false -> fst r = st /\ b = false).
Proof.
  induction items as [| pod rest IH]; cbn [podNameLoop].
  - cbn. tauto.
  - destruct (str_eqb (pod_Phase pod) "Running"); [| exact IH].
    cbn [fst]. destruct (negb _); cbn; repeat split; try done.
Qed.

Lemma podNameLoop_idem (items : list Pod) (st : ModelServeStatus) (b : bool) :
  podNameLoop items (fst (podNameLoop items (st, b)), false)
  = (fst (podNameLoop items (st, b)), false).
Proof.
  induction items as [| pod rest IH]; cbn [podNameLoop]; [done |].
  destruct (str_eqb (pod_Phase pod) "Running") eqn:Er; [| exact IH].
  cbn [fst].
  destruct (str_eqb (PodName st) (pod_Name pod)) eqn:En; cbn [negb fst].
  - by rewrite En.
  - status_fields. by rewrite str_eqb_refl.
Qed.

Lemma mirrorStatus_fields (found : Deployment) (svc : Service) (m : ModelServe) :
  let r := mirrorStatus found svc m in
  AvailableReplicas (fst r) = dep_AvailableReplicas found
  /\ ServiceName (fst r) = svc_Name svc
  /\ GatewayURL (fst r) = gatewayURL_of m
  /\ Phase (fst r) = Phase (Status m)
  /\ StartedAt (fst r) = StartedAt (Status m)
  /\ PodName (fst r) = PodName (Status m)
  /\ Message (fst r) = Message (Status m)
  /\ (snd r = false -> fst r = Status m).
Proof.
  unfold mirrorStatus, gatewayURL_of.
  destruct (Z.eqb_spec (dep_AvailableReplicas found)
              (AvailableReplicas (Status m))) as [Ha | Ha];
    cbn [negb];
    (destruct (str_eqb _ (svc_Name svc)) eqn:Es;
     [apply str_eqb_true in Es | apply str_eqb_false in Es]);
    cbn [negb];
    (destruct (str_eqb _ ("http://localhost/" ++ Name (Meta m))) eqn:Eg;
     [apply str_eqb_true in Eg | apply str_eqb_false in Eg]);
    cbn [negb]; status_fields; repeat split; try done.
Qed.

Lemma mirrorStatus_fixed (found : Deployment) (svc : Service) (m : ModelServe) :
  AvailableReplicas (Status m) = dep_AvailableReplicas found ->
  ServiceName (Status m) = svc_Name svc ->
  GatewayURL (Status m) = gatewayURL_of m ->
  mirrorStatus found svc m = (Status m, false).
Proof.
  intros Ha Hs Hg. unfold mirrorStatus, gatewayURL_of in *.
  rewrite Ha, Z.eqb_refl. cbn [negb].
  rewrite Hs, str_eqb_refl. cbn [negb].
  by rewrite Hg, str_eqb_refl.
Qed.

Section NextStatus.
Variables (found : Deployment) (svc : Service) (m : ModelServe)
          (now : Z) (items : list Pod).

Let ns := nextStatus found svc m now items.

Lemma nextStatus_fields :
  AvailableReplicas (fst ns) = dep_AvailableReplicas found
  /\ ServiceName (fst ns) = svc_Name svc
  /\ GatewayURL (fst ns) = gatewayURL_of m.
Proof.
  subst ns. unfold nextStatus.
  destruct (mirrorStatus_fields found svc m) as (Ha & Hs & Hg & _).
  destruct (mirrorStatus found svc m) as [st needs]. cbn [fst] in *.
  destruct (Z.ltb 0 (dep_AvailableReplicas found)).
  - destruct (negb (str_eqb (Phase st) "Running")).
    + destruct (podNameLoop_fields items
                  (set_StartedAt (Some now)
                     (set_Message "Model server is running"
                        (set_Phase "Running" st))) true)
        as (H1 & _ & H3 & H4 & _).
      cbn zeta in *. rewrite H1, H3, H4. by status_fields.
    + destruct (podNameLoop_fields items st needs) as (H1 & _ & H3 & H4 & _).
      cbn zeta in *. by rewrite H1, H3, H4.
  - destruct (_ && _); by status_fields.
Qed.

Lemma nextStatus_unchanged : snd ns = false -> fst ns = Status m.
Proof.
  subst ns. unfold nextStatus.
  destruct (mirrorStatus_fields found svc m) as (_ & _ & _ & _ & _ & _ & _ & Hu).
  destruct (mirrorStatus found svc m) as [st needs]. cbn [fst snd] in *.
  destruct (Z.ltb 0 (dep_AvailableReplicas found)).
  - destruct (negb (str_eqb (Phase st) "Running")).
    + intros H. by apply podNameLoop_fields in H as [_ ?].
    + intros H. apply podNameLoop_fields in H as [-> ->]. by apply Hu.
  - destruct (_ && _); cbn [fst snd]; [discriminate | exact Hu].
Qed.

Lemma nextStatus_ready :
  0 < dep_AvailableReplicas found -> Phase (fst ns) = "Running".
Proof.
  intros Hav. subst ns. unfold nextStatus.
  destruct (mirrorStatus found svc m) as [st needs].
  destruct (Z.ltb_spec 0 (dep_AvailableReplicas found)); [| lia].
  destruct (str_eqb (Phase st) "Running") eqn:Er; cbn [negb].
  - apply str_eqb_true in Er.
    destruct (podNameLoop_fields items st needs) as (_ & H2 & _).
    cbn zeta in H2. by rewrite H2.
  - destruct (podNameLoop_fields items
                (set_StartedAt (Some now)
                   (set_Message "Model server is running"
                      (set_Phase "Running" st))) true) as (_ & H2 & _).
    cbn zeta in H2. by rewrite H2.
Qed.

Lemma nextStatus_not_ready :
  dep_AvailableReplicas found <= 0 ->
  (Phase (Status m) = "Downloading" \/ Phase (Status m) = "Failed") /\
    Phase (fst ns) = Phase (Status m)
  \/ Phase (fst ns) = "Pending".
Proof.
  intros Hav. subst ns. unfold nextStatus.
  destruct (mirrorStatus_fields found svc m) as (_ & _ & _ & Hp & _).
  destruct (mirrorStatus found svc m) as [st needs]. cbn [fst] in Hp.
  destruct (Z.ltb_spec 0 (dep_AvailableReplicas found)); [lia |].
  destruct (str_eqb (Phase st) "Downloading") eqn:Ed; cbn [negb andb].
  { apply str_eqb_true in Ed. left. cbn [fst]. split; [left |]; congruence. }
  destruct (str_eqb (Phase st) "Failed") eqn:Ef; cbn [negb].
  { apply str_eqb_true in Ef. left. cbn [fst]. split; [right |]; congruence. }
  right. reflexivity.
Qed.

(** Once the status block has run, running it again on its own result
    writes nothing, unless the phase it left is Pending. *)
Lemma nextStatus_idem (now' : Z) :
  Phase (fst ns) <> "Pending" ->
  nextStatus found svc (with_status m (fst ns)) now' items = (fst ns, false).
Proof.
  intros Hp.
  destruct nextStatus_fields as (Ha & Hs & Hg).
  pose proof nextStatus_ready as Hr. pose proof nextStatus_not_ready as Hn.
  unfold nextStatus at 1.
  rewrite (mirrorStatus_fixed found svc (with_status m (fst ns)))
    by (status_fields; assumption).
  cbn [Status with_status].
  destruct (Z.ltb_spec 0 (dep_AvailableReplicas found)) as [Hav | Hav].
  - rewrite (Hr Hav). cbn [negb]. rewrite str_eqb_refl. cbn [negb].
    subst ns. unfold nextStatus in *.
    destruct (mirrorStatus found svc m) as [st needs].
    destruct (Z.ltb_spec 0 (dep_AvailableReplicas found)); [| lia].
    destruct (negb (str_eqb (Phase st) "Running"));
      apply podNameLoop_idem.
  - destruct (Hn Hav) as [[Hdf Heq] | Hpend]; [| contradiction].
    rewrite Heq.
    destruct Hdf as [-> | ->]; reflexivity.
Qed.

End NextStatus.

Lemma reconcile_closed_found (rt : Runtime) (req : NamespacedName)
    (c : Cluster) (m : ModelServe) :
  modelserves c !! kk req = Some m ->
  reconcile_closed rt req c
  = prepend_effects
      (if is_empty (Phase (Status m)) then [initialised m] else [])
      (match configmaps (after_init m c)
               !! (cm_Namespace (stripPrefixConfigMap (initialised m)),
                   cm_Name (stripPrefixConfigMap (initialised m))) with
       | None => 1%nat
       | Some _ => 0%nat
       end)
      (closed_from_deployment rt (initialised m) (prepared m c)).
Proof.
  intros Hm. unfold reconcile_closed, prepared, after_configmap, after_init.
  rewrite Hm. cbn zeta.
  by destruct (configmaps _ !! _).
Qed.

Lemma key_of_initialised (m : ModelServe) : key_of (initialised m) = key_of m.
Proof. unfold initialised. by destruct (is_empty _). Qed.

Lemma initialised_phase (m : ModelServe) :
  Phase (Status (initialised m)) <> "".
Proof.
  unfold initialised. destruct (is_empty _) eqn:E; [discriminate |].
  by apply is_empty_false in E.
Qed.

Lemma initialised_id (m : ModelServe) :
  Phase (Status m) <> "" -> initialised m = m.
Proof.
  intros H. unfold initialised. apply is_empty_false in H. by rewrite H.
Qed.

Lemma with_status_id (m : ModelServe) : with_status m (Status m) = m.
Proof. by destruct m. Qed.

Lemma handle_CreateConfigMap_missing (cm : ConfigMap) (c : Cluster) :
  configmaps c !! (cm_Namespace cm, cm_Name cm) = None ->
  handle (CreateConfigMap cm) c
  = (None, set_configmaps
             (<[(cm_Namespace cm, cm_Name cm) := cm]> (configmaps c)) c).
Proof. intros H. unfold handle. by rewrite H. Qed.

Lemma handle_StatusUpdate_found (o old : ModelServe) (c : Cluster) :
  modelserves c !! kk (key_of o) = Some old ->
  handle (StatusUpdate o) c
  = (None, set_modelserves
             (<[kk (key_of o) := with_status old (Status o)]> (modelserves c))
             c).
Proof. intros H. unfold handle. by rewrite H. Qed.

(** What [prepared] changes: the parent's status, when it was unset, and
    the ConfigMap. *)
Lemma prepared_frame (m : ModelServe) (c : Cluster) :
  modelserves c !! kk (key_of m) = Some m ->
  modelserves (prepared m c) = <[kk (key_of m) := initialised m]> (modelserves c)
  /\ deployments (prepared m c) = deployments c
  /\ services (prepared m c) = services c
  /\ ingresses (prepared m c) = ingresses c
  /\ pods (prepared m c) = pods c
  /\ clock (prepared m c) = clock c
  /\ is_Some (configmaps (prepared m c)
              !! (cm_Namespace (stripPrefixConfigMap (initialised m)),
                  cm_Name (stripPrefixConfigMap (initialised m)))).
Proof.
  intros Hm. unfold prepared, after_configmap, after_init, initialised.
  destruct (is_empty (Phase (Status m))) eqn:Ei.
  - rewrite (handle_StatusUpdate_found _ m)
      by (by rewrite key_of_with_status).
    rewrite key_of_with_status. cbn [snd].
    set (c0 := set_modelserves _ c).
    destruct (configmaps c0 !! _) as [cm |] eqn:Hc.
    + repeat split; try reflexivity. by eexists.
    + rewrite (handle_CreateConfigMap_missing _ _ Hc). cbn [snd].
      repeat split; try reflexivity.
      cbn [configmaps set_configmaps]. rewrite lookup_insert_eq. by eexists.
  - assert (Hid : modelserves c = <[kk (key_of m) := m]> (modelserves c)).
    { symmetry. by apply insert_id. }
    destruct (configmaps c !! _) as [cm |] eqn:Hc.
    + repeat split; try reflexivity; try exact Hid. by eexists.
    + rewrite (handle_CreateConfigMap_missing _ _ Hc). cbn [snd].
      repeat split; try reflexivity; try exact Hid.
      cbn [configmaps set_configmaps]. rewrite lookup_insert_eq. by eexists.
Qed.

Lemma pods_of_frame (m m' : ModelServe) (c c' : Cluster) :
  Meta m' = Meta m -> pods c' = pods c -> pods_of m' c' = pods_of m c.
Proof. intros Hm Hp. unfold pods_of, list_pods. by rewrite Hm, Hp. Qed.

Lemma initialised_meta (m : ModelServe) : Meta (initialised m) = Meta m.
Proof. unfold initialised. by destruct (is_empty _). Qed.

Lemma serviceFor_meta (m m' : ModelServe) :
  Meta m' = Meta m -> serviceForModelServe m' = serviceForModelServe m.
Proof. intros H. unfold serviceForModelServe. by rewrite H. Qed.

Lemma effects_result {A : Type} (o : Outcome A) :
  result o = fst (fst (fst (effects o))).
Proof. reflexivity. Qed.

Lemma effects_after {A : Type} (o : Outcome A) :
  after o = snd (fst (fst (effects o))).
Proof. reflexivity. Qed.

Lemma effects_writes {A : Type} (o : Outcome A) :
  status_writes (calls o) = snd (fst (effects o)).
Proof. reflexivity. Qed.

Lemma effects_creations {A : Type} (o : Outcome A) :
  creations (calls o) = snd (effects o).
Proof. reflexivity. Qed.

Section Complete.
Variables (rt : Runtime) (req : NamespacedName) (c : Cluster)
          (m : ModelServe) (found : Deployment) (svc : Service)
          (ing : Ingress).
Hypothesis Hm : modelserves c !! kk req = Some m.
Hypothesis Hkey : key_of m = req.
Hypothesis Hd : deployments c !! kk req = Some found.
Hypothesis Hs : services c !! kk req = Some svc.
Hypothesis Hi : ingresses c !! kk req = Some ing.

Let m0 := initialised m.
Let ns := nextStatus found (serviceForModelServe m) m0 (clock c) (pods_of m c).

(** With the parent and its three children in the store, a reconcile
    ends in the status block. *)
Lemma reconcile_closed_complete :
  reconcile_closed rt req c
  = prepend_effects
      (if is_empty (Phase (Status m)) then [m0] else [])
      (match configmaps (after_init m c)
               !! (cm_Namespace (stripPrefixConfigMap m0),
                   cm_Name (stripPrefixConfigMap m0)) with
       | None => 1%nat
       | Some _ => 0%nat
       end)
      ((mkResult false, None),
       (if snd ns
        then snd (handle (StatusUpdate (with_status m0 (fst ns)))
                    (prepared m c))
        else prepared m c),
       (if snd ns then [with_status m0 (fst ns)] else []), 0%nat).
Proof.
  rewrite (reconcile_closed_found rt req c m Hm). fold m0. f_equal.
  subst req. 
  destruct (prepared_frame m c Hm) as (Hpm & Hpd & Hps & Hpi & Hpp & Hpc & _).
  unfold closed_from_deployment.
  rewrite Hpd, Hps, Hpi. subst m0. rewrite key_of_initialised, Hd, Hs, Hi.
  cbn zeta. rewrite Hpc.
  rewrite (pods_of_frame m (initialised m) c (prepared m c))
    by (apply initialised_meta || assumption).
  rewrite (serviceFor_meta m (initialised m)) by apply initialised_meta.
  reflexivity.
Qed.

(** ... and leaves the status the block computes in the store. *)
Lemma reconcile_complete_status :
  result (run (Reconcile rt req) c) = (mkResult false, None)
  /\ modelserves (after (run (Reconcile rt req) c))
     = <[kk req := with_status m (fst ns)]> (modelserves c)
  /\ deployments (after (run (Reconcile rt req) c)) = deployments c
  /\ services (after (run (Reconcile rt req) c)) = services c
  /\ ingresses (after (run (Reconcile rt req) c)) = ingresses c
  /\ pods (after (run (Reconcile rt req) c)) = pods c
  /\ clock (after (run (Reconcile rt req) c)) = clock c
  /\ is_Some (configmaps (after (run (Reconcile rt req) c))
              !! (cm_Namespace (stripPrefixConfigMap m),
                  cm_Name (stripPrefixConfigMap m)))
  /\ phases_written (calls (run (Reconcile rt req) c))
     = ((if is_empty (Phase (Status m)) then ["Pending"] else [])
        ++ (if snd ns then [Phase (fst ns)] else []))%list.
Proof.
  assert (He : effects (run (Reconcile rt req) c) = reconcile_closed rt req c).
  { apply effects_Reconcile. intros m' Hm'. congruence. }
  rewrite reconcile_closed_complete in He.
  unfold phases_written.
  rewrite effects_result, effects_after, effects_writes, He.
  unfold prepend_effects. cbn [fst snd]. clear He.
  subst req.
  destruct (prepared_frame m c Hm) as (Hpm & Hpd & Hps & Hpi & Hpp & Hpc & Hcm).
  assert (Hw : forall st, with_status m0 st = with_status m st).
  { intros st. subst m0. unfold initialised. by destruct (is_empty _). }
  assert (Hcmk : stripPrefixConfigMap (initialised m)
                 = stripPrefixConfigMap m).
  { unfold stripPrefixConfigMap. by rewrite !initialised_meta. }
  rewrite Hcmk in Hcm.
  split; [reflexivity |].
  assert (Hk0 : kk (key_of m0) = kk (key_of m)).
  { unfold m0. by rewrite key_of_initialised. }
  assert (Hph : (fun o => Phase (Status o))
                  <$> (if is_empty (Phase (Status m)) then [m0] else [])
                = if is_empty (Phase (Status m)) then ["Pending"] else []).
  { unfold m0, initialised. destruct (is_empty _); reflexivity. }
  destruct (snd ns) eqn:Hn.
  - rewrite (handle_StatusUpdate_found _ m0).
    2:{ rewrite key_of_with_status, Hk0, Hpm. apply lookup_insert_eq. }
    rewrite key_of_with_status, Hk0, Hpm. cbn [snd].
    cbn [modelserves deployments services ingresses pods clock configmaps
         set_modelserves].
    rewrite insert_insert_eq. cbn [Status with_status]. rewrite Hw.
    repeat split; try assumption.
    by rewrite fmap_app, Hph.
  - apply nextStatus_unchanged in Hn. fold ns in Hn.
    rewrite Hpm. rewrite Hn.
    assert (with_status m (Status m0) = m0) as ->.
    { unfold m0, initialised. destruct (is_empty _);
        [reflexivity | apply with_status_id]. }
    repeat split; try assumption.
    by rewrite fmap_app, Hph.
Qed.

End Complete.

Lemma nextStatus_phase_set (found : Deployment) (svc : Service)
    (m : ModelServe) (now : Z) (items : list Pod) :
  Phase (Status m) <> "" ->
  Phase (fst (nextStatus found svc m now items)) <> "".
Proof.
  intros Hp.
  destruct (Z.ltb_spec 0 (dep_AvailableReplicas found)) as [Hav | Hav].
  - by rewrite (nextStatus_ready found svc m now items Hav).
  - destruct (nextStatus_not_ready found svc m now items Hav)
      as [[_ ->] | ->]; [assumption | discriminate].
Qed.

Lemma prepared_id (m : ModelServe) (c : Cluster) :
  Phase (Status m) <> "" ->
  is_Some (configmaps c !! (cm_Namespace (stripPrefixConfigMap m),
                            cm_Name (stripPrefixConfigMap m))) ->
  prepared m c = c.
Proof.
  intros Hp [cm Hc]. unfold prepared, after_init, after_configmap.
  rewrite (initialised_id m Hp).
  apply is_empty_false in Hp. rewrite Hp. by rewrite Hc.
Qed.

Lemma nextStatus_in_progress (found : Deployment) (svc : Service)
    (m : ModelServe) (now : Z) (items : list Pod) :
  dep_AvailableReplicas found <= 0 ->
  Phase (Status m) = "Downloading" ->
  Phase (fst (nextStatus found svc m now items)) = "Downloading".
Proof.
  intros Hav Hp. unfold nextStatus.
  destruct (mirrorStatus_fields found svc m) as (_ & _ & _ & Hph & _).
  destruct (mirrorStatus found svc m) as [st needs]. cbn [fst] in Hph.
  destruct (Z.ltb_spec 0 (dep_AvailableReplicas found)); [lia |].
  destruct (str_eqb (Phase st) "Downloading") eqn:E; cbn [negb andb fst].
  - congruence.
  - apply str_eqb_false in E. congruence.
Qed.

Lemma env_frame (req : NamespacedName) (t av : Z) (c : Cluster) :
  let cE := at_time t (report_available req av c) in
  modelserves cE = modelserves c
  /\ services cE = services c
  /\ ingresses cE = ingresses c
  /\ deployments cE !! kk req = with_available av <$> deployments c !! kk req.
Proof.
  cbn zeta. unfold report_available.
  destruct (deployments c !! kk req) as [d |] eqn:Hd.
  - repeat split; try reflexivity.
    cbn [at_time deployments set_deployments]. apply lookup_insert_eq.
  - repeat split; try reflexivity. by cbn [at_time deployments fmap].
Qed.

Lemma phase_history_cons (rt : Runtime) (req : NamespacedName) (t av : Z)
    (steps : list (Z * Z)) (c : Cluster) :
  phase_history rt req ((t, av) :: steps) c
  = (phases_written
       (calls (run (Reconcile rt req) (at_time t (report_available req av c))))
     ++ phase_history rt req steps
          (after (run (Reconcile rt req)
                    (at_time t (report_available req av c)))))%list.
Proof. reflexivity. Qed.

Section Steps.
Variables (rt : Runtime) (req : NamespacedName).

Lemma step_fresh (t av : Z) (c : Cluster) (m : ModelServe) :
  modelserves c !! kk req = Some m -> key_of m = req ->
  Phase (Status m) = "" -> deployments c !! kk req = None ->
  let o := run (Reconcile rt req) (at_time t (report_available req av c)) in
  phases_written (calls o) = ["Pending"; "Downloading"]
  /\ downloading_state req (after o).
Proof.
  intros Hm Hkey Hp Hd. cbn zeta.
  set (cE := at_time t (report_available req av c)).
  destruct (env_frame req t av c) as (Ems & Ess & Eis & Eds).
  fold cE in Ems, Ess, Eis, Eds. rewrite Hd in Eds. cbn [fmap option_fmap option_map] in Eds.
  assert (HmE : modelserves cE !! kk req = Some m) by (by rewrite Ems).
  unfold phases_written.
  rewrite effects_writes, effects_after.
  rewrite (effects_Reconcile rt req cE) by (intros ? ?; congruence).
  rewrite (reconcile_closed_found rt req cE m HmE).
  destruct (prepared_frame m cE) as (Hpm & Hpd & Hps & Hpi & Hpp & Hpc & Hcm);
    [by rewrite Hkey |].
  unfold prepend_effects, closed_from_deployment.
  rewrite Hpd, key_of_initialised, Hkey, Eds. cbn [fst snd].
  apply is_empty_true in Hp as Hp'. rewrite Hp'.
  assert (Hi : initialised m
               = with_status m
                   (set_Message "Initializing model server"
                      (set_Phase "Pending" (Status m)))).
  { unfold initialised. by rewrite Hp'. }
  split; [by rewrite Hi |].
  set (m0 := initialised m) in *.
  set (m1 := with_status m0 _).
  rewrite (handle_StatusUpdate_found m1 m0).
  2:{ unfold m1. rewrite key_of_with_status. unfold m0.
      rewrite key_of_initialised, Hkey, Hpm, Hkey. apply lookup_insert_eq. }
  cbn [snd].
  set (c2 := set_modelserves _ _).
  assert (Hd2 : deployments c2 !! kk req = None).
  { unfold c2. cbn [deployments set_modelserves]. by rewrite Hpd. }
  assert (Hk : (dep_Namespace (deploymentForModelServe rt m0),
                dep_Name (deploymentForModelServe rt m0)) = kk req).
  { change (kk (key_of m0) = kk req). unfold m0.
    by rewrite key_of_initialised, Hkey. }
  unfold handle. rewrite Hk, Hd2. cbn [snd].
  exists (with_status m0 (Status m1)), (deploymentForModelServe rt m0).
  repeat split.
  - cbn [modelserves set_deployments]. unfold c2.
    cbn [modelserves set_modelserves]. unfold m1.
    rewrite key_of_with_status. unfold m0.
    rewrite key_of_initialised, Hkey. apply lookup_insert_eq.
  - unfold m0. change (key_of (initialised m) = req).
    by rewrite key_of_initialised.
  - cbn [deployments set_deployments]. apply lookup_insert_eq.
Qed.

Lemma step_running (t av : Z) (c : Cluster) :
  running_state req c -> 0 < av ->
  let o := run (Reconcile rt req) (at_time t (report_available req av c)) in
  (phases_written (calls o) = [] \/ phases_written (calls o) = ["Running"])
  /\ running_state req (after o).
Proof.
  intros (m & found & svc & ing & Hm & Hkey & Hp & Hd & Hs & Hi) Hav.
  cbn zeta. set (cE := at_time t (report_available req av c)).
  destruct (env_frame req t av c) as (Ems & Ess & Eis & Eds).
  fold cE in Ems, Ess, Eis, Eds. rewrite Hd in Eds.
  cbn [fmap option_fmap option_map] in Eds.
  destruct (reconcile_complete_status rt req cE m (with_available av found)
              svc ing)
    as (_ & Hms & Hds & Hss & His & _ & _ & _ & Hph);
    try (rewrite ?Ems, ?Ess, ?Eis; assumption).
  set (ns := nextStatus _ _ _ _ _) in *.
  assert (Hr : Phase (fst ns) = "Running").
  { by apply nextStatus_ready. }
  assert (He : is_empty (Phase (Status m)) = false).
  { apply is_empty_false. by rewrite Hp. }
  rewrite He, Hr in Hph. cbn [app] in Hph.
  split.
  - rewrite Hph. destruct (snd ns); [by right | by left].
  - exists (with_status m (fst ns)), (with_available av found), svc, ing.
    rewrite Hms, Hds, Hss, His, Ess, Eis.
    repeat split;
      first [apply lookup_insert_eq | exact Hkey | exact Hr | assumption].
Qed.

Lemma step_downloading (t av : Z) (c : Cluster) :
  downloading_state req c ->
  let o := run (Reconcile rt req) (at_time t (report_available req av c)) in
  (children_missing req c <> 0%nat
   /\ phases_written (calls o) = []
   /\ downloading_state req (after o)
   /\ children_missing req (after o) = Nat.pred (children_missing req c))
  \/ (children_missing req c = 0%nat /\ av <= 0
      /\ (phases_written (calls o) = []
          \/ phases_written (calls o) = ["Downloading"])
      /\ downloading_state req (after o)
      /\ children_missing req (after o) = 0%nat)
  \/ (children_missing req c = 0%nat /\ 0 < av
      /\ phases_written (calls o) = ["Running"]
      /\ running_state req (after o)).
Proof.
  intros (m & found & Hm & Hkey & Hp & Hd).
  cbn zeta. set (cE := at_time t (report_available req av c)).
  destruct (env_frame req t av c) as (Ems & Ess & Eis & Eds).
  fold cE in Ems, Ess, Eis, Eds. rewrite Hd in Eds.
  cbn [fmap option_fmap option_map] in Eds.
  assert (HmE : modelserves cE !! kk req = Some m) by (by rewrite Ems).
  assert (Hne : Phase (Status m) <> "") by (by rewrite Hp).
  assert (He : is_empty (Phase (Status m)) = false) by (by apply is_empty_false).
  unfold children_missing. rewrite <- Ess, <- Eis.
  destruct (services cE !! kk req) as [svc |] eqn:Hs.
  1: destruct (ingresses cE !! kk req) as [ing |] eqn:Hi.
  - (* the status block *)
    right.
    destruct (reconcile_complete_status rt req cE m (with_available av found)
                svc ing)
      as (_ & Hms & Hds & Hss & His & _ & _ & _ & Hph);
      try (rewrite ?Ems; assumption).
    set (ns := nextStatus _ _ _ _ _) in *.
    rewrite He in Hph. cbn [app] in Hph.
    destruct (Z.ltb_spec 0 av) as [Hav | Hav].
    + right. split; [reflexivity |]. split; [assumption |].
      assert (Hr : Phase (fst ns) = "Running") by (by apply nextStatus_ready).
      assert (Hn : snd ns = true).
      { destruct (snd ns) eqn:Hn; [reflexivity |].
        apply nextStatus_unchanged in Hn. fold ns in Hn.
        rewrite Hn, initialised_id in Hr by assumption. congruence. }
      rewrite Hn, Hr in Hph. split; [assumption |].
      exists (with_status m (fst ns)), (with_available av found), svc, ing.
      rewrite Hms, Hds, Hss, His.
      repeat split;
        first [apply lookup_insert_eq | exact Hkey | exact Hr | assumption].
    + left. split; [reflexivity |]. split; [assumption |].
      assert (Hr : Phase (fst ns) = "Downloading").
      { apply nextStatus_in_progress; [assumption |].
        by rewrite initialised_id. }
      rewrite Hr in Hph. split; [| split].
      * rewrite Hph. destruct (snd ns); [by right | by left].
      * exists (with_status m (fst ns)), (with_available av found).
        rewrite Hms, Hds.
        repeat split;
          first [apply lookup_insert_eq | exact Hkey | exact Hr
                | assumption].
      * by rewrite Hss, His, Hs, Hi.
  - (* the route is created *)
    left. split; [discriminate |].
    unfold phases_written. rewrite effects_writes, effects_after.
    rewrite (effects_Reconcile rt req cE) by (intros ? ?; congruence).
    rewrite (reconcile_closed_found rt req cE m HmE).
    destruct (prepared_frame m cE) as (Hpm & Hpd & Hps & Hpi & _);
      [by rewrite Hkey |].
    unfold prepend_effects, closed_from_deployment.
    rewrite Hpd, Hps, Hpi, key_of_initialised, Hkey, Eds, Hs, Hi, He.
    cbn [fst snd app fmap list_fmap]. split; [reflexivity |].
    assert (Hk : (ing_Namespace (ingressForModelServe (initialised m)),
                  ing_Name (ingressForModelServe (initialised m))) = kk req).
    { change (kk (key_of (initialised m)) = kk req).
      by rewrite key_of_initialised, Hkey. }
    unfold handle. rewrite Hk, Hpi, Hi. cbn [snd].
    split.
    + exists m, (with_available av found).
      cbn [modelserves deployments set_ingresses].
      rewrite Hpm, Hpd, Hkey, initialised_id by assumption.
      repeat split; first [apply lookup_insert_eq | assumption].
    + cbn [services ingresses set_ingresses].
      by rewrite Hps, Hs, lookup_insert_eq.
  - (* the network endpoint is created *)
    left. split; [by destruct (ingresses cE !! kk req) |].
    unfold phases_written. rewrite effects_writes, effects_after.
    rewrite (effects_Reconcile rt req cE) by (intros ? ?; congruence).
    rewrite (reconcile_closed_found rt req cE m HmE).
    destruct (prepared_frame m cE) as (Hpm & Hpd & Hps & Hpi & _);
      [by rewrite Hkey |].
    unfold prepend_effects, closed_from_deployment.
    rewrite Hpd, Hps, key_of_initialised, Hkey, Eds, Hs, He.
    cbn [fst snd app fmap list_fmap]. split; [reflexivity |].
    assert (Hk : (svc_Namespace (serviceForModelServe (initialised m)),
                  svc_Name (serviceForModelServe (initialised m))) = kk req).
    { change (kk (key_of (initialised m)) = kk req).
      by rewrite key_of_initialised, Hkey. }
    unfold handle. rewrite Hk, Hps, Hs. cbn [snd].
    split.
    + exists m, (with_available av found).
      cbn [modelserves deployments set_services].
      rewrite Hpm, Hpd, Hkey, initialised_id by assumption.
      repeat split; first [apply lookup_insert_eq | assumption].
    + cbn [services ingresses set_services].
      by rewrite Hpi, lookup_insert_eq.
Qed.

Lemma history_running (steps : list (Z * Z)) (c : Cluster) :
  running_state req c -> Forall (fun s => 0 < snd s) steps ->
  exists j, phase_history rt req steps c = repeat "Running" j.
Proof.
  revert c. induction steps as [| [t av] steps IH]; intros c Hc Hall.
  - by exists 0%nat.
  - apply Forall_cons in Hall as [Hav Hall]. cbn [snd] in Hav.
    rewrite phase_history_cons.
    destruct (step_running t av c Hc Hav) as [Hw Hc'].
    destruct (IH _ Hc' Hall) as [j Hj]. rewrite Hj.
    destruct Hw as [-> | ->]; [by exists j | by exists (S j)].
Qed.

Lemma history_downloading (steps : list (Z * Z)) (c : Cluster) :
  downloading_state req c -> stays_ready steps ->
  exists i j, phase_history rt req steps c
              = (repeat "Downloading" i ++ repeat "Running" j)%list.
Proof.
  revert c. induction steps as [| [t av] steps IH]; intros c Hc Hst.
  - by exists 0%nat, 0%nat.
  - destruct Hst as [Hready Hst]. rewrite phase_history_cons.
    destruct (step_downloading t av c Hc)
      as [(_ & Hw & Hc' & _) | [(_ & _ & Hw & Hc' & _) | (_ & Hav & Hw & Hc')]].
    + destruct (IH _ Hc' Hst) as (i & j & Hij). rewrite Hw, Hij.
      by exists i, j.
    + destruct (IH _ Hc' Hst) as (i & j & Hij). rewrite Hij.
      destruct Hw as [-> | ->]; [by exists i, j | by exists (S i), j].
    + destruct (history_running steps _ Hc' (Hready Hav)) as [j Hj].
      rewrite Hw, Hj. by exists 0%nat, (S j).
Qed.

(** Running is reached: once the missing children are created, the first
    run that sees an available replica writes it. *)
Lemma running_reached (steps : list (Z * Z)) (c : Cluster) :
  downloading_state req c ->
  Exists (fun s => 0 < snd s) (drop (children_missing req c) steps) ->
  "Running" ∈ phase_history rt req steps c.
Proof.
  revert c. induction steps as [| [t av] steps IH]; intros c Hc Hex.
  - rewrite drop_nil in Hex. by apply Exists_nil in Hex.
  - rewrite phase_history_cons. apply elem_of_app.
    destruct (step_downloading t av c Hc)
      as [(Hk & _ & Hc' & Hk') | [(Hk & Hav & _ & Hc' & Hk') | (_ & _ & Hw & _)]].
    + right. apply (IH _ Hc'). rewrite Hk'.
      destruct (children_missing req c) as [| k]; [contradiction |].
      exact Hex.
    + right. apply (IH _ Hc'). rewrite Hk'. rewrite Hk in Hex.
      cbn [drop] in *. apply Exists_cons in Hex as [Hh | Ht]; [| exact Ht].
      cbn [snd] in Hh. lia.
    + left. rewrite Hw. apply list_elem_of_here.
Qed.

Lemma Exists_drop_le {A : Type} (P : A -> Prop) (k n : nat) (l : list A) :
  (k <= n)%nat -> Exists P (drop n l) -> Exists P (drop k l).
Proof.
  intros Hle Hex. apply Exists_exists in Hex as (x & Hx & HP).
  apply Exists_exists. exists x. split; [| exact HP].
  apply list_elem_of_lookup in Hx as [i Hi].
  rewrite lookup_drop in Hi. apply list_elem_of_lookup.
  exists (n - k + i)%nat. rewrite lookup_drop.
  replace (k + (n - k + i))%nat with (n + i)%nat by lia. exact Hi.
Qed.

Lemma children_missing_le_2 (c : Cluster) : (children_missing req c <= 2)%nat.
Proof.
  unfold children_missing.
  destruct (services c !! kk req), (ingresses c !! kk req); cbn; lia.
Qed.

(** A fresh object, reconciled while the workload comes up: the phases
    written are Pending, then Downloading, then Running; and Running is
    among them when a run from the fourth on sees the workload ready. *)
Lemma fresh_phase_history (t av : Z) (steps : list (Z * Z)) (c : Cluster)
    (m : ModelServe) :
  modelserves c !! kk req = Some m -> key_of m = req ->
  Phase (Status m) = "" -> deployments c !! kk req = None ->
  stays_ready steps ->
  exists i j,
    phase_history rt req ((t, av) :: steps) c
    = ("Pending" :: "Downloading"
         :: repeat "Downloading" i ++ repeat "Running" j)%list
    /\ (Exists (fun s => 0 < snd s) (drop 2 steps) -> (1 <= j)%nat).
Proof.
  intros Hm Hkey Hp Hd Hst. rewrite phase_history_cons.
  destruct (step_fresh t av c m Hm Hkey Hp Hd) as [Hw Hc'].
  destruct (history_downloading steps _ Hc' Hst) as (i & j & Hij).
  exists i, j. split; [by rewrite Hw, Hij |].
  intros Hex.
  set (c1 := after (run (Reconcile rt req)
                      (at_time t (report_available req av c)))) in *.
  apply (Exists_drop_le _ (children_missing req c1) 2 steps
           (children_missing_le_2 c1)) in Hex.
  apply (running_reached steps c1 Hc') in Hex.
  rewrite Hij in Hex. apply elem_of_app in Hex as [Hin | Hin].
  - apply list_elem_of_In, repeat_spec in Hin. discriminate.
  - destruct j; [by apply elem_of_nil in Hin | lia].
Qed.

End Steps.

(* ===================================================================== *)
(** * Idempotence, phase order and the gateway URL *)
(* ===================================================================== *)

Section Idempotence.

Variables (rt : Runtime) (req : NamespacedName) (c : Cluster).

(** The object stored under a key carries that key as its name. *)
Hypothesis Hwf :
  forall m, modelserves c !! kk req = Some m -> key_of m = req.

Let c' := after (run (Reconcile rt req) c).

(** C3, as the code has it: after a reconcile that returned without
    error and without requeue (every child was found), a second one with
    no change in between creates nothing; and it writes no status and
    leaves the store as it is, provided the phase the first one left is
    not Pending. *)
Theorem settled_reconcile_is_quiet :
  result (run (Reconcile rt req) c) = (mkResult false, None) ->
  creations (calls (run (Reconcile rt req) c')) = 0%nat
  /\ ((forall st, stored_status req c' = Some st -> Phase st <> "Pending") ->
      status_writes (calls (run (Reconcile rt req) c')) = []
      /\ after (run (Reconcile rt req) c') = c').
Proof.
  intros Hres.
  pose proof (effects_Reconcile rt req c Hwf) as He.
  destruct (modelserves c !! kk req) as [m |] eqn:Hm.
  2:{ assert (Hc : c' = c).
      { unfold c'. rewrite effects_after, He. unfold reconcile_closed.
        by rewrite Hm. }
      rewrite Hc.
      rewrite effects_creations, effects_writes, effects_after, He.
      unfold reconcile_closed. by rewrite Hm. }
  pose proof (Hwf m eq_refl) as Hkey.
  (* the first run ended in the status block: the children exist *)
  destruct (prepared_frame m c) as (Hpm & Hpd & Hps & Hpi & Hpp & Hpc & Hcm);
    [by rewrite Hkey |].
  assert (Hch : exists found svc ing,
             deployments c !! kk req = Some found
             /\ services c !! kk req = Some svc
             /\ ingresses c !! kk req = Some ing).
  { rewrite effects_result, He in Hres.
    rewrite (reconcile_closed_found rt req c m Hm) in Hres.
    unfold prepend_effects, closed_from_deployment in Hres.
    cbn [fst snd] in Hres.
    rewrite Hpd, Hps, Hpi, key_of_initialised, Hkey in Hres.
    destruct (deployments c !! kk req) as [found |]; [| discriminate].
    destruct (services c !! kk req) as [svc |]; [| discriminate].
    destruct (ingresses c !! kk req) as [ing |]; [| discriminate].
    by exists found, svc, ing. }
  destruct Hch as (found & svc & ing & Hd & Hs & Hi).
  destruct (reconcile_complete_status rt req c m found svc ing
              Hm Hkey Hd Hs Hi)
    as (_ & Hms & Hds & Hss & His & Hps' & Hcl & Hcms & _).
  fold c' in Hms, Hds, Hss, His, Hps', Hcl, Hcms.
  set (m0 := initialised m) in *.
  set (ns := nextStatus found (serviceForModelServe m) m0 (clock c)
               (pods_of m c)) in *.
  set (m' := with_status m (fst ns)) in *.
  assert (Hm' : modelserves c' !! kk req = Some m').
  { rewrite Hms. apply lookup_insert_eq. }
  assert (Hkey' : key_of m' = req) by exact Hkey.
  assert (Hne : Phase (Status m') <> "").
  { apply nextStatus_phase_set. apply initialised_phase. }
  assert (Hprep : prepared m' c' = c').
  { apply prepared_id; assumption. }
  rewrite effects_creations, effects_writes, effects_after.
  rewrite (effects_Reconcile rt req c') by (intros ? ?; congruence).
  rewrite (reconcile_closed_complete rt req c' m' found svc ing);
    try congruence.
  unfold after_init.
  apply is_empty_false in Hne as Hne'. rewrite Hne'.
  rewrite (initialised_id m' Hne).
  destruct Hcms as [cm Hcm'].
  change (stripPrefixConfigMap m') with (stripPrefixConfigMap m).
  rewrite Hcm'. unfold prepend_effects. cbn [fst snd app].
  split; [reflexivity |].
  intros Hph.
  assert (Hnp : Phase (fst ns) <> "Pending").
  { apply Hph. unfold stored_status. by rewrite Hm'. }
  assert (Hns' : nextStatus found (serviceForModelServe m') m'
                   (clock c') (pods_of m' c') = (fst ns, false)).
  { rewrite Hcl.
    rewrite (pods_of_frame m m' c c') by done.
    change (serviceForModelServe m') with (serviceForModelServe m).
    assert (m' = with_status m0 (fst ns)) as ->.
    { unfold m', m0, initialised.
      by destruct (is_empty (Phase (Status m))). }
    by apply nextStatus_idem. }
  rewrite Hns'. cbn [fst snd]. by rewrite Hprep.
Qed.

End Idempotence.

Section Readiness.

Variables (rt : Runtime) (req : NamespacedName) (c : Cluster)
          (m : ModelServe) (found : Deployment) (svc : Service)
          (ing : Ingress).

(** C8, as the code has it: a reconcile that finds the three children
    leaves [gatewayURL] = "http://localhost/" followed by the parent's
    name, without a trailing slash, in the stored status, whether or not
    the workload is ready; when the workload reports an available replica
    the same run leaves the phase Running. *)
Theorem gatewayURL_recorded :
  modelserves c !! kk req = Some m -> key_of m = req ->
  deployments c !! kk req = Some found ->
  services c !! kk req = Some svc ->
  ingresses c !! kk req = Some ing ->
  GatewayURL <$> stored_status req (after (run (Reconcile rt req) c))
  = Some ("http://localhost/" ++ Name (Meta m))
  /\ (0 < dep_AvailableReplicas found ->
      Phase <$> stored_status req (after (run (Reconcile rt req) c))
      = Some "Running").
Proof.
  intros Hm Hkey Hd Hs Hi.
  destruct (reconcile_complete_status rt req c m found svc ing
              Hm Hkey Hd Hs Hi) as (_ & Hms & _).
  unfold stored_status. rewrite Hms, lookup_insert_eq.
  cbn [fmap option_fmap option_map Status with_status].
  destruct (nextStatus_fields found (serviceForModelServe m)
              (initialised m) (clock c) (pods_of m c)) as (_ & _ & Hg).
  split.
  - rewrite Hg. unfold gatewayURL_of. by rewrite initialised_meta.
  - intros Hav. f_equal. by apply nextStatus_ready.
Qed.

End Readiness.

Section PhaseOrder.

Variables (rt : Runtime) (req : NamespacedName).

(** C6: a fresh object (phase unset, no workload yet), reconciled
    repeatedly while the workload comes up and stays up, has the phases
    Pending, Downloading, Running written in this order; and whatever the
    store answers, an invocation that fetched phase Running writes
    Pending only after seeing a Deployment without available
    replicas. *)
Theorem phase_order (t av : Z) (steps : list (Z * Z)) (c : Cluster)
    (m : ModelServe) :
  modelserves c !! kk req = Some m -> key_of m = req ->
  Phase (Status m) = "" -> deployments c !! kk req = None ->
  stays_ready steps ->
  (exists i j,
      phase_history rt req ((t, av) :: steps) c
      = ("Pending" :: "Downloading"
           :: repeat "Downloading" i ++ repeat "Running" j)%list
      /\ (Exists (fun s => 0 < snd s) (drop 2 steps) -> (1 <= j)%nat))
  /\ (forall tr res m' o,
        runs (Reconcile rt req) tr res ->
        m' ∈ omap fetched tr -> Phase (Status m') = "Running" ->
        o ∈ status_writes tr -> Phase (Status o) = "Pending" ->
        exists d, d ∈ omap observed_deployment tr
                  /\ dep_AvailableReplicas d <= 0).
Proof.
  intros Hm Hkey Hp Hd Hst. split.
  - by apply (fresh_phase_history rt req t av steps c m).
  - intros tr res m' o Hruns Hm' Hr Ho Hpend.
    destruct (Reconcile_written rt req tr res m' o Hruns Hm' Ho)
      as (_ & _ & _ & _ & H5).
    by apply H5.
Qed.

End PhaseOrder.

(* ===================================================================== *)
(** * The end-to-end scenario, run *)
(* ===================================================================== *)

(** The request of the scenario is accepted after defaulting, with the
    spec filled in. *)
Example demo_accepted :
  ValidateCreate rt_unset (Default demo) = None
  /\ Replicas (Spec (Default demo)) = Some 1
  /\ MemoryLimit (Spec (Default demo)) = 4096
  /\ CPULimit (Spec (Default demo)) = 2000.
Proof. split; [| split; [| split]]; reflexivity. Qed.

(** Five reconciles of the fresh request, the workload ready from the
    fifth on: the first creates the workload, the next two the network
    endpoint and the route, the fourth mirrors the status, the fifth finds
    the workload ready. *)
Example demo_history :
  phase_history rt_unset demo_key
    [(10, 0); (20, 0); (30, 0); (40, 0); (50, 1); (60, 1)] (cluster_of demo)
  = ["Pending"; "Downloading"; "Downloading"; "Running"]
  /\ (fun o => creations (calls o))
       <$> reconcile_runs rt_unset demo_key
             [(10, 0); (20, 0); (30, 0); (40, 0); (50, 1); (60, 1)]
             (cluster_of demo)
     = [2; 1; 1; 0; 0; 0]%nat.
Proof. split; vm_compute; reflexivity. Qed.

(** The closed form agrees with the run on the scenario. *)
Example demo_closed_form :
  effects (run (Reconcile rt_unset demo_key) (cluster_of demo))
  = reconcile_closed rt_unset demo_key (cluster_of demo).
Proof. vm_compute. reflexivity. Qed.

Lemma demo_cluster_wf (st : ModelServeStatus) (n : Z) (m : ModelServe) :
  modelserves (demo_cluster st n) !! kk demo_key = Some m ->
  key_of m = demo_key.
Proof.
  unfold demo_cluster, report_available.
  cbn [deployments]. rewrite lookup_singleton_eq.
  cbn [modelserves set_deployments]. rewrite lookup_singleton_eq.
  by intros [= <-].
Qed.

Lemma settled_reconcile_is_quiet_witness :
  creations
    (calls (run (Reconcile rt_unset demo_key)
              (after (run (Reconcile rt_unset demo_key)
                        (demo_cluster (Status demo_downloading) 1)))))
  = 0%nat
  /\ ((forall st,
         stored_status demo_key
           (after (run (Reconcile rt_unset demo_key)
                     (demo_cluster (Status demo_downloading) 1)))
         = Some st -> Phase st <> "Pending") ->
      status_writes
        (calls (run (Reconcile rt_unset demo_key)
                  (after (run (Reconcile rt_unset demo_key)
                            (demo_cluster (Status demo_downloading) 1)))))
      = []
      /\ after (run (Reconcile rt_unset demo_key)
                  (after (run (Reconcile rt_unset demo_key)
                            (demo_cluster (Status demo_downloading) 1))))
         = after (run (Reconcile rt_unset demo_key)
                    (demo_cluster (Status demo_downloading) 1))).
Proof.
  apply (settled_reconcile_is_quiet rt_unset demo_key
           (demo_cluster (Status demo_downloading) 1)).
  - apply demo_cluster_wf.
  - vm_compute. reflexivity.
Defined.

(** C3 fails in two ways.  By design, a run that created a child asks for
    another run, and that one creates the next child: the second reconcile
    of the fresh request creates the Service.  And by the unconditional
    [needsStatusUpdate = true] of the Pending branch, a settled object in
    phase Pending has its unchanged status written again on every run. *)
Lemma second_reconcile_not_quiet :
  creations
    (calls (run (Reconcile rt_unset demo_key)
              (after (run (Reconcile rt_unset demo_key) (cluster_of demo)))))
  = 1%nat
  /\ (let c1 := after (run (Reconcile rt_unset demo_key)
                         (demo_cluster (Status demo_pending) 0)) in
      let o2 := run (Reconcile rt_unset demo_key) c1 in
      result (run (Reconcile rt_unset demo_key)
                (demo_cluster (Status demo_pending) 0))
      = (mkResult false, None)
      /\ length (status_writes (calls o2)) = 1%nat
      /\ stored_status demo_key (after o2) = stored_status demo_key c1).
Proof. split; [| split; [| split]]; vm_compute; reflexivity. Qed.

Lemma gatewayURL_recorded_witness :
  GatewayURL
    <$> stored_status demo_key
          (after (run (Reconcile rt_unset demo_key)
                    (demo_cluster (Status demo_downloading) 1)))
  = Some ("http://localhost/" ++ Name (Meta demo_downloading))
  /\ (0 < dep_AvailableReplicas
            (with_available 1
               (deploymentForModelServe rt_unset demo_downloading)) ->
      Phase
        <$> stored_status demo_key
              (after (run (Reconcile rt_unset demo_key)
                        (demo_cluster (Status demo_downloading) 1)))
      = Some "Running").
Proof.
  apply (gatewayURL_recorded rt_unset demo_key
           (demo_cluster (Status demo_downloading) 1) demo_downloading
           (with_available 1
              (deploymentForModelServe rt_unset demo_downloading))
           (serviceForModelServe demo_downloading)
           (ingressForModelServe demo_downloading));
    vm_compute; reflexivity.
Defined.

Lemma append_nonempty (a b : string) : b <> "" -> a ++ b <> "".
Proof. intros Hb. destruct a; [exact Hb | discriminate]. Qed.

Lemma ends_with_slash_app (a b : string) :
  b <> "" -> ends_with_slash (a ++ b) = ends_with_slash b.
Proof.
  intros Hb. induction a as [| ch a IH]; [reflexivity |].
  change (ends_with_slash (String ch a ++ b))
    with (match a ++ b with
          | EmptyString => bool_decide (ch = "/"%char)
          | String _ _ => ends_with_slash (a ++ b)
          end).
  destruct (a ++ b) eqn:E; [| exact IH].
  by apply append_nonempty in E.
Qed.

Lemma gateway_url_form_ends (host name url : string) :
  gateway_url_form host name url -> ends_with_slash url = true.
Proof.
  assert (H1 : "/" <> "") by discriminate.
  assert (H2 : name ++ "/" <> "") by (by apply append_nonempty).
  assert (H3 : "/" ++ name ++ "/" <> "") by (by apply append_nonempty).
  assert (H4 : host ++ "/" ++ name ++ "/" <> "") by (by apply append_nonempty).
  intros [-> | ->];
    rewrite (ends_with_slash_app _ _ H4), (ends_with_slash_app _ _ H3),
      (ends_with_slash_app _ _ H2), (ends_with_slash_app _ _ H1);
    reflexivity.
Qed.

(** C8 fails on the trailing slash: for the parent named demo the URL left
    in the status is "http://localhost/demo", which is not
    [http(s)://<host>/demo/] for any host. *)
Lemma gatewayURL_has_no_trailing_slash :
  GatewayURL
    <$> stored_status demo_key
          (after (run (Reconcile rt_unset demo_key)
                    (demo_cluster (Status demo_downloading) 1)))
  = Some "http://localhost/demo"
  /\ forall host, ~ gateway_url_form host "demo" "http://localhost/demo".
Proof.
  split; [vm_compute; reflexivity |].
  intros host H. apply gateway_url_form_ends in H. discriminate H.
Qed.

(** C5 fails when the workload goes away and comes back: the phase goes
    Running, Pending, Running, and the second entry into Running replaces
    the [startedAt] of the first. *)
Lemma startedAt_overwritten_on_restart :
  (fun o => (Phase <$> stored_status demo_key (after o),
             StartedAt <$> stored_status demo_key (after o)))
    <$> reconcile_runs rt_unset demo_key [(100, 1); (200, 0); (300, 1)]
          (demo_cluster (Status demo_downloading) 0)
  = [ (Some "Running", Some (Some 100));
      (Some "Pending", Some (Some 100));
      (Some "Running", Some (Some 300)) ].
Proof. vm_compute. reflexivity. Qed.

Lemma startedAt_set_on_entering_Running_witness :
  (Phase (Status demo_downloading) = "Running"
   \/ Phase (Status (demo_running 100)) <> "Running" ->
   StartedAt (Status (demo_running 100))
   = StartedAt (Status demo_downloading))
  /\ (Phase (Status demo_downloading) <> "Running" ->
      Phase (Status (demo_running 100)) = "Running" ->
      exists t,
        t ∈ omap observed_time
              (calls (run (Reconcile rt_unset demo_key)
                        (at_time 100
                           (demo_cluster (Status demo_downloading) 1))))
        /\ StartedAt (Status (demo_running 100)) = Some t).
Proof.
  apply (startedAt_set_on_entering_Running rt_unset demo_key _ _
           demo_downloading (demo_running 100)
           (runs_run (Reconcile rt_unset demo_key)
              (at_time 100 (demo_cluster (Status demo_downloading) 1))));
    vm_compute; apply list_elem_of_here.
Defined.

Lemma phase_order_witness :
  (exists i j,
      phase_history rt_unset demo_key
        [(10, 0); (20, 0); (30, 0); (40, 0); (50, 1); (60, 1)]
        (cluster_of demo)
      = ("Pending" :: "Downloading"
           :: repeat "Downloading" i ++ repeat "Running" j)%list
      /\ (Exists (fun s => 0 < snd s)
            (drop 2 [(20, 0); (30, 0); (40, 0); (50, 1); (60, 1)]) ->
          (1 <= j)%nat))
  /\ (forall tr res m' o,
        runs (Reconcile rt_unset demo_key) tr res ->
        m' ∈ omap fetched tr -> Phase (Status m') = "Running" ->
        o ∈ status_writes tr -> Phase (Status o) = "Pending" ->
        exists d, d ∈ omap observed_deployment tr
                  /\ dep_AvailableReplicas d <= 0).
Proof.
  apply (phase_order rt_unset demo_key 10 0
           [(20, 0); (30, 0); (40, 0); (50, 1); (60, 1)]
           (cluster_of demo) demo).
  - vm_compute. reflexivity.
  - reflexivity.
  - reflexivity.
  - vm_compute. reflexivity.
  - cbn [stays_ready snd]. repeat split; try lia; intros _;
      repeat constructor.
Defined.

(* ===================================================================== *)

(** * Defaulting and validation, further *)

(* ===================================================================== *)

Section Defaulting.

Variable rt : Runtime.

(** X1: [Default] applied twice is [Default] applied once. *)
Theorem Default_idempotent (r : ModelServe) : Default (Default r) = Default r.
Proof.
  destruct r as [meta [mn mu mp me mb im rp par mem cpu] st].
  unfold Default, with_spec.
  cbn [Meta Spec Status ModelName ModelUUID MinIOPath MinIOEndpoint
       MinIOBucket Image Replicas RuntimeParams MemoryLimit CPULimit].
  rewrite !default_or_value_idem by discriminate.
  rewrite !limit_default_idem by lia.
  by destruct rp.
Qed.

Lemma default_or_value_fixed (s d : string) :
  d <> "" -> (if is_empty s then d else s) = s <-> s <> "".
Proof.
  intros Hd. destruct (is_empty s) eqn:E.
  - apply is_empty_true in E. subst s. split; [intros H; congruence | done].
  - apply is_empty_false in E. done.
Qed.

Lemma limit_default_fixed (n d : Z) :
  d <> 0 -> (if Z.eqb n 0 then d else n) = n <-> n <> 0.
Proof.
  intros Hd. destruct (Z.eqb_spec n 0) as [-> | Hn]; [| done].
  split; [intros H; congruence | done].
Qed.

(** X2: [Default] leaves an object as it is exactly when none of the six
    optional fields it fills is unset. *)
Theorem Default_fixpoint_iff (r : ModelServe) :
  Default r = r <->
  Replicas (Spec r) <> None
  /\ MemoryLimit (Spec r) <> 0 /\ CPULimit (Spec r) <> 0
  /\ MinIOBucket (Spec r) <> "" /\ MinIOEndpoint (Spec r) <> ""
  /\ Image (Spec r) <> "".
Proof.
  destruct r as [meta [mn mu mp me mb im rp par mem cpu] st].
  unfold Default, with_spec.
  cbn [Meta Spec Status ModelName ModelUUID MinIOPath MinIOEndpoint
       MinIOBucket Image Replicas RuntimeParams MemoryLimit CPULimit].
  split.
  - intros [= He Hb Hi Hr Hm Hc].
    apply default_or_value_fixed in He, Hb, Hi; try discriminate.
    apply limit_default_fixed in Hm, Hc; try lia.
    repeat split; try assumption. by destruct rp.
  - intros (Hr & Hm & Hc & Hb & He & Hi).
    apply (default_or_value_fixed _ "minio:9000") in He; [| discriminate].
    apply (default_or_value_fixed _ "inference-models") in Hb; [| discriminate].
    apply (default_or_value_fixed _ "ghcr.io/ggerganov/llama.cpp:server") in Hi;
      [| discriminate].
    apply (limit_default_fixed _ 4096) in Hm; [| lia].
    apply (limit_default_fixed _ 2000) in Hc; [| lia].
    rewrite He, Hb, Hi, Hm, Hc. by destruct rp.
Qed.

Lemma validateJWT_Default (r : ModelServe) :
  validateJWT rt (Default r) = validateJWT rt r.
Proof. reflexivity. Qed.

Lemma replicas_check_Default (r : ModelServe) :
  match Replicas (Spec (Default r)) with
  | Some n => Z.ltb 5 n
  | None => false
  end
  = match Replicas (Spec r) with
    | Some n => Z.ltb 5 n
    | None => false
    end.
Proof. cbn. by destruct (Replicas (Spec r)). Qed.

(** X3: defaulting does not change what the validators answer: each of
    them returns the same error, or none, for [Default r] as for [r]. *)
Theorem validation_unchanged_by_Default (r old : ModelServe) :
  ValidateCreate rt (Default r) = ValidateCreate rt r
  /\ ValidateUpdate rt (Default r) old = ValidateUpdate rt r old
  /\ ValidateDelete rt (Default r) = ValidateDelete rt r.
Proof.
  split; [| split].
  - unfold ValidateCreate.
    rewrite validateJWT_Default, replicas_check_Default.
    cbn [Default with_spec Spec ModelName ModelUUID MinIOPath MemoryLimit
         CPULimit].
    assert (Hm : Z.ltb 32768 (if Z.eqb (MemoryLimit (Spec r)) 0 then 4096
                              else MemoryLimit (Spec r))
                 = Z.ltb 32768 (MemoryLimit (Spec r))).
    { destruct (Z.eqb_spec (MemoryLimit (Spec r)) 0) as [-> | ?]; reflexivity. }
    assert (Hc : Z.ltb 16000 (if Z.eqb (CPULimit (Spec r)) 0 then 2000
                              else CPULimit (Spec r))
                 = Z.ltb 16000 (CPULimit (Spec r))).
    { destruct (Z.eqb_spec (CPULimit (Spec r)) 0) as [-> | ?]; reflexivity. }
    by rewrite Hm, Hc.
  - unfold ValidateUpdate.
    by rewrite validateJWT_Default, replicas_check_Default.
  - reflexivity.
Qed.

(** X4: what [ValidateCreate] accepts, exactly. *)
Theorem ValidateCreate_accepts_iff (r : ModelServe) :
  ValidateCreate rt r = None <->
  validateJWT rt r = None
  /\ ModelName (Spec r) <> "" /\ ModelUUID (Spec r) <> ""
  /\ MinIOPath (Spec r) <> ""
  /\ (forall n, Replicas (Spec r) = Some n -> n <= 5)
  /\ MemoryLimit (Spec r) <= 32768 /\ CPULimit (Spec r) <= 16000.
Proof.
  split; [apply ValidateCreate_accepts |].
  intros (Hj & H1 & H2 & H3 & Hr & Hm & Hc).
  unfold ValidateCreate. rewrite Hj.
  apply is_empty_false in H1, H2, H3. rewrite H1, H2, H3.
  destruct (Replicas (Spec r)) as [n |].
  - specialize (Hr n eq_refl).
    destruct (Z.ltb_spec 5 n); [lia |].
    destruct (Z.ltb_spec 32768 (MemoryLimit (Spec r))); [lia |].
    destruct (Z.ltb_spec 16000 (CPULimit (Spec r))); [lia | reflexivity].
  - destruct (Z.ltb_spec 32768 (MemoryLimit (Spec r))); [lia |].
    destruct (Z.ltb_spec 16000 (CPULimit (Spec r))); [lia | reflexivity].
Qed.

(** X5: what [ValidateUpdate] accepts, exactly: the token check and the
    replica bound.  Neither the old object nor any other field of the new
    one is looked at. *)
Theorem ValidateUpdate_accepts_iff (r old : ModelServe) :
  ValidateUpdate rt r old = None <->
  validateJWT rt r = None /\ (forall n, Replicas (Spec r) = Some n -> n <= 5).
Proof.
  unfold ValidateUpdate.
  destruct (validateJWT rt r) as [e |].
  { split; [discriminate | intros [[=] _]]. }
  destruct (Replicas (Spec r)) as [n |].
  - destruct (Z.ltb_spec 5 n).
    + split; [discriminate |]. intros [_ H']. specialize (H' n eq_refl). lia.
    + split; [| reflexivity]. intros _. split; [reflexivity |].
      intros k [= <-]. assumption.
  - split; [| reflexivity]. intros _. split; [reflexivity | discriminate].
Qed.

End Defaulting.

(* ===================================================================== *)

(** * The token check, further *)

(* ===================================================================== *)

Lemma string_app_cons (c : ascii) (a b : string) :
  String c a ++ b = String c (a ++ b).
Proof. reflexivity. Qed.

Lemma Split_dot_dot_free (a : string) :
  dot_free a = true -> Split_dot a = [a].
Proof.
  induction a as [| c a IH]; [reflexivity |].
  cbn [dot_free Split_dot]. intros H. apply andb_true_iff in H as [Hc Ha].
  apply negb_true_iff in Hc. rewrite Hc, (IH Ha). reflexivity.
Qed.

Lemma Split_dot_app (a b : string) :
  dot_free a = true -> Split_dot (a ++ "." ++ b) = a :: Split_dot b.
Proof.
  induction a as [| c a IH]; [reflexivity |].
  cbn [dot_free]. intros H. apply andb_true_iff in H as [Hc Ha].
  apply negb_true_iff in Hc.
  rewrite string_app_cons. cbn [Split_dot]. rewrite Hc, (IH Ha). reflexivity.
Qed.

Lemma sextets_dot_free (s : string) (l : list N) :
  base64.sextets s = Some l -> dot_free s = true.
Proof.
  revert l. induction s as [| c s IH]; intros l; [reflexivity |].
  cbn [base64.sextets dot_free].
  destruct (bool_decide (c = "."%char)) eqn:Ec.
  { apply bool_decide_eq_true in Ec. subst c. discriminate. }
  cbn [negb andb].
  destruct (base64.is_newline c); [apply IH |].
  destruct (base64.dec_char c); [| discriminate].
  destruct (base64.sextets s) as [l' |]; [| discriminate].
  intros _. by apply (IH l').
Qed.

Lemma EncodeToString_dot_free (s : string) :
  dot_free (base64.EncodeToString s) = true.
Proof.
  apply (sextets_dot_free _ (base64.values s)).
  apply base64_facts.sextets_EncodeToString.
Qed.

Lemma sextets_foreign (s : string) (c : ascii) :
  c ∈ chars s -> base64.dec_char c = None -> base64.is_newline c = false ->
  base64.sextets s = None.
Proof.
  intros Hin Hd Hn. induction s as [| d s IH].
  { by apply elem_of_nil in Hin. }
  cbn [chars] in Hin. cbn [base64.sextets].
  apply elem_of_cons in Hin as [<- | Hin].
  - by rewrite Hn, Hd.
  - rewrite (IH Hin). by destruct (base64.is_newline d), (base64.dec_char d).
Qed.

Lemma DecodeString_foreign (s : string) (c : ascii) :
  c ∈ chars s -> base64.dec_char c = None -> base64.is_newline c = false ->
  base64.DecodeString s = None.
Proof.
  intros Hin Hd Hn. unfold base64.DecodeString.
  by rewrite (sextets_foreign s c Hin Hd Hn).
Qed.

(** A character of a string that is not a dot is in one of the segments
    [strings.Split] cuts at the dots. *)
Lemma Split_dot_chars (s : string) (c : ascii) :
  c ∈ chars s -> c <> "."%char ->
  exists seg, seg ∈ Split_dot s /\ c ∈ chars seg.
Proof.
  induction s as [| d s IH]; intros Hin Hc.
  { by apply elem_of_nil in Hin. }
  cbn [chars] in Hin. cbn [Split_dot].
  destruct (bool_decide (d = "."%char)) eqn:Ed.
  - apply bool_decide_eq_true in Ed. subst d.
    apply elem_of_cons in Hin as [-> | Hin]; [contradiction |].
    destruct (IH Hin Hc) as (seg & Hs & Hcs).
    exists seg. split; [by apply list_elem_of_further | assumption].
  - apply elem_of_cons in Hin as [-> | Hin].
    + destruct (Split_dot s) as [| h t].
      * exists (String d ""). split; [apply list_elem_of_here |].
        cbn. apply list_elem_of_here.
      * exists (String d h). split; [apply list_elem_of_here |].
        cbn. apply list_elem_of_here.
    + destruct (IH Hin Hc) as (seg & Hs & Hcs).
      destruct (Split_dot s) as [| h t].
      { by apply elem_of_nil in Hs. }
      apply elem_of_cons in Hs as [-> | Hs].
      * exists (String d h). split; [apply list_elem_of_here |].
        cbn. by apply list_elem_of_further.
      * exists seg. split; [by apply list_elem_of_further | assumption].
Qed.

Section Tokens.

Variable rt : Runtime.

(** X6: a token made the HS256 way is accepted: header and payload
    encoded as unpadded base64url, the signature the encoded HMAC of
    "header.payload" under the shared secret, claims that unmarshal with an
    expiry not before the clock and type internal or user. *)
Theorem signed_token_accepted (r : ModelServe)
    (header payload h p s : string) (claims : JWTClaims) :
  h = base64.EncodeToString header ->
  p = base64.EncodeToString payload ->
  s = base64.EncodeToString (hmac_sha256 rt (jwtSecret rt) (h ++ "." ++ p)) ->
  Annotations (Meta r) !! auth_token_key = Some (h ++ "." ++ p ++ "." ++ s) ->
  json_Unmarshal rt payload = Some claims ->
  NowUnix rt <= Exp claims ->
  Type_ claims = "internal" \/ Type_ claims = "user" ->
  validateJWT rt r = None.
Proof.
  intros Hh Hp Hs Ha Hj He Ht.
  apply (validateJWT_present rt r _ Ha).
  exists h, p, s, payload, claims.
  assert (Hdh : dot_free h = true) by (subst h; apply EncodeToString_dot_free).
  assert (Hdp : dot_free p = true) by (subst p; apply EncodeToString_dot_free).
  assert (Hds : dot_free s = true) by (rewrite Hs; apply EncodeToString_dot_free).
  repeat split; try assumption.
  - rewrite (Split_dot_app h _ Hdh), (Split_dot_app p _ Hdp).
    by rewrite (Split_dot_dot_free s Hds).
  - exists header. subst h. apply base64_facts.DecodeString_EncodeToString.
  - subst p. apply base64_facts.DecodeString_EncodeToString.
  - rewrite Hs. eexists. apply base64_facts.DecodeString_EncodeToString.
  - lia.
Qed.

(** X7: a token with a character that is neither one of the 64 of the URL
    alphabet, nor a dot, nor CR or LF, is rejected: padded tokens and
    tokens in the standard alphabet do not pass. *)
Theorem validateJWT_rejects_foreign_characters (r : ModelServe)
    (token : string) (c : ascii) :
  Annotations (Meta r) !! auth_token_key = Some token ->
  c ∈ chars token -> c <> "."%char ->
  base64.dec_char c = None -> base64.is_newline c = false ->
  validateJWT rt r <> None.
Proof.
  intros Ha Hin Hc Hd Hn Hacc.
  apply (validateJWT_present rt r _ Ha) in Hacc.
  destruct Hacc as (h & p & s & payload & claims & Hsplit & [x Hh] & Hp
                    & [y Hs] & _).
  destruct (Split_dot_chars token c Hin Hc) as (seg & Hseg & Hcs).
  rewrite Hsplit in Hseg.
  pose proof (DecodeString_foreign seg c Hcs Hd Hn) as Hnone.
  repeat (apply elem_of_cons in Hseg as [-> | Hseg]; [congruence |]).
  by apply elem_of_nil in Hseg.
Qed.

End Tokens.

(** X8: the answer of [validateJWT] is determined by the token annotation,
    [JWT_SECRET], the clock, the HMAC and the type and expiry of the claims:
    two runs that agree on these give the same answer, whatever the
    subject and issue time of the claims and whatever else the objects
    hold. *)
Theorem validateJWT_reads_type_and_expiry_only (rt rt' : Runtime)
    (r r' : ModelServe) :
  Annotations (Meta r) !! auth_token_key
  = Annotations (Meta r') !! auth_token_key ->
  Getenv rt "JWT_SECRET" = Getenv rt' "JWT_SECRET" ->
  NowUnix rt = NowUnix rt' ->
  (forall key msg, hmac_sha256 rt key msg = hmac_sha256 rt' key msg) ->
  (forall payload,
     claims_read <$> json_Unmarshal rt payload
     = claims_read <$> json_Unmarshal rt' payload) ->
  validateJWT rt r = validateJWT rt' r'.
Proof.
  intros Ha Hs Hn Hh Hj. unfold validateJWT, jwtSecret.
  rewrite <- Ha, <- Hs, <- Hn.
  destruct (Annotations (Meta r) !! auth_token_key) as [token |];
    [| reflexivity].
  destruct (Split_dot token) as [| p0 [| p1 [| p2 [| ? ?]]]]; try reflexivity.
  destruct (base64.DecodeString p0); [| reflexivity].
  destruct (base64.DecodeString p1) as [payload |]; [| reflexivity].
  specialize (Hj payload). rewrite <- Hh.
  destruct (json_Unmarshal rt payload) as [c |],
           (json_Unmarshal rt' payload) as [c' |];
    try discriminate; [| reflexivity].
  injection Hj as Ht He. by rewrite Ht, He.
Qed.

Lemma signed_token_accepted_witness :
  validateJWT (rt_claims demo_claims) (demo_with_token demo_token) = None.
Proof.
  apply (signed_token_accepted (rt_claims demo_claims)
           (demo_with_token demo_token) "{}" "{}"
           demo_header demo_payload demo_signature demo_claims);
    try reflexivity.
  - cbn. lia.
  - by left.
Defined.

Lemma validateJWT_rejects_foreign_characters_witness :
  validateJWT rt_unset (demo_with_token "e30=.e30=.c2ln") <> None.
Proof.
  apply (validateJWT_rejects_foreign_characters rt_unset
           (demo_with_token "e30=.e30=.c2ln") "e30=.e30=.c2ln" "="%char).
  - reflexivity.
  - vm_compute. do 3 apply list_elem_of_further. apply list_elem_of_here.
  - discriminate.
  - reflexivity.
  - reflexivity.
Defined.

Lemma validateJWT_reads_type_and_expiry_only_witness :
  validateJWT (rt_claims demo_claims) (demo_with_token demo_token)
  = validateJWT (rt_claims (mkClaims "intruder" "internal" 2000 0))
      (with_spec (demo_with_token demo_token) (Spec (demo_sized (Some 3) 1 1))).
Proof.
  apply (validateJWT_reads_type_and_expiry_only
           (rt_claims demo_claims)
           (rt_claims (mkClaims "intruder" "internal" 2000 0))
           (demo_with_token demo_token)
           (with_spec (demo_with_token demo_token)
              (Spec (demo_sized (Some 3) 1 1))));
    reflexivity.
Defined.

(* ===================================================================== *)

(** * The children the builders make *)

(* ===================================================================== *)

Lemma labelsForModelServe_cr (name : string) :
  labelsForModelServe name !! "model_serve_cr" = Some name.
Proof.
  unfold labelsForModelServe.
  rewrite lookup_insert_ne by discriminate. apply lookup_insert_eq.
Qed.

Lemma labels_match_labelsFor (n n' : string) :
  labels_match (labelsForModelServe n) (labelsForModelServe n') = true
  <-> n = n'.
Proof.
  unfold labels_match. rewrite bool_decide_eq_true. split.
  - intros H.
    specialize (H "model_serve_cr" n (labelsForModelServe_cr n)).
    cbn beta in H. rewrite labelsForModelServe_cr in H. congruence.
  - intros <- k v Hk. exact Hk.
Qed.

Section Builders.

Variable rt : Runtime.

(** X9: the selector of the Service built for one ModelServe matches the
    pod labels of the Deployment built for another exactly when the two have
    the same name; so does the Deployment's own selector. *)
Theorem service_selects_own_pods_only (m m' : ModelServe) :
  (labels_match (svc_Selector (serviceForModelServe m))
     (dep_TemplateLabels (deploymentForModelServe rt m')) = true
   <-> Name (Meta m) = Name (Meta m'))
  /\ (labels_match (dep_MatchLabels (deploymentForModelServe rt m))
        (dep_TemplateLabels (deploymentForModelServe rt m')) = true
      <-> Name (Meta m) = Name (Meta m')).
Proof. split; apply labels_match_labelsFor. Qed.


(** X11: the children built for one ModelServe are wired to each other: the
    route points at the Service by name, port and namespace; the Service
    selects the Deployment's pods and targets the port the llama-server
    container exposes as http; the Deployment's selector matches its own
    template; and the gateway URL of the status is the route's path under
    http://localhost. *)
Theorem children_wired_together (m : ModelServe) :
  ing_BackendService (ingressForModelServe m) = svc_Name (serviceForModelServe m)
  /\ ing_BackendPort (ingressForModelServe m) = svc_Port (serviceForModelServe m)
  /\ ing_Namespace (ingressForModelServe m)
     = svc_Namespace (serviceForModelServe m)
  /\ svc_Namespace (serviceForModelServe m)
     = dep_Namespace (deploymentForModelServe rt m)
  /\ svc_Selector (serviceForModelServe m)
     = dep_TemplateLabels (deploymentForModelServe rt m)
  /\ dep_MatchLabels (deploymentForModelServe rt m)
     = dep_TemplateLabels (deploymentForModelServe rt m)
  /\ (exists c,
        container_named "llama-server" (deploymentForModelServe rt m) = Some c
        /\ ("http", svc_TargetPort (serviceForModelServe m)) ∈ c_Ports c)
  /\ gatewayURL_of m = "http://localhost" ++ ing_Path (ingressForModelServe m).
Proof.
  repeat (split; [reflexivity |]). split; [| reflexivity].
  unfold container_named, deploymentForModelServe.
  cbn [dep_Containers List.find c_Name].
  change (str_eqb "llama-server" "llama-server") with true. cbv iota.
  eexists. split; [reflexivity |]. apply list_elem_of_here.
Qed.

End Builders.


(* ===================================================================== *)

(** * Every execution of the reconciler, further *)

(* ===================================================================== *)

Ltac use_podNameLoop_fields :=
  repeat match goal with
  | E : podNameLoop ?i (?s, ?b) = (_, _) |- _ =>
      let F := fresh "F" in
      pose proof (podNameLoop_fields i s b) as F;
      cbn zeta in F; rewrite E in F; status_fields;
      destruct F as (? & ? & ? & ? & ? & ? & _); clear E
  end.

Lemma status_call_facts (tr : list event) :
  Forall (fun ev => status_call ev = true) tr ->
  List.filter is_child_create tr = []
  /\ List.filter is_create tr = []
  /\ existsb child_created tr = false
  /\ omap observed_deployment tr = []
  /\ omap observed_service tr = []
  /\ omap observed_ingress tr = []
  /\ omap fetched tr = []
  /\ (forall rt m, Forall (built_for rt m) tr)
  /\ (forall tr', Forall (create_in_order tr') tr).
Proof.
  induction 1 as [| ev tr Hev _ IH].
  - repeat split; constructor.
  - destruct IH as (I1 & I2 & I3 & I4 & I5 & I6 & I7 & I8 & I9).
    destruct ev as [X e x]; destruct e; try discriminate Hev;
      cbn [List.filter is_child_create is_create existsb child_created
           omap list_omap observed_deployment observed_service
           observed_ingress fetched orb];
      (repeat split;
       [assumption .. | intros; constructor; [exact I | apply I8]
        | intros; constructor; [split; [discriminate | exact I] | apply I9]]).
Qed.

(** The status block, whatever the store answers. *)
Lemma reconcileStatus_tail (found : Deployment) (svc : Service)
    (m : ModelServe) (tr : list event) (res : Result * option APIError) :
  runs (reconcileStatus found svc m) tr res ->
  Forall (fun ev => status_call ev = true) tr
  /\ Requeue (fst res) = false
  /\ Forall (error_accounted res) tr
  /\ (forall e, snd res = Some e ->
      Exists (fun ev => call_error ev = Some e) tr)
  /\ Forall (fun o => Phase (Status o) = "Running" ->
               0 < dep_AvailableReplicas found
               /\ AvailableReplicas (Status o) = dep_AvailableReplicas found
               /\ GatewayURL (Status o) = gatewayURL_of m
               /\ ServiceName (Status o) = svc_Name svc)
       (status_writes tr).
Proof.
  intros H. unfold reconcileStatus in H.
  destruct (mirrorStatus_fields found svc m) as (Ha & Hs & Hg & Hp & _).
  destruct (mirrorStatus found svc m) as [st needs]. cbn [fst snd] in *.
  prog_simpl H.
  destruct (Z.ltb_spec 0 (dep_AvailableReplicas found)) as [Hav | Hav];
    [destruct (str_eqb (Phase st) "Running") eqn:Er;
     [apply str_eqb_true in Er | apply str_eqb_false in Er]
    | destruct (str_eqb (Phase st) "Downloading") eqn:Ed;
      [apply str_eqb_true in Ed
      | destruct (str_eqb (Phase st) "Failed") eqn:Ef;
        [apply str_eqb_true in Ef |]] ];
    cbn [negb andb] in H; prog_simpl H.
  all: repeat runs_step.
  all: use_podNameLoop_fields.
  all: cbn [status_writes omap list_omap status_write fst snd Requeue].
  all: split; [repeat constructor |].
  all: split; [reflexivity |].
  all: split;
    [ repeat (constructor;
              [intros e; cbn; intros [=]; subst;
               first [by left | right; right; exact I] |]);
      constructor |].
  all: split;
    [ intros e [=]; subst;
      repeat first [apply Exists_cons_hd; reflexivity | apply Exists_cons_tl]
    |].
  all: repeat constructor.
  all: status_fields; intros; try (repeat split; congruence); try lia.
Qed.

(** Every path through [Reconcile]: the calls up to the status block
    spelled out, the status block summarised by [reconcileStatus_tail]. *)
Ltac Reconcile_paths H :=
  unfold Reconcile, createStripPrefixMiddleware in H; prog_simpl H;
  unfold reconcileDeployment, reconcileService, reconcileIngress in H;
  prog_simpl H;
  repeat runs_step;
  repeat match goal with
         | E : ?x = _ |- _ => is_var x; clear E; clear x
         end;
  try match goal with
      | H : runs (reconcileStatus _ _ _) _ _ |- _ =>
          apply reconcileStatus_tail in H;
          destruct H as (Tc & Tq & Te & Tx & Tw);
          pose proof (status_call_facts _ Tc)
            as (T1 & T2 & T3 & T4 & T5 & T6 & T7 & T8 & T9)
      end.

Ltac in_trace :=
  solve [repeat first [apply list_elem_of_here | apply list_elem_of_further]].

(** The four parts of [Reconcile_calls], path by path. *)

Ltac count_creates :=
  unfold creations;
  cbn [List.filter is_child_create is_create existsb child_created orb
       length fst snd Requeue];
  repeat match goal with
         | T : List.filter _ _ = [] |- _ => rewrite T
         | T : existsb _ _ = false |- _ => rewrite T
         | T : Requeue _ = false |- _ => rewrite T
         end;
  repeat split; cbn [length]; try lia; try reflexivity; try congruence.

Ltac creates_in_order :=
  repeat
    (constructor;
     [ split;
       [ intros Hc;
         first
           [ discriminate Hc
           | match goal with
             | E : IsNotFound ?a = true |- _ =>
                 exists a; eexists;
                 split; [exact E |];
                 split; [reflexivity |]; in_trace
             end ]
       | cbn [omap list_omap observed_deployment observed_service];
         first [exact I | discriminate | split; discriminate] ]
     |]);
  first
    [ constructor
    | match goal with
      | T : forall tr', Forall (create_in_order tr') _ |- _ => apply T
      end ].

Ltac errors_accounted :=
  repeat match goal with a : option APIError |- _ => destruct a end;
  (split;
   [ repeat
       (constructor;
        [ intros e He; cbn [call_error] in He;
          first
            [ discriminate He
            | injection He as <-;
              first
                [ left; reflexivity
                | right; left; split; [reflexivity | assumption]
                | right; right;
                  cbn [best_effort with_status Status Phase set_Message
                       set_Phase];
                  first [by left | by right | exact I] ] ]
        |]);
     first [constructor | assumption]
   | intros e He; cbn [snd] in He;
     first
       [ discriminate He
       | injection He as <-;
         repeat first [ apply Exists_cons_hd; reflexivity
                      | apply Exists_cons_tl ]
       | repeat first
           [ match goal with
             | T : forall e, snd _ = Some e -> Exists _ _ |- _ =>
                 apply T; exact He
             end
           | apply Exists_cons_tl ] ] ]).

Ltac built_from_fetched :=
  repeat (constructor; [first [exact I | reflexivity] |]);
  first
    [ constructor
    | match goal with
      | T : forall rt m, Forall (built_for rt m) _ |- _ => apply T
      end ].

Ltac running_from_fetched :=
  cbn [status_writes omap list_omap status_write observed_deployment
       observed_service observed_ingress];
  repeat (constructor; [status_fields; discriminate |]);
  first
    [ by constructor
    | match goal with
      | Tw : Forall _ (status_writes _) |- _ =>
          unfold status_writes in Tw;
          eapply Forall_impl; [exact Tw |]
      end;
      let o := fresh "o" in
      let Ho := fresh "Ho" in
      let Hr := fresh "Hr" in
      intros o Ho Hr; destruct (Ho Hr) as (? & ? & ? & ?);
      split; [| split; discriminate];
      split; [| by split];
      eexists; split; [apply list_elem_of_here |]; by split ].

Ltac from_fetched :=
  let m := fresh "m" in
  let Hm := fresh "Hm" in
  intros m Hm;
  cbn [omap list_omap fetched] in Hm;
  try match goal with
      | T : omap fetched _ = [] |- _ => rewrite T in Hm
      end;
  first
    [ by apply elem_of_nil in Hm
    | apply list_elem_of_singleton in Hm as ->;
      split; [built_from_fetched | running_from_fetched] ].

Section AnyStoreMore.

Variable rt : Runtime.

(** Every execution of [Reconcile], whatever the store answers: how many
    creates and when a requeue; what comes before a create; where an error
    answer goes; what the creates send and when Running is written. *)
Lemma Reconcile_calls (req : NamespacedName) (tr : list event)
    (res : Result * option APIError) :
  runs (Reconcile rt req) tr res ->
  ((length (List.filter is_child_create tr) <= 1)%nat
   /\ (creations tr <= 2)%nat
   /\ Requeue (fst res) = existsb child_created tr
   /\ (Requeue (fst res) = true -> snd res = None))
  /\ Forall (create_in_order tr) tr
  /\ (Forall (error_accounted res) tr
      /\ (forall e, snd res = Some e ->
          Exists (fun ev => call_error ev = Some e) tr))
  /\ (forall m, m ∈ omap fetched tr ->
      Forall (built_for rt m) tr
      /\ Forall (fun o =>
                   Phase (Status o) = "Running" ->
                   running_write_ok m (omap observed_deployment tr) o
                   /\ omap observed_service tr <> []
                   /\ omap observed_ingress tr <> [])
           (status_writes tr)).
Proof.
  intros H. pattern tr, res.
  match goal with |- ?P tr res => set (Claim := P) end.
  Reconcile_paths H.
  all: subst Claim; cbv beta.
  all: split; [count_creates |].
  all: split; [creates_in_order |].
  all: split; [errors_accounted | from_fetched].
Qed.

(** X12: every invocation starts with the lookup of the requested object.
    When that lookup fails nothing else is called: not found ends the
    invocation without error and without requeue, any other error is
    returned. *)
Theorem parent_lookup_failure (req : NamespacedName) (tr : list event)
    (res : Result * option APIError) :
  runs (Reconcile rt req) tr res ->
  exists x tl,
    tr = Ev (GetModelServe req) x :: tl
    /\ forall e, x = inl e ->
         tl = []
         /\ res = (mkResult false, if IsNotFound e then None else Some e).
Proof.
  intros H. unfold Reconcile in H. prog_simpl H.
  apply runs_inv in H. destruct H as (x & tl & -> & H).
  exists x, tl. split; [reflexivity |].
  intros e ->. destruct (IsNotFound e); prog_simpl H;
    apply runs_inv in H; destruct H as [-> ->]; by split.
Qed.

(** X13: an invocation creates at most one of the workload, the network
    endpoint and the route, and at most two objects in all; it asks for a
    requeue exactly when it created one of the three, and then it returns
    no error. *)
Theorem one_child_per_invocation (req : NamespacedName) (tr : list event)
    (res : Result * option APIError) :
  runs (Reconcile rt req) tr res ->
  (length (List.filter is_child_create tr) <= 1)%nat
  /\ (creations tr <= 2)%nat
  /\ Requeue (fst res) = existsb child_created tr
  /\ (Requeue (fst res) = true -> snd res = None).
Proof. intros H. by destruct (Reconcile_calls req tr res H) as (? & _). Qed.


(** X15: the objects an invocation creates are the ones the builders make
    for the object it fetched (the status it changed in memory meanwhile
    does not enter them): they carry the parent's namespace and its name,
    the ConfigMap the name with "-stripprefix" appended. *)
Theorem creates_are_built_from_parent (req : NamespacedName)
    (tr : list event) (res : Result * option APIError) (m : ModelServe)
    (ev : event) :
  runs (Reconcile rt req) tr res ->
  m ∈ omap fetched tr -> ev ∈ tr -> built_for rt m ev.
Proof.
  intros H Hm. revert ev. apply Forall_forall.
  destruct (Reconcile_calls req tr res H) as (_ & _ & _ & Hf).
  by destruct (Hf m Hm).
Qed.

(** X16: no error is dropped silently, except where the controller means
    to: an error answer is returned as the error of the invocation, unless
    it is the not-found of a lookup, or belongs to a status write with
    phase Downloading or Failed (the two writes around the create of the
    workload are only logged), or to the pod listing.  And an error the
    invocation returns was the answer of one of its calls. *)
Theorem errors_returned_or_best_effort (req : NamespacedName)
    (tr : list event) (res : Result * option APIError) :
  runs (Reconcile rt req) tr res ->
  (forall ev, ev ∈ tr -> error_accounted res ev)
  /\ (forall e, snd res = Some e ->
      exists ev, ev ∈ tr /\ call_error ev = Some e).
Proof.
  intros H.
  destruct (Reconcile_calls req tr res H) as (_ & _ & [H1 H2] & _).
  split; [by apply Forall_forall |].
  intros e He. apply Exists_exists. by apply H2.
Qed.

(** X17: a status write with phase Running is made only by an invocation
    that found a Deployment with an available replica, and the Service and
    the Ingress; it carries that replica count, the gateway URL and the
    Service's name. *)
Theorem running_written_when_ready (req : NamespacedName) (tr : list event)
    (res : Result * option APIError) (m o : ModelServe) :
  runs (Reconcile rt req) tr res ->
  m ∈ omap fetched tr -> o ∈ status_writes tr ->
  Phase (Status o) = "Running" ->
  running_write_ok m (omap observed_deployment tr) o
  /\ omap observed_service tr <> [] /\ omap observed_ingress tr <> [].
Proof.
  intros H Hm Ho.
  destruct (Reconcile_calls req tr res H) as (_ & _ & _ & Hf).
  destruct (Hf m Hm) as [_ Hw].
  exact (proj1 (Forall_forall _ _) Hw o Ho).
Qed.

End AnyStoreMore.

(* ===================================================================== *)

(** * The reconciler on the store, further *)

(* ===================================================================== *)

Lemma podNameLoop_first (items : list Pod) (st : ModelServeStatus) (b : bool) :
  podNameLoop items (st, b)
  = match first_running items with
    | Some p =>
        if str_eqb (PodName st) (pod_Name p) then (st, b)
        else (set_PodName (pod_Name p) st, true)
    | None => (st, b)
    end.
Proof.
  unfold first_running.
  induction items as [| pod rest IH]; [reflexivity |].
  cbn [podNameLoop List.find fst].
  destruct (str_eqb (pod_Phase pod) "Running"); [| exact IH].
  by destruct (str_eqb (PodName st) (pod_Name pod)).
Qed.

Lemma nextStatus_PodName (found : Deployment) (svc : Service) (m : ModelServe)
    (now : Z) (items : list Pod) :
  PodName (fst (nextStatus found svc m now items))
  = if Z.ltb 0 (dep_AvailableReplicas found)
    then match first_running items with
         | Some p => pod_Name p
         | None => PodName (Status m)
         end
    else PodName (Status m).
Proof.
  unfold nextStatus.
  destruct (mirrorStatus_fields found svc m) as (_ & _ & _ & _ & _ & Hn & _).
  destruct (mirrorStatus found svc m) as [st needs]. cbn [fst] in Hn.
  destruct (Z.ltb 0 (dep_AvailableReplicas found)).
  - destruct (negb (str_eqb (Phase st) "Running"));
      rewrite podNameLoop_first;
      (destruct (first_running items) as [p |]; [| exact Hn]);
      status_fields;
      (destruct (str_eqb _ (pod_Name p)) eqn:E;
       [apply str_eqb_true in E; cbn [fst]; status_fields; congruence
       | reflexivity]).
  - by destruct (_ && _).
Qed.

Lemma nextStatus_Phase (found : Deployment) (svc : Service) (m : ModelServe)
    (now : Z) (items : list Pod) :
  Phase (fst (nextStatus found svc m now items))
  = next_phase (dep_AvailableReplicas found) (Phase (Status m)).
Proof.
  unfold next_phase.
  destruct (Z.ltb_spec 0 (dep_AvailableReplicas found)) as [Hav | Hav].
  - by apply nextStatus_ready.
  - unfold nextStatus.
    destruct (mirrorStatus_fields found svc m) as (_ & _ & _ & Hp & _).
    destruct (mirrorStatus found svc m) as [st needs]. cbn [fst] in Hp.
    destruct (Z.ltb_spec 0 (dep_AvailableReplicas found)); [lia |].
    rewrite <- Hp.
    destruct (str_eqb (Phase st) "Downloading"); [reflexivity |].
    by destruct (str_eqb (Phase st) "Failed").
Qed.

Lemma env_frame_configmaps (req : NamespacedName) (t av : Z) (c : Cluster) :
  configmaps (at_time t (report_available req av c)) = configmaps c.
Proof.
  unfold report_available. by destruct (deployments c !! kk req).
Qed.

Section OnTheStore.

Variables (rt : Runtime) (req : NamespacedName).

(** X18: on a store that nobody else writes, with the object stored under
    its own name, a reconcile never returns an error. *)
Theorem sequential_reconcile_never_fails (c : Cluster) :
  (forall m, modelserves c !! kk req = Some m -> key_of m = req) ->
  snd (result (run (Reconcile rt req) c)) = None.
Proof.
  intros Hwf. rewrite effects_result, (effects_Reconcile rt req c Hwf).
  unfold reconcile_closed.
  destruct (modelserves c !! kk req) as [m |]; [| reflexivity].
  cbn zeta. unfold prepend_effects, closed_from_deployment. cbn [fst snd].
  repeat match goal with
         | |- context [match ?x !! ?k with _ => _ end] => destruct (x !! k)
         end; reflexivity.
Qed.

(** A reconcile that finds no Deployment. *)
Lemma run_missing_deployment (c : Cluster) (m : ModelServe) :
  modelserves c !! kk req = Some m -> key_of m = req ->
  deployments c !! kk req = None ->
  result (run (Reconcile rt req) c) = (mkResult true, None)
  /\ deployments (after (run (Reconcile rt req) c))
     = <[kk req := deploymentForModelServe rt m]> (deployments c)
  /\ modelserves (after (run (Reconcile rt req) c))
     = <[kk req := with_status m
                     (set_Message "Downloading model from MinIO"
                        (set_Phase "Downloading" (Status m)))]>
         (modelserves c)
  /\ services (after (run (Reconcile rt req) c)) = services c
  /\ ingresses (after (run (Reconcile rt req) c)) = ingresses c
  /\ is_Some (configmaps (after (run (Reconcile rt req) c))
              !! stripPrefix_key m).
Proof.
  intros Hm Hkey Hd.
  rewrite effects_result, effects_after.
  rewrite (effects_Reconcile rt req c) by (intros ? ?; congruence).
  rewrite (reconcile_closed_found rt req c m Hm).
  destruct (prepared_frame m c) as (Hpm & Hpd & Hps & Hpi & Hpp & Hpc & Hcm);
    [by rewrite Hkey |].
  unfold prepend_effects, closed_from_deployment.
  rewrite Hpd, key_of_initialised, Hkey, Hd. cbn [fst snd].
  split; [reflexivity |].
  set (m0 := initialised m) in *.
  set (m1 := with_status m0 _).
  rewrite (handle_StatusUpdate_found m1 m0).
  2:{ unfold m1. rewrite key_of_with_status. unfold m0.
      rewrite key_of_initialised, Hkey, Hpm, Hkey. apply lookup_insert_eq. }
  cbn [snd].
  set (c2 := set_modelserves _ _).
  assert (Hd2 : deployments c2 !! kk req = None).
  { unfold c2. cbn [deployments set_modelserves]. by rewrite Hpd. }
  assert (Hk : (dep_Namespace (deploymentForModelServe rt m0),
                dep_Name (deploymentForModelServe rt m0)) = kk req).
  { change (kk (key_of m0) = kk req). unfold m0.
    by rewrite key_of_initialised, Hkey. }
  unfold handle. rewrite Hk, Hd2. cbn [snd].
  cbn [deployments modelserves services ingresses configmaps
       set_deployments]. unfold c2.
  cbn [deployments modelserves services ingresses configmaps
       set_modelserves].
  unfold m1. rewrite key_of_with_status. unfold m0.
  rewrite key_of_initialised, Hkey, Hpm, Hpd, Hps, Hpi, Hkey.
  rewrite insert_insert_eq.
  assert (Hb : deploymentForModelServe rt (initialised m)
               = deploymentForModelServe rt m).
  { unfold initialised. by destruct (is_empty _). }
  assert (Hs : with_status (initialised m)
                 (Status (with_status (initialised m)
                            (set_Message "Downloading model from MinIO"
                               (set_Phase "Downloading"
                                  (Status (initialised m))))))
               = with_status m
                   (set_Message "Downloading model from MinIO"
                      (set_Phase "Downloading" (Status m)))).
  { unfold initialised. by destruct (is_empty _). }
  rewrite Hb, Hs. repeat split.
  unfold stripPrefix_key.
  assert (Hck : (cm_Namespace (stripPrefixConfigMap (initialised m)),
                 cm_Name (stripPrefixConfigMap (initialised m)))
                = (Namespace (Meta m), Name (Meta m) ++ "-stripprefix")).
  { cbn. by rewrite initialised_meta. }
  by rewrite <- Hck.
Qed.

(** X19: when the Deployment is missing, whatever the phase (Running and
    Failed included), one reconcile creates the Deployment the builder
    makes, sets phase and message to Downloading and asks for a requeue;
    the other status fields stay as they were. *)
Theorem missing_workload_is_recreated (c : Cluster) (m : ModelServe) :
  modelserves c !! kk req = Some m -> key_of m = req ->
  deployments c !! kk req = None ->
  result (run (Reconcile rt req) c) = (mkResult true, None)
  /\ deployments (after (run (Reconcile rt req) c))
     = <[kk req := deploymentForModelServe rt m]> (deployments c)
  /\ modelserves (after (run (Reconcile rt req) c))
     = <[kk req := with_status m
                     (set_Message "Downloading model from MinIO"
                        (set_Phase "Downloading" (Status m)))]>
         (modelserves c)
  /\ services (after (run (Reconcile rt req) c)) = services c
  /\ ingresses (after (run (Reconcile rt req) c)) = ingresses c
  /\ is_Some (configmaps (after (run (Reconcile rt req) c))
              !! stripPrefix_key m).
Proof. apply run_missing_deployment. Qed.

End OnTheStore.

Lemma stripPrefix_key_eq (m : ModelServe) :
  (cm_Namespace (stripPrefixConfigMap m), cm_Name (stripPrefixConfigMap m))
  = stripPrefix_key m.
Proof. reflexivity. Qed.

Section Settling.

Variables (rt : Runtime) (req : NamespacedName).

(** A reconcile of an object that has a phase and its ConfigMap starts
    from the store as it is. *)
Lemma reconcile_closed_prepared (c : Cluster) (m : ModelServe) :
  modelserves c !! kk req = Some m -> key_of m = req ->
  Phase (Status m) <> "" -> is_Some (configmaps c !! stripPrefix_key m) ->
  effects (run (Reconcile rt req) c) = closed_from_deployment rt m c.
Proof.
  intros Hm Hkey Hp Hcm.
  rewrite (effects_Reconcile rt req c) by (intros ? ?; congruence).
  rewrite (reconcile_closed_found rt req c m Hm).
  rewrite (prepared_id m c Hp) by (by rewrite stripPrefix_key_eq).
  rewrite (initialised_id m Hp).
  apply is_empty_false in Hp as Hp'. rewrite Hp'.
  unfold after_init. rewrite Hp'.
  rewrite stripPrefix_key_eq. destruct Hcm as [cm ->].
  unfold prepend_effects. cbn [app Nat.add].
  by destruct (closed_from_deployment rt m c) as [[[? ?] ?] ?].
Qed.

Lemma run_missing_service (c : Cluster) (m : ModelServe) (found : Deployment) :
  modelserves c !! kk req = Some m -> key_of m = req ->
  Phase (Status m) <> "" -> is_Some (configmaps c !! stripPrefix_key m) ->
  deployments c !! kk req = Some found -> services c !! kk req = None ->
  result (run (Reconcile rt req) c) = (mkResult true, None)
  /\ after (run (Reconcile rt req) c)
     = set_services (<[kk req := serviceForModelServe m]> (services c)) c.
Proof.
  intros Hm Hkey Hp Hcm Hd Hs.
  rewrite effects_result, effects_after.
  rewrite (reconcile_closed_prepared c m Hm Hkey Hp Hcm).
  unfold closed_from_deployment. rewrite Hkey, Hd, Hs. cbn [fst snd].
  split; [reflexivity |].
  assert (Hk : (svc_Namespace (serviceForModelServe m),
                svc_Name (serviceForModelServe m)) = kk req).
  { change (kk (key_of m) = kk req). by rewrite Hkey. }
  unfold handle. by rewrite Hk, Hs.
Qed.

Lemma run_missing_ingress (c : Cluster) (m : ModelServe) (found : Deployment)
    (svc : Service) :
  modelserves c !! kk req = Some m -> key_of m = req ->
  Phase (Status m) <> "" -> is_Some (configmaps c !! stripPrefix_key m) ->
  deployments c !! kk req = Some found -> services c !! kk req = Some svc ->
  ingresses c !! kk req = None ->
  result (run (Reconcile rt req) c) = (mkResult true, None)
  /\ after (run (Reconcile rt req) c)
     = set_ingresses (<[kk req := ingressForModelServe m]> (ingresses c)) c.
Proof.
  intros Hm Hkey Hp Hcm Hd Hs Hi.
  rewrite effects_result, effects_after.
  rewrite (reconcile_closed_prepared c m Hm Hkey Hp Hcm).
  unfold closed_from_deployment. rewrite Hkey, Hd, Hs, Hi. cbn [fst snd].
  split; [reflexivity |].
  assert (Hk : (ing_Namespace (ingressForModelServe m),
                ing_Name (ingressForModelServe m)) = kk req).
  { change (kk (key_of m) = kk req). by rewrite Hkey. }
  unfold handle. by rewrite Hk, Hi.
Qed.

Lemma workload_present_env (t av : Z) (c : Cluster) :
  workload_present req c ->
  workload_present req (at_time t (report_available req av c))
  /\ children_missing req (at_time t (report_available req av c))
     = children_missing req c.
Proof.
  intros (m & Hm & Hkey & Hp & Hcm & [d Hd]).
  destruct (env_frame req t av c) as (Ems & Ess & Eis & Eds). cbn zeta in *.
  split.
  - exists m. rewrite Ems, env_frame_configmaps, Eds, Hd.
    repeat split; try assumption. by eexists.
  - unfold children_missing. by rewrite Ess, Eis.
Qed.

(** One reconcile once the workload exists: it asks for a requeue exactly
    when the network endpoint or the route is still missing, and then one
    fewer is missing afterwards. *)
Lemma settling_run (c : Cluster) :
  workload_present req c ->
  result (run (Reconcile rt req) c)
  = (mkResult (negb (Nat.eqb (children_missing req c) 0)), None)
  /\ workload_present req (after (run (Reconcile rt req) c))
  /\ children_missing req (after (run (Reconcile rt req) c))
     = Nat.pred (children_missing req c).
Proof.
  intros (m & Hm & Hkey & Hp & Hcm & [found Hd]).
  unfold children_missing.
  destruct (services c !! kk req) as [svc |] eqn:Hs.
  1: destruct (ingresses c !! kk req) as [ing |] eqn:Hi.
  - destruct (reconcile_complete_status rt req c m found svc ing
                Hm Hkey Hd Hs Hi)
      as (Hr & Hms & Hds & Hss & His & _ & _ & Hc & _).
    cbn zeta in *. split; [exact Hr |]. split.
    + exists (with_status m
                (fst (nextStatus found (serviceForModelServe m)
                        (initialised m) (clock c) (pods_of m c)))).
      rewrite Hms, Hds, Hd, lookup_insert_eq.
      repeat split; try assumption; try by eexists.
      cbn [Status with_status]. apply nextStatus_phase_set.
      rewrite (initialised_id m Hp). exact Hp.
    + by rewrite Hss, His, Hs, Hi.
  - destruct (run_missing_ingress c m found svc Hm Hkey Hp Hcm Hd Hs Hi)
      as [Hr Ha].
    rewrite Hr, Ha.
    cbn [modelserves configmaps deployments services ingresses set_ingresses].
    rewrite Hs, lookup_insert_eq. split; [reflexivity |]. split; [| reflexivity].
    exists m. repeat split; try assumption. by eexists.
  - destruct (run_missing_service c m found Hm Hkey Hp Hcm Hd Hs) as [Hr Ha].
    rewrite Hr, Ha.
    cbn [modelserves configmaps deployments services ingresses set_services].
    rewrite lookup_insert_eq.
    split; [by destruct (ingresses c !! kk req) |].
    split; [| by destruct (ingresses c !! kk req)].
    exists m. repeat split; try assumption. by eexists.
Qed.

End Settling.

Section Settled.

Variables (rt : Runtime) (req : NamespacedName).

Lemma settled_runs (steps : list (Z * Z)) (c : Cluster) :
  workload_present req c -> children_missing req c = 0%nat ->
  result <$> reconcile_runs rt req steps c
  = repeat (mkResult false, None) (length steps).
Proof.
  revert c. induction steps as [| [t av] steps IH]; intros c Hw Hk;
    [reflexivity |].
  cbn [reconcile_runs fmap list_fmap length repeat].
  destruct (workload_present_env req t av c Hw) as [HwE HkE].
  rewrite Hk in HkE.
  destruct (settling_run rt req _ HwE) as (Hr & Hw' & Hk').
  rewrite HkE in Hr, Hk'. cbn [Nat.eqb negb Nat.pred] in Hr, Hk'.
  rewrite Hr. f_equal. by apply IH.
Qed.

(** X20: a fresh object with none of its children in the store is settled
    by four reconciles, whatever the clock and the readiness reported in
    between: the first three each create what is missing and ask for a
    requeue, the fourth and every later one returns without requeue, and
    none returns an error. *)
Theorem fresh_object_settles_in_four_runs (s1 s2 s3 : Z * Z)
    (steps : list (Z * Z)) (c : Cluster) (m : ModelServe) :
  modelserves c !! kk req = Some m -> key_of m = req ->
  Phase (Status m) = "" ->
  deployments c !! kk req = None -> services c !! kk req = None ->
  ingresses c !! kk req = None ->
  result <$> reconcile_runs rt req (s1 :: s2 :: s3 :: steps) c
  = ([(mkResult true, None); (mkResult true, None); (mkResult true, None)]
     ++ repeat (mkResult false, None) (length steps))%list.
Proof.
  intros Hm Hkey Hp Hd Hs Hi.
  destruct s1 as [t1 a1], s2 as [t2 a2], s3 as [t3 a3].
  cbn [reconcile_runs fmap list_fmap app].
  (* the first run creates the ConfigMap and the Deployment *)
  set (c1 := at_time t1 (report_available req a1 c)).
  destruct (env_frame req t1 a1 c) as (Ems & Ess & Eis & Eds).
  cbn zeta in *. fold c1 in Ems, Ess, Eis, Eds.
  rewrite Hd in Eds. cbn [fmap option_fmap option_map] in Eds.
  destruct (run_missing_deployment rt req c1 m) as (R1 & D1 & M1 & S1 & I1 & C1);
    [by rewrite Ems | assumption | assumption |].
  set (o1 := run (Reconcile rt req) c1) in *.
  assert (W1 : workload_present req (after o1)).
  { exists (with_status m
              (set_Message "Downloading model from MinIO"
                 (set_Phase "Downloading" (Status m)))).
    rewrite M1, D1, !lookup_insert_eq.
    repeat split; try assumption; try discriminate; by eexists. }
  assert (K1 : children_missing req (after o1) = 2%nat).
  { unfold children_missing. by rewrite S1, I1, Ess, Eis, Hs, Hi. }
  rewrite R1. f_equal.
  (* the second creates the Service *)
  destruct (workload_present_env req t2 a2 _ W1) as [W1E K1E].
  rewrite K1 in K1E.
  destruct (settling_run rt req _ W1E) as (R2 & W2 & K2).
  rewrite K1E in R2, K2. cbn [Nat.eqb negb Nat.pred] in R2, K2.
  rewrite R2. f_equal.
  (* the third creates the Ingress *)
  destruct (workload_present_env req t3 a3 _ W2) as [W2E K2E].
  rewrite K2 in K2E.
  destruct (settling_run rt req _ W2E) as (R3 & W3 & K3).
  rewrite K2E in R3, K3. cbn [Nat.eqb negb Nat.pred] in R3, K3.
  rewrite R3. f_equal.
  by apply settled_runs.
Qed.

(** X21: once the three children exist, a reconcile leaves in the stored
    status the phase [next_phase] gives: Running when the Deployment
    reports an available replica; otherwise Downloading and Failed are
    kept and every other phase becomes Pending. *)
Theorem settled_phase (c : Cluster) (m : ModelServe) (found : Deployment)
    (svc : Service) (ing : Ingress) :
  modelserves c !! kk req = Some m -> key_of m = req ->
  deployments c !! kk req = Some found ->
  services c !! kk req = Some svc -> ingresses c !! kk req = Some ing ->
  Phase <$> stored_status req (after (run (Reconcile rt req) c))
  = Some (next_phase (dep_AvailableReplicas found) (Phase (Status m))).
Proof.
  intros Hm Hkey Hd Hs Hi.
  destruct (reconcile_complete_status rt req c m found svc ing
              Hm Hkey Hd Hs Hi) as (_ & Hms & _).
  cbn zeta in Hms. unfold stored_status.
  rewrite Hms, lookup_insert_eq. cbn [fmap option_fmap option_map].
  cbn [Status with_status]. rewrite nextStatus_Phase. f_equal.
  unfold initialised, next_phase.
  destruct (is_empty (Phase (Status m))) eqn:E; [| reflexivity].
  apply is_empty_true in E. by rewrite E.
Qed.

(** X22: once the three children exist, a reconcile that sees an
    available replica leaves in [podName] the name of the first pod in
    phase Running among the pods with the object's labels, in list order;
    when none is Running, or no replica is available, [podName] stays as it
    was (it is never cleared). *)
Theorem settled_podName (c : Cluster) (m : ModelServe) (found : Deployment)
    (svc : Service) (ing : Ingress) :
  modelserves c !! kk req = Some m -> key_of m = req ->
  deployments c !! kk req = Some found ->
  services c !! kk req = Some svc -> ingresses c !! kk req = Some ing ->
  PodName <$> stored_status req (after (run (Reconcile rt req) c))
  = Some (if Z.ltb 0 (dep_AvailableReplicas found)
          then match first_running (pods_of m c) with
               | Some p => pod_Name p
               | None => PodName (Status m)
               end
          else PodName (Status m)).
Proof.
  intros Hm Hkey Hd Hs Hi.
  destruct (reconcile_complete_status rt req c m found svc ing
              Hm Hkey Hd Hs Hi) as (_ & Hms & _).
  cbn zeta in Hms. unfold stored_status.
  rewrite Hms, lookup_insert_eq. cbn [fmap option_fmap option_map].
  cbn [Status with_status]. rewrite nextStatus_PodName. f_equal.
  assert (Hn : PodName (Status (initialised m)) = PodName (Status m)).
  { unfold initialised. by destruct (is_empty _). }
  by rewrite Hn.
Qed.

(** X23: [createStripPrefixMiddleware] on the store: it returns no error
    and leaves a ConfigMap under the name with "-stripprefix"; one that was
    there is left as it is, whatever it holds; a second call creates
    nothing. *)
Theorem createStripPrefixMiddleware_ensures (m : ModelServe) (c : Cluster) :
  result (run (createStripPrefixMiddleware m) c) = None
  /\ configmaps (after (run (createStripPrefixMiddleware m) c))
       !! stripPrefix_key m
     = Some (match configmaps c !! stripPrefix_key m with
             | Some cm => cm
             | None => stripPrefixConfigMap m
             end)
  /\ creations
       (calls (run (createStripPrefixMiddleware m)
                 (after (run (createStripPrefixMiddleware m) c))))
     = 0%nat.
Proof.
  unfold createStripPrefixMiddleware.
  unfold mret, mbind, Prog_ret, Prog_bind, trigger. cbn zeta.
  cbn [run log result after calls handle fst snd bind].
  change (kk {| key_Namespace := cm_Namespace (stripPrefixConfigMap m);
                key_Name := cm_Name (stripPrefixConfigMap m) |})
    with (stripPrefix_key m).
  destruct (configmaps c !! stripPrefix_key m) as [cm |] eqn:Hc;
    cbn [get_answer]; rewrite ?IsNotFound_errNotFound;
    cbn [run log result after calls handle fst snd bind].
  - rewrite Hc. cbn [get_answer run result after calls].
    repeat split; try assumption.
  - change (cm_Namespace (stripPrefixConfigMap m),
            cm_Name (stripPrefixConfigMap m)) with (stripPrefix_key m).
    rewrite Hc. cbn [fst snd run result after calls log configmaps
                     set_configmaps].
    rewrite lookup_insert_eq. cbn [get_answer run result after calls].
    repeat split.
Qed.

End Settled.

Lemma same_at_refl (k : string * string) (c : Cluster) : same_at k c c.
Proof. by repeat split. Qed.

Lemma same_at_trans (k : string * string) (c1 c2 c3 : Cluster) :
  same_at k c1 c2 -> same_at k c2 c3 -> same_at k c1 c3.
Proof.
  intros (A1 & A2 & A3 & A4 & A5 & A6 & A7) (B1 & B2 & B3 & B4 & B5 & B6 & B7).
  repeat split; congruence.
Qed.

(** A call leaves alone what is stored under a key it does not write. *)
Lemma handle_same_at {X : Type} (e : clientE X) (c : Cluster)
    (k : string * string) :
  written_key e <> Some k -> same_at k c (snd (handle e c)).
Proof.
  intros Hk.
  destruct e; cbn [handle snd written_key] in *; try apply same_at_refl.
  all: match goal with
       | |- context [match ?x !! ?j with _ => _ end] =>
           destruct (x !! j); cbn [snd]; [| try apply same_at_refl]
       end;
       try apply same_at_refl.
  all: unfold same_at;
    cbn [modelserves configmaps deployments services ingresses pods clock
         set_modelserves set_configmaps set_deployments set_services
         set_ingresses];
    rewrite lookup_insert_ne by congruence; by repeat split.
Qed.

Section Frame.

Variables (rt : Runtime) (req : NamespacedName).

(** X24: on the store, a reconcile leaves alone whatever is stored under
    another name: apart from the objects named as the request, and the
    ConfigMap named as the request with "-stripprefix" appended, nothing
    is created, changed or removed; pods and clock are not touched. *)
Theorem reconcile_touches_only_its_objects (c : Cluster)
    (k : string * string) :
  (forall m, modelserves c !! kk req = Some m -> key_of m = req) ->
  k <> kk req ->
  k <> (key_Namespace req, key_Name req ++ "-stripprefix") ->
  same_at k c (after (run (Reconcile rt req) c)).
Proof.
  intros Hwf Hk Hs.
  rewrite effects_after, (effects_Reconcile rt req c Hwf).
  unfold reconcile_closed.
  destruct (modelserves c !! kk req) as [m |] eqn:Hm;
    [| apply same_at_refl].
  specialize (Hwf m eq_refl).
  assert (Hk0 : kk (key_of (initialised m)) = kk req).
  { by rewrite key_of_initialised, Hwf. }
  assert (Hs0 : stripPrefix_key (initialised m)
                = (key_Namespace req, key_Name req ++ "-stripprefix")).
  { unfold stripPrefix_key. rewrite initialised_meta. by rewrite <- Hwf. }
  cbn zeta. unfold prepend_effects. cbn [fst snd].
  set (c0 := if is_empty (Phase (Status m)) then _ else c).
  assert (H0 : same_at k c c0).
  { unfold c0. destruct (is_empty _); [| apply same_at_refl].
    apply handle_same_at. cbn [written_key]. congruence. }
  rewrite stripPrefix_key_eq.
  set (c1 := if match configmaps c0 !! _ with None => true | Some _ => false end
             then _ else c0).
  assert (H1 : same_at k c0 c1).
  { unfold c1. destruct (configmaps c0 !! _); [apply same_at_refl |].
    apply handle_same_at. cbn [written_key].
    rewrite stripPrefix_key_eq. congruence. }
  apply (same_at_trans k c c1); [by apply (same_at_trans k c c0) |].
  unfold closed_from_deployment. rewrite Hk0.
  assert (Hd : written_key (CreateDeployment
                              (deploymentForModelServe rt (initialised m)))
               <> Some k).
  { change (Some (kk (key_of (initialised m))) <> Some k). congruence. }
  assert (Hsv : written_key (CreateService
                               (serviceForModelServe (initialised m)))
                <> Some k).
  { change (Some (kk (key_of (initialised m))) <> Some k). congruence. }
  assert (Hin : written_key (CreateIngress
                               (ingressForModelServe (initialised m)))
                <> Some k).
  { change (Some (kk (key_of (initialised m))) <> Some k). congruence. }
  assert (Hst : forall st,
            written_key (StatusUpdate (with_status (initialised m) st))
            <> Some k).
  { intros st. cbn [written_key]. rewrite key_of_with_status. congruence. }
  destruct (deployments c1 !! kk req) as [found |]; cbn [fst snd].
  2:{ eapply same_at_trans; [| apply handle_same_at; exact Hd].
      apply handle_same_at, Hst. }
  destruct (services c1 !! kk req) as [svc |]; cbn [fst snd].
  2:{ by apply handle_same_at. }
  destruct (ingresses c1 !! kk req) as [ing |]; cbn [fst snd].
  2:{ by apply handle_same_at. }
  destruct (snd (nextStatus _ _ _ _ _)); [| apply same_at_refl].
  apply handle_same_at, Hst.
Qed.

End Frame.

(* ===================================================================== *)

(** * The controller in its first version *)

(* ===================================================================== *)

Module legacy_facts.
Import legacy.

Lemma runs_inversion {A : Type} (p : Prog A) (tr : list event) (a : A) :
  runs p tr a ->
  match p with
  | Ret b => tr = [] /\ a = b
  | Vis e k => exists x tr', tr = Ev e x :: tr' /\ runs (k x) tr' a
  end.
Proof. intros H. destruct H; eauto. Qed.

Ltac legacy_simpl H :=
  unfold mret, mbind, Prog_ret, Prog_bind in H; cbn [bind trigger] in H.

Ltac legacy_step :=
  match goal with
  | H : runs (Ret _) _ _ |- _ =>
      apply runs_inversion in H; destruct H as [-> ->]
  | H : runs (Vis _ _) _ _ |- _ =>
      let x := fresh "ans" in
      apply runs_inversion in H; destruct H as (x & ? & -> & H)
  | H : runs ?p _ _ |- _ =>
      match p with
      | context [match ?x with _ => _ end] =>
          let E := fresh "E" in destruct x eqn:E
      | context [if ?b then _ else _] =>
          let E := fresh "E" in destruct b eqn:E
      end; legacy_simpl H
  end.

Ltac legacy_paths H :=
  unfold Reconcile, reconcileService, reconcileIngress, reconcileStatus in H;
  legacy_simpl H; repeat legacy_step.

(** X25 (first version): an invocation makes at most one create call; it
    asks for a requeue exactly when that create was answered without
    error, and then it returns no error. *)
Theorem one_create_per_invocation (req : NamespacedName) (tr : list event)
    (res : Result * option APIError) :
  runs (Reconcile req) tr res ->
  (length (List.filter is_create tr) <= 1)%nat
  /\ Requeue (fst res) = existsb created tr
  /\ (Requeue (fst res) = true -> snd res = None).
Proof.
  intros H. legacy_paths H.
  all: cbn [List.filter is_create existsb created orb length fst snd Requeue].
  all: repeat split; try lia; try reflexivity; try congruence.
Qed.


End legacy_facts.

(** X27: the two versions of the builders name the children alike, so the
    second version finds what the first created: same namespace, name,
    selector and replicas for the Deployment, the same Service up to the
    labels of the object, the same Ingress up to the middleware
    annotation. *)
Theorem builders_agree_across_versions (rt : Runtime) (m : ModelServe) :
  (legacy.dep_Namespace (legacy.deploymentForModelServe m),
   legacy.dep_Name (legacy.deploymentForModelServe m))
  = (dep_Namespace (deploymentForModelServe rt m),
     dep_Name (deploymentForModelServe rt m))
  /\ legacy.dep_MatchLabels (legacy.deploymentForModelServe m)
     = dep_MatchLabels (deploymentForModelServe rt m)
  /\ legacy.dep_Replicas (legacy.deploymentForModelServe m)
     = dep_Replicas (deploymentForModelServe rt m)
  /\ serviceForModelServe m
     = mkService (svc_Name (legacy.serviceForModelServe m))
         (svc_Namespace (legacy.serviceForModelServe m))
         (labelsForModelServe (Name (Meta m)))
         (svc_Selector (legacy.serviceForModelServe m))
         (svc_Port (legacy.serviceForModelServe m))
         (svc_TargetPort (legacy.serviceForModelServe m))
         (svc_Type (legacy.serviceForModelServe m))
  /\ ingressForModelServe m
     = mkIngress (ing_Name (legacy.ingressForModelServe m))
         (ing_Namespace (legacy.ingressForModelServe m))
         (ing_Annotations (ingressForModelServe m))
         (ing_Labels (legacy.ingressForModelServe m))
         (ing_IngressClassName (legacy.ingressForModelServe m))
         (ing_Path (legacy.ingressForModelServe m))
         (ing_PathType (legacy.ingressForModelServe m))
         (ing_BackendService (legacy.ingressForModelServe m))
         (ing_BackendPort (legacy.ingressForModelServe m)).
Proof. repeat split. Qed.

(* ===================================================================== *)

(** * The further properties on the scenario *)

(* ===================================================================== *)

Lemma lossy_runs :
  runs (Reconcile rt_unset demo_key) lossy_trace (mkResult true, None).
Proof.
  unfold lossy_trace.
  unfold Reconcile, createStripPrefixMiddleware, reconcileDeployment.
  unfold mret, mbind, Prog_ret, Prog_bind, trigger.
  repeat (cbn [bind]; apply runs_Vis; cbv beta iota;
          try change (is_empty (Phase (Status demo))) with true;
          try change (IsNotFound errNotFound) with true; cbv beta iota).
  apply runs_Ret.
Qed.

Lemma cluster_of_wf (m m' : ModelServe) :
  modelserves (cluster_of m) !! kk (key_of m) = Some m' ->
  key_of m' = key_of m.
Proof.
  unfold cluster_of. cbn [modelserves]. rewrite lookup_singleton_eq.
  by intros [= <-].
Qed.

Lemma parent_lookup_failure_witness :
  exists x tl,
    calls (run (Reconcile rt_unset demo_key) empty_cluster)
    = Ev (GetModelServe demo_key) x :: tl
    /\ forall e, x = inl e ->
         tl = []
         /\ result (run (Reconcile rt_unset demo_key) empty_cluster)
            = (mkResult false, if IsNotFound e then None else Some e).
Proof.
  apply (parent_lookup_failure rt_unset demo_key _ _
           (runs_run (Reconcile rt_unset demo_key) empty_cluster)).
Defined.

Lemma one_child_per_invocation_witness :
  (length (List.filter is_child_create lossy_trace) <= 1)%nat
  /\ (creations lossy_trace <= 2)%nat
  /\ Requeue (fst (mkResult true, @None APIError))
     = existsb child_created lossy_trace
  /\ (Requeue (fst (mkResult true, @None APIError)) = true ->
      snd (mkResult true, @None APIError) = None).
Proof.
  apply (one_child_per_invocation rt_unset demo_key lossy_trace _ lossy_runs).
Defined.


Lemma creates_are_built_from_parent_witness :
  built_for rt_unset demo
    (Ev (CreateDeployment (deploymentForModelServe rt_unset demo_pending))
        None).
Proof.
  apply (creates_are_built_from_parent rt_unset demo_key lossy_trace _ demo _
           lossy_runs).
  - apply list_elem_of_here.
  - unfold lossy_trace. do 6 apply list_elem_of_further.
    apply list_elem_of_here.
Defined.

Lemma errors_returned_or_best_effort_witness :
  (forall ev, ev ∈ lossy_trace ->
     error_accounted (mkResult true, None) ev)
  /\ (forall e, snd (mkResult true, @None APIError) = Some e ->
      exists ev, ev ∈ lossy_trace /\ call_error ev = Some e).
Proof.
  apply (errors_returned_or_best_effort rt_unset demo_key lossy_trace _
           lossy_runs).
Defined.

Lemma running_written_when_ready_witness :
  running_write_ok demo_downloading
    (omap observed_deployment
       (calls (run (Reconcile rt_unset demo_key)
                 (at_time 100 (demo_cluster (Status demo_downloading) 1)))))
    (demo_running 100)
  /\ omap observed_service
       (calls (run (Reconcile rt_unset demo_key)
                 (at_time 100 (demo_cluster (Status demo_downloading) 1))))
     <> []
  /\ omap observed_ingress
       (calls (run (Reconcile rt_unset demo_key)
                 (at_time 100 (demo_cluster (Status demo_downloading) 1))))
     <> [].
Proof.
  apply (running_written_when_ready rt_unset demo_key _ _
           demo_downloading (demo_running 100)
           (runs_run (Reconcile rt_unset demo_key)
              (at_time 100 (demo_cluster (Status demo_downloading) 1)))).
  - vm_compute. apply list_elem_of_here.
  - vm_compute. apply list_elem_of_here.
  - reflexivity.
Defined.

Lemma sequential_reconcile_never_fails_witness :
  snd (result (run (Reconcile rt_unset demo_key) (cluster_of demo))) = None.
Proof.
  apply (sequential_reconcile_never_fails rt_unset demo_key (cluster_of demo)).
  apply (cluster_of_wf demo).
Defined.

Lemma missing_workload_is_recreated_witness :
  result (run (Reconcile rt_unset demo_key) (cluster_of (demo_running 100)))
  = (mkResult true, None)
  /\ deployments
       (after (run (Reconcile rt_unset demo_key)
                 (cluster_of (demo_running 100))))
     = <[kk demo_key := deploymentForModelServe rt_unset (demo_running 100)]>
         (deployments (cluster_of (demo_running 100)))
  /\ modelserves
       (after (run (Reconcile rt_unset demo_key)
                 (cluster_of (demo_running 100))))
     = <[kk demo_key :=
           with_status (demo_running 100)
             (set_Message "Downloading model from MinIO"
                (set_Phase "Downloading" (Status (demo_running 100))))]>
         (modelserves (cluster_of (demo_running 100)))
  /\ services
       (after (run (Reconcile rt_unset demo_key)
                 (cluster_of (demo_running 100))))
     = services (cluster_of (demo_running 100))
  /\ ingresses
       (after (run (Reconcile rt_unset demo_key)
                 (cluster_of (demo_running 100))))
     = ingresses (cluster_of (demo_running 100))
  /\ is_Some
       (configmaps
          (after (run (Reconcile rt_unset demo_key)
                    (cluster_of (demo_running 100))))
          !! stripPrefix_key (demo_running 100)).
Proof.
  apply (missing_workload_is_recreated rt_unset demo_key
           (cluster_of (demo_running 100)) (demo_running 100)).
  - vm_compute. reflexivity.
  - reflexivity.
  - vm_compute. reflexivity.
Defined.

Lemma fresh_object_settles_in_four_runs_witness :
  result
    <$> reconcile_runs rt_unset demo_key
          ((10, 0) :: (20, 0) :: (30, 0) :: [(40, 0); (50, 1)])
          (cluster_of demo)
  = ([(mkResult true, None); (mkResult true, None); (mkResult true, None)]
     ++ repeat (mkResult false, None) (length [(40, 0); (50, 1)]))%list.
Proof.
  apply (fresh_object_settles_in_four_runs rt_unset demo_key
           (10, 0) (20, 0) (30, 0) [(40, 0); (50, 1)] (cluster_of demo) demo);
    vm_compute; reflexivity.
Defined.

Lemma settled_phase_witness :
  Phase
    <$> stored_status demo_key
          (after (run (Reconcile rt_unset demo_key)
                    (demo_cluster (Status (demo_failed errAlreadyExists)) 0)))
  = Some (next_phase
            (dep_AvailableReplicas
               (with_available 0
                  (deploymentForModelServe rt_unset
                     (demo_failed errAlreadyExists))))
            (Phase (Status (demo_failed errAlreadyExists)))).
Proof.
  apply (settled_phase rt_unset demo_key
           (demo_cluster (Status (demo_failed errAlreadyExists)) 0)
           (demo_failed errAlreadyExists)
           (with_available 0
              (deploymentForModelServe rt_unset
                 (demo_failed errAlreadyExists)))
           (serviceForModelServe (demo_failed errAlreadyExists))
           (ingressForModelServe (demo_failed errAlreadyExists)));
    vm_compute; reflexivity.
Defined.

Lemma settled_podName_witness :
  PodName
    <$> stored_status demo_key
          (after (run (Reconcile rt_unset demo_key)
                    (with_pods demo_pods
                       (demo_cluster (Status demo_downloading) 1))))
  = Some (if Z.ltb 0 (dep_AvailableReplicas
                        (with_available 1
                           (deploymentForModelServe rt_unset
                              demo_downloading)))
          then match first_running
                       (pods_of demo_downloading
                          (with_pods demo_pods
                             (demo_cluster (Status demo_downloading) 1))) with
               | Some p => pod_Name p
               | None => PodName (Status demo_downloading)
               end
          else PodName (Status demo_downloading)).
Proof.
  apply (settled_podName rt_unset demo_key
           (with_pods demo_pods (demo_cluster (Status demo_downloading) 1))
           demo_downloading
           (with_available 1
              (deploymentForModelServe rt_unset demo_downloading))
           (serviceForModelServe demo_downloading)
           (ingressForModelServe demo_downloading));
    vm_compute; reflexivity.
Defined.

(** The scenario, evaluated: the pod listing skips the pod of the other
    object and the pod that is not running. *)
Example demo_podName :
  PodName
    <$> stored_status demo_key
          (after (run (Reconcile rt_unset demo_key)
                    (with_pods demo_pods
                       (demo_cluster (Status demo_downloading) 1))))
  = Some "demo-5c9d-k8s4q".
Proof. vm_compute. reflexivity. Qed.

Lemma reconcile_touches_only_its_objects_witness :
  same_at ("default", "other") (cluster_of demo)
    (after (run (Reconcile rt_unset demo_key) (cluster_of demo))).
Proof.
  apply (reconcile_touches_only_its_objects rt_unset demo_key
           (cluster_of demo) ("default", "other")).
  - apply (cluster_of_wf demo).
  - discriminate.
  - discriminate.
Defined.

Lemma legacy_create_runs :
  legacy.runs (legacy.Reconcile demo_key) legacy.create_trace
    (mkResult true, None).
Proof.
  unfold legacy.create_trace, legacy.Reconcile.
  unfold mret, mbind, legacy.Prog_ret, legacy.Prog_bind, legacy.trigger.
  repeat (cbn [legacy.bind]; apply legacy.runs_Vis; cbv beta iota;
          try change (IsNotFound errNotFound) with true; cbv beta iota).
  apply legacy.runs_Ret.
Qed.


Lemma one_create_per_invocation_witness :
  (length (List.filter legacy.is_create legacy.create_trace) <= 1)%nat
  /\ Requeue (fst (mkResult true, @None APIError))
     = existsb legacy.created legacy.create_trace
  /\ (Requeue (fst (mkResult true, @None APIError)) = true ->
      snd (mkResult true, @None APIError) = None).
Proof.
  apply (legacy_facts.one_create_per_invocation demo_key legacy.create_trace
           _ legacy_create_runs).
Defined.

